(** * Timestamp pacing and chapter synchronisation of libhb/encavcodec.c

    A shallow embedding of the part of [encavcodec.c] that sits between the
    frames HandBrake hands to libavcodec and the packets it gets back:
    the frame info ring ([save_frame_info], [get_frame_start],
    [get_frame_duration]), the decode timestamp generator
    ([compute_dts_offset], [process_delay_list]), the packet loop
    ([get_packets]) and the two entry points [Encode] and [Flush].

    The private data of the work object is an explicit state value that
    every function takes and returns.  The encoder itself is outside the
    program: what [avcodec_send_frame] answers and which packets
    [avcodec_receive_packet] hands back are inputs of the model.  The
    first pass statistics file is not modelled. *)

From Stdlib Require Import Ascii String.
From Stdlib Require Import ZArith List Lia Bool.
From stdpp Require Import base numbers list.
Import ListNotations.
Local Open Scope Z_scope.

(** ** Machine integers *)

(** The value a [bits]-wide two's complement integer holds after [z] is
    stored in it. *)
Definition wrap (bits z : Z) : Z :=
  (z + 2 ^ (bits - 1)) mod 2 ^ bits - 2 ^ (bits - 1).

(** [int] and [int64_t]. *)
Definition to_int (z : Z) : Z := wrap 32 z.
Definition to_int64 (z : Z) : Z := wrap 64 z.

Definition INT_MAX : Z := 2147483647.
Definition INT64_MAX : Z := 9223372036854775807.

(** ** Data *)

Definition FRAME_INFO_SIZE : Z := 32.
Definition FRAME_INFO_MASK : Z := FRAME_INFO_SIZE - 1.

(** One slot of [frame_info]. *)
Record frame_info_t := {
  fi_start : Z;
  fi_duration : Z
}.

Global Instance frame_info_inhabited : Inhabited frame_info_t :=
  populate {| fi_start := 0; fi_duration := 0 |}.

(** The fields of [hb_buffer_t] the encoder wrapper reads or writes:
    [size], [data] and the settings [s.start], [s.stop], [s.duration],
    [s.renderOffset], [s.flags], [s.frametype], [s.new_chap]. *)
Record hb_buffer_t := {
  b_size : Z;
  b_data : list Z;
  s_start : Z;
  s_stop : Z;
  s_duration : Z;
  s_renderOffset : Z;
  s_flags : Z;
  s_frametype : Z;
  s_new_chap : Z
}.

Definition set_size (v : Z) (b : hb_buffer_t) : hb_buffer_t :=
  {| b_size := v; b_data := b_data b; s_start := s_start b;
     s_stop := s_stop b; s_duration := s_duration b;
     s_renderOffset := s_renderOffset b; s_flags := s_flags b;
     s_frametype := s_frametype b; s_new_chap := s_new_chap b |}.

Definition set_data (v : list Z) (b : hb_buffer_t) : hb_buffer_t :=
  {| b_size := b_size b; b_data := v; s_start := s_start b;
     s_stop := s_stop b; s_duration := s_duration b;
     s_renderOffset := s_renderOffset b; s_flags := s_flags b;
     s_frametype := s_frametype b; s_new_chap := s_new_chap b |}.

Definition set_start (v : Z) (b : hb_buffer_t) : hb_buffer_t :=
  {| b_size := b_size b; b_data := b_data b; s_start := v;
     s_stop := s_stop b; s_duration := s_duration b;
     s_renderOffset := s_renderOffset b; s_flags := s_flags b;
     s_frametype := s_frametype b; s_new_chap := s_new_chap b |}.

Definition set_stop (v : Z) (b : hb_buffer_t) : hb_buffer_t :=
  {| b_size := b_size b; b_data := b_data b; s_start := s_start b;
     s_stop := v; s_duration := s_duration b;
     s_renderOffset := s_renderOffset b; s_flags := s_flags b;
     s_frametype := s_frametype b; s_new_chap := s_new_chap b |}.

Definition set_duration (v : Z) (b : hb_buffer_t) : hb_buffer_t :=
  {| b_size := b_size b; b_data := b_data b; s_start := s_start b;
     s_stop := s_stop b; s_duration := v;
     s_renderOffset := s_renderOffset b; s_flags := s_flags b;
     s_frametype := s_frametype b; s_new_chap := s_new_chap b |}.

Definition set_renderOffset (v : Z) (b : hb_buffer_t) : hb_buffer_t :=
  {| b_size := b_size b; b_data := b_data b; s_start := s_start b;
     s_stop := s_stop b; s_duration := s_duration b;
     s_renderOffset := v; s_flags := s_flags b;
     s_frametype := s_frametype b; s_new_chap := s_new_chap b |}.

Definition set_flags (v : Z) (b : hb_buffer_t) : hb_buffer_t :=
  {| b_size := b_size b; b_data := b_data b; s_start := s_start b;
     s_stop := s_stop b; s_duration := s_duration b;
     s_renderOffset := s_renderOffset b; s_flags := v;
     s_frametype := s_frametype b; s_new_chap := s_new_chap b |}.

Definition set_frametype (v : Z) (b : hb_buffer_t) : hb_buffer_t :=
  {| b_size := b_size b; b_data := b_data b; s_start := s_start b;
     s_stop := s_stop b; s_duration := s_duration b;
     s_renderOffset := s_renderOffset b; s_flags := s_flags b;
     s_frametype := v; s_new_chap := s_new_chap b |}.

Definition set_new_chap (v : Z) (b : hb_buffer_t) : hb_buffer_t :=
  {| b_size := b_size b; b_data := b_data b; s_start := s_start b;
     s_stop := s_stop b; s_duration := s_duration b;
     s_renderOffset := s_renderOffset b; s_flags := s_flags b;
     s_frametype := s_frametype b; s_new_chap := v |}.

(** The fields of libavcodec's [AVPacket] that [get_packets] reads. *)
Record AVPacket := {
  pkt_pts : Z;
  pkt_flags : Z;
  pkt_size : Z;
  pkt_data : list Z
}.

(** The fields of the [AVFrame] that [Encode] fills in besides the picture
    planes.  [AVFrame frame = {0}] starts them all at zero. *)
Record AVFrame := {
  pict_type : Z;
  key_frame : Z;
  quality : Z;
  pts : Z
}.

Definition AVFrame_zero : AVFrame :=
  {| pict_type := 0; key_frame := 0; quality := 0; pts := 0 |}.

(** What the encoder does during one call of [Encode] or [Flush]: the
    return value of [avcodec_send_frame], and the packets that the calls of
    [avcodec_receive_packet] hand back, in order, before the call that
    answers [AVERROR(EAGAIN)] or [AVERROR_EOF].  A call that fails in
    another way is logged and the loop goes on with the packet as that
    call left it, so such a packet is one of [received] too. *)
Record enc_reply := {
  send_ret : Z;
  received : list AVPacket
}.

(** The fields of [hb_job_t] used here; [init_delay] is
    [job->config.init_delay]. *)
Record hb_job_t := {
  areBframes : Z;
  chapter_markers : Z;
  init_delay : Z
}.

(** Modelled from the spec: [hb_chapter_queue_t] and its functions are
    declared in a header and defined in another file of libhb.  A pending
    mark is created when a frame requests a chapter boundary and remembers
    that frame (the call passes the input buffer, so the mark keeps its
    start time) and the boundary it asks for. *)
Record PendingChapterMark := {
  mark_start : Z;
  mark_new_chap : Z
}.

(** Modelled from the spec: the pending marks are "held in a FIFO queue",
    oldest first. *)
Definition hb_chapter_queue_t : Type := list PendingChapterMark.

(** Modelled from the spec: [hb_chapter_queue_init] gives the empty queue. *)
Definition hb_chapter_queue_init : hb_chapter_queue_t := [].

(** Modelled from the spec: "push PendingChapterMark onto the FIFO". *)
Definition hb_chapter_enqueue (q : hb_chapter_queue_t) (buf : hb_buffer_t)
  : hb_chapter_queue_t :=
  q ++ [ {| mark_start := s_start buf; mark_new_chap := s_new_chap buf |} ].

(** Modelled from the spec: "pop the oldest pending mark (if any) and
    attach its chapter boundary to this packet; if no mark is pending, the
    packet carries no chapter boundary" (the buffer is left as it is). *)
Definition hb_chapter_dequeue (q : hb_chapter_queue_t) (buf : hb_buffer_t)
  : hb_chapter_queue_t * hb_buffer_t :=
  match q with
  | [] => ([], buf)
  | item :: q' => (q', set_new_chap (mark_new_chap item) buf)
  end.

(** Modelled from the spec: [hb_buffer_list_t] is "an internal ordered
    buffer (append-only, released only as a full run)"; the list functions
    are defined in another file of libhb.  [hb_buffer_list_append] adds a buffer at the end
    (nothing for [NULL]), [hb_buffer_list_clear] empties the list and
    returns the chain it held. *)
Definition hb_buffer_list_t : Type := list hb_buffer_t.

Definition hb_buffer_list_append (l : hb_buffer_list_t)
  (buf : option hb_buffer_t) : hb_buffer_list_t :=
  match buf with
  | Some b => l ++ [b]
  | None => l
  end.

(** [hb_work_private_s].  [job] is the job the pointer [pv->job] refers
    to, [global_quality] is [pv->context->global_quality]. *)
Record hb_work_private_t := {
  job : hb_job_t;
  global_quality : Z;
  frameno_in : Z;
  frameno_out : Z;
  delay_list : hb_buffer_list_t;
  dts_delay : Z;
  frame_info : list frame_info_t;
  chapter_queue : hb_chapter_queue_t
}.

Definition set_job (v : hb_job_t) (pv : hb_work_private_t) :=
  {| job := v; global_quality := global_quality pv;
     frameno_in := frameno_in pv; frameno_out := frameno_out pv;
     delay_list := delay_list pv; dts_delay := dts_delay pv;
     frame_info := frame_info pv; chapter_queue := chapter_queue pv |}.

Definition set_frameno_in (v : Z) (pv : hb_work_private_t) :=
  {| job := job pv; global_quality := global_quality pv;
     frameno_in := v; frameno_out := frameno_out pv;
     delay_list := delay_list pv; dts_delay := dts_delay pv;
     frame_info := frame_info pv; chapter_queue := chapter_queue pv |}.

Definition set_frameno_out (v : Z) (pv : hb_work_private_t) :=
  {| job := job pv; global_quality := global_quality pv;
     frameno_in := frameno_in pv; frameno_out := v;
     delay_list := delay_list pv; dts_delay := dts_delay pv;
     frame_info := frame_info pv; chapter_queue := chapter_queue pv |}.

Definition set_delay_list (v : hb_buffer_list_t) (pv : hb_work_private_t) :=
  {| job := job pv; global_quality := global_quality pv;
     frameno_in := frameno_in pv; frameno_out := frameno_out pv;
     delay_list := v; dts_delay := dts_delay pv;
     frame_info := frame_info pv; chapter_queue := chapter_queue pv |}.

Definition set_dts_delay (v : Z) (pv : hb_work_private_t) :=
  {| job := job pv; global_quality := global_quality pv;
     frameno_in := frameno_in pv; frameno_out := frameno_out pv;
     delay_list := delay_list pv; dts_delay := v;
     frame_info := frame_info pv; chapter_queue := chapter_queue pv |}.

Definition set_frame_info (v : list frame_info_t) (pv : hb_work_private_t) :=
  {| job := job pv; global_quality := global_quality pv;
     frameno_in := frameno_in pv; frameno_out := frameno_out pv;
     delay_list := delay_list pv; dts_delay := dts_delay pv;
     frame_info := v; chapter_queue := chapter_queue pv |}.

Definition set_chapter_queue (v : hb_chapter_queue_t)
  (pv : hb_work_private_t) :=
  {| job := job pv; global_quality := global_quality pv;
     frameno_in := frameno_in pv; frameno_out := frameno_out pv;
     delay_list := delay_list pv; dts_delay := dts_delay pv;
     frame_info := frame_info pv; chapter_queue := v |}.

Definition set_init_delay (v : Z) (j : hb_job_t) : hb_job_t :=
  {| areBframes := areBframes j; chapter_markers := chapter_markers j;
     init_delay := v |}.

Definition set_areBframes (v : Z) (j : hb_job_t) : hb_job_t :=
  {| areBframes := v; chapter_markers := chapter_markers j;
     init_delay := init_delay j |}.

Definition set_chapter_markers (v : Z) (j : hb_job_t) : hb_job_t :=
  {| areBframes := areBframes j; chapter_markers := v;
     init_delay := init_delay j |}.

(** What the included headers supply and this file does not define: the flag
    and picture type constants, and [hb_buffer_init], which allocates a
    buffer of the given size. *)
Class Headers := {
  AV_PKT_FLAG_KEY : Z;
  AV_PICTURE_TYPE_I : Z;
  HB_FLAG_FRAMETYPE_REF : Z;
  HB_FLAG_FRAMETYPE_KEY : Z;
  hb_buffer_init : Z -> hb_buffer_t
}.

(** ** The frame info ring *)

(** The private data after [calloc], [hb_chapter_queue_init] and
    [hb_buffer_list_clear] in [encavcodecInit]. *)
Definition pv_calloc (j : hb_job_t) (q : Z) : hb_work_private_t :=
  {| job := j; global_quality := q;
     frameno_in := 0; frameno_out := 0;
     delay_list := []; dts_delay := 0;
     frame_info :=
       replicate (Z.to_nat FRAME_INFO_SIZE)
                 {| fi_start := 0; fi_duration := 0 |};
     chapter_queue := hb_chapter_queue_init |}.

(** The end of [encavcodecInit]: [job->areBframes] from the opened
    context's [has_b_frames]; [vt_h265] says whether [job->vcodec] is
    [HB_VCODEC_FFMPEG_VT_H265]. *)
Definition init_areBframes (has_b_frames : Z) (vt_h265 : bool) : Z :=
  if 0 <? has_b_frames
  then (if vt_h265 then 2 else has_b_frames)
  else 0.

Definition encavcodecInit (j : hb_job_t) (q has_b_frames : Z)
  (vt_h265 : bool) : hb_work_private_t :=
  pv_calloc (set_areBframes (init_areBframes has_b_frames vt_h265) j) q.

Definition save_frame_info (pv : hb_work_private_t) (inb : hb_buffer_t)
  : hb_work_private_t :=
  let i := Z.land (frameno_in pv) FRAME_INFO_MASK in
  set_frame_info
    (<[ Z.to_nat i :=
        {| fi_start := s_start inb;
           fi_duration := to_int64 (s_stop inb - s_start inb) |} ]>
       (frame_info pv))
    pv.

Definition get_frame_start (pv : hb_work_private_t) (frameno : Z) : Z :=
  let i := Z.land frameno FRAME_INFO_MASK in
  fi_start (frame_info pv !!! Z.to_nat i).

Definition get_frame_duration (pv : hb_work_private_t) (frameno : Z) : Z :=
  let i := Z.land frameno FRAME_INFO_MASK in
  fi_duration (frame_info pv !!! Z.to_nat i).

(** ** Decode timestamps *)

Definition compute_dts_offset (pv : hb_work_private_t) (buf : hb_buffer_t)
  : hb_work_private_t :=
  if areBframes (job pv) =? 0 then pv
  else if frameno_in pv =? areBframes (job pv)
  then
    let pv1 := set_dts_delay (s_start buf) pv in
    set_job (set_init_delay (dts_delay pv1) (job pv1)) pv1
  else pv.

(** The [while] loop of [process_delay_list]: walks the chain from [bufs]
    on with [pv->frameno_out] at [fo]; gives the rewritten chain and the
    final [pv->frameno_out]. *)
Fixpoint apply_dts (pv : hb_work_private_t) (fo : Z)
  (bufs : list hb_buffer_t) : list hb_buffer_t * Z :=
  match bufs with
  | [] => ([], fo)
  | buf :: rest =>
      let buf' :=
        if fo <? areBframes (job pv)
        then
          let start := get_frame_start pv fo in
          set_renderOffset (to_int64 (start - dts_delay pv)) buf
        else
          set_renderOffset
            (get_frame_start pv (to_int (fo - areBframes (job pv)))) buf in
      let '(out, fo') := apply_dts pv (to_int (fo + 1)) rest in
      (buf' :: out, fo')
  end.

(** [buf] is [None] for a [NULL] pointer; the result is the chain of
    buffers handed back ([[]] for [NULL]). *)
Definition process_delay_list (pv : hb_work_private_t)
  (buf : option hb_buffer_t) : hb_work_private_t * list hb_buffer_t :=
  if negb (areBframes (job pv) =? 0) then
    let pv1 := set_delay_list (hb_buffer_list_append (delay_list pv) buf) pv in
    if frameno_in pv1 <=? areBframes (job pv1) then (pv1, [])
    else
      let '(out, fo) := apply_dts pv1 (frameno_out pv1) (delay_list pv1) in
      (set_delay_list [] (set_frameno_out fo pv1), out)
  else
    match buf with
    | Some b => (pv, [set_renderOffset (s_start b) b])
    | None => (pv, [])
    end.

Section Encoder.
Context `{Headers}.

(** ** The packet loop *)

(** One turn of the loop of [get_packets] for a packet that
    [avcodec_receive_packet] handed back: the buffer as it is passed to
    [process_delay_list], with the chapter queue after it. *)
Definition resolve_packet (pv : hb_work_private_t) (pkt : AVPacket)
  : hb_chapter_queue_t * hb_buffer_t :=
  let out := hb_buffer_init (pkt_size pkt) in
  let n := Z.to_nat (b_size out) in
  let out := set_data (take n (pkt_data pkt) ++ drop n (b_data out)) out in
  let frameno := pkt_pts pkt in
  let out := set_size (pkt_size pkt) out in
  let out := set_start (get_frame_start pv frameno) out in
  let out := set_duration (get_frame_duration pv frameno) out in
  let out := set_stop (to_int64 (s_stop out + s_duration out)) out in
  let out := set_flags HB_FLAG_FRAMETYPE_REF out in
  let out := set_frametype 0 out in
  if negb (Z.land (pkt_flags pkt) AV_PKT_FLAG_KEY =? 0) then
    let out := set_flags (Z.lor (s_flags out) HB_FLAG_FRAMETYPE_KEY) out in
    hb_chapter_dequeue (chapter_queue pv) out
  else (chapter_queue pv, out).

(** [pkts] are the packets the encoder hands back before it answers
    [EAGAIN] or [EOF]; [list] is the caller's output list. *)
Fixpoint get_packets (pv : hb_work_private_t) (pkts : list AVPacket)
  (list : hb_buffer_list_t) : hb_work_private_t * hb_buffer_list_t :=
  match pkts with
  | [] => (pv, list)
  | pkt :: rest =>
      let '(q, out) := resolve_packet pv pkt in
      let pv1 := set_chapter_queue q pv in
      let '(pv2, out') := process_delay_list pv1 (Some out) in
      get_packets pv2 rest (list ++ out')
  end.

(** ** Entry points *)

(** The result also holds the frame that was given to
    [avcodec_send_frame]. *)
Definition Encode (pv : hb_work_private_t) (inb : hb_buffer_t)
  (enc : enc_reply) (list : hb_buffer_list_t)
  : hb_work_private_t * AVFrame * hb_buffer_list_t :=
  let frame := AVFrame_zero in
  let chap :=
    (0 <? s_new_chap inb) && negb (chapter_markers (job pv) =? 0) in
  let frame :=
    if chap
    then {| pict_type := AV_PICTURE_TYPE_I; key_frame := 1;
            quality := quality frame; pts := pts frame |}
    else frame in
  let pv :=
    if chap
    then set_chapter_queue (hb_chapter_enqueue (chapter_queue pv) inb) pv
    else pv in
  let frame :=
    {| pict_type := pict_type frame; key_frame := key_frame frame;
       quality := global_quality pv; pts := pts frame |} in
  let pv := save_frame_info pv inb in
  let pv := compute_dts_offset pv inb in
  let frame :=
    {| pict_type := pict_type frame; key_frame := key_frame frame;
       quality := quality frame; pts := frameno_in pv |} in
  let pv := set_frameno_in (to_int (frameno_in pv + 1)) pv in
  if send_ret enc <? 0 then (pv, frame, list)
  else
    let '(pv', list') := get_packets pv (received enc) list in
    (pv', frame, list').

Definition Flush (pv : hb_work_private_t) (enc : enc_reply)
  (list : hb_buffer_list_t) : hb_work_private_t * hb_buffer_list_t :=
  get_packets pv (received enc) list.

(** The caller's work loop: [encavcodecWork] clears its list and runs
    [Encode] once for every input buffer, in order ... *)
Fixpoint encode_frames (pv : hb_work_private_t)
  (calls : list (hb_buffer_t * enc_reply))
  : hb_work_private_t * list hb_buffer_t :=
  match calls with
  | [] => (pv, [])
  | (inb, enc) :: rest =>
      let '(pv1, _, out1) := Encode pv inb enc [] in
      let '(pv2, out2) := encode_frames pv1 rest in
      (pv2, out1 ++ out2)
  end.

(** ... and [Flush] once, for the buffer that marks the end of the
    stream. *)
Definition encode_stream (pv : hb_work_private_t)
  (calls : list (hb_buffer_t * enc_reply)) (fl : enc_reply)
  : hb_work_private_t * list hb_buffer_t :=
  let '(pv1, out1) := encode_frames pv calls in
  let '(pv2, out2) := Flush pv1 fl [] in
  (pv2, out1 ++ out2).

End Encoder.

(** ** The spec's formula and the packets of a stream *)

(** The decode timestamp as the specification words it, for the packet
    with cumulative output index [k]: [lookup_start k - dts_delay] below
    the reorder depth, [lookup_start (k - reorder_depth)] from there on. *)
Definition spec_render_offset (pv : hb_work_private_t) (k : Z) : Z :=
  if k <? areBframes (job pv)
  then to_int64 (get_frame_start pv k - dts_delay pv)
  else get_frame_start pv (k - areBframes (job pv)).

(** The packets the encoder handed back during the [Encode] calls of a
    stream, in order (none in a call whose [avcodec_send_frame] failed,
    since [Encode] returns before [get_packets]). *)
Definition drained (calls : list (hb_buffer_t * enc_reply)) : list AVPacket :=
  flat_map (fun c => if send_ret (snd c) <? 0 then [] else received (snd c))
           calls.

(** Whether the encoder marked the packet as a keyframe, as [get_packets]
    tests it. *)
Definition is_key `{Headers} (pkt : AVPacket) : bool :=
  negb (Z.land (pkt_flags pkt) AV_PKT_FLAG_KEY =? 0).

(** [out] is the buffer that [get_packets] builds for [pkt] from the
    registry of [pv], at some state of the chapter queue, before it is
    passed to [process_delay_list]. *)
Definition resolved_from `{Headers} (pv : hb_work_private_t) (pkt : AVPacket)
  (out : hb_buffer_t) : Prop :=
  exists q, out = snd (resolve_packet (set_chapter_queue q pv) pkt).

(** The same with the registry left open. *)
Definition resolved `{Headers} (pkt : AVPacket) (out : hb_buffer_t) : Prop :=
  exists pv, out = snd (resolve_packet pv pkt).

(** The private data with which [Encode] reaches [avcodec_send_frame], and
    the frame it sends: what [Encode] gives when the call fails and it
    returns at once. *)
Definition Encode_state `{Headers} (pv : hb_work_private_t)
  (inb : hb_buffer_t) : hb_work_private_t :=
  fst (fst (Encode pv inb {| send_ret := -1; received := [] |} [])).

Definition Encode_frame `{Headers} (pv : hb_work_private_t)
  (inb : hb_buffer_t) : AVFrame :=
  snd (fst (Encode pv inb {| send_ret := -1; received := [] |} [])).

(** The buffers that one run of the loop of [get_packets] builds for
    [pkts], in order, as it passes them to [process_delay_list]: each
    packet is resolved from the registry of [pv] and from the chapter queue
    as the packets before it left it. *)
Fixpoint resolve_packets `{Headers} (pv : hb_work_private_t)
  (pkts : list AVPacket) : list hb_buffer_t :=
  match pkts with
  | [] => []
  | pkt :: rest =>
      let '(q, out) := resolve_packet pv pkt in
      out :: resolve_packets (set_chapter_queue q pv) rest
  end.

(** The buffers built for the packets of the [Encode] calls of a stream,
    call by call: those of a call are built from the private data with
    which that call reaches the packet loop (none in a call whose
    [avcodec_send_frame] failed). *)
Fixpoint resolved_frames `{Headers} (pv : hb_work_private_t)
  (calls : list (hb_buffer_t * enc_reply)) : list hb_buffer_t :=
  match calls with
  | [] => []
  | (inb, enc) :: rest =>
      (if send_ret enc <? 0 then []
       else resolve_packets (Encode_state pv inb) (received enc))
      ++ resolved_frames (fst (fst (Encode pv inb enc []))) rest
  end.

(** The same for a whole stream: the packets of the flush are built from
    the private data the [Encode] calls left. *)
Definition resolved_stream `{Headers} (pv : hb_work_private_t)
  (calls : list (hb_buffer_t * enc_reply)) (fl : enc_reply)
  : list hb_buffer_t :=
  resolved_frames pv calls
  ++ resolve_packets (fst (encode_frames pv calls)) (received fl).

(** Two states of the private data that agree on everything the timing
    depends on: the reorder depth, both frame counters, the delay, the
    registry, and the delay list up to the chapter field of its buffers. *)
Definition same_timing (pv1 pv2 : hb_work_private_t) : Prop :=
  areBframes (job pv1) = areBframes (job pv2)
  /\ frameno_in pv1 = frameno_in pv2
  /\ frameno_out pv1 = frameno_out pv2
  /\ dts_delay pv1 = dts_delay pv2
  /\ frame_info pv1 = frame_info pv2
  /\ map (set_new_chap 0) (delay_list pv1)
     = map (set_new_chap 0) (delay_list pv2).

(** The private data with the job's [chapter_markers] set to [m]. *)
Definition with_chapter_markers (m : Z) (pv : hb_work_private_t)
  : hb_work_private_t :=
  set_job (set_chapter_markers m (job pv)) pv.

(** ** What the timestamp generator relies on *)

(** The encoder's side, for one packet: [n] frames have been submitted,
    [k] packets were handed back before this one, [d] is the reorder
    depth.  The packet echoes the number of a submitted frame; there are
    fewer packets than frames; the packet comes at most [d] places later
    than its frame; and the frames in flight plus the depth fit the
    registry. *)
Definition packet_ok (d n k : Z) (pkt : AVPacket) : bool :=
  (0 <=? pkt_pts pkt) && (pkt_pts pkt <? n)
  && (k <? n)
  && (k <=? pkt_pts pkt + d)
  && (n + d <=? k + FRAME_INFO_SIZE).

Fixpoint packets_ok (d n k : Z) (pkts : list AVPacket) : bool :=
  match pkts with
  | [] => true
  | pkt :: rest => packet_ok d n k pkt && packets_ok d n (k + 1) rest
  end.

(** The caller's side and the encoder's side over the [Encode] calls of a
    stream, after [n] frames and [k] packets, the last start time being
    [last]: every frame starts after the one before and within the range
    of a non-negative [int64_t], and every packet handed back is in
    order. *)
Fixpoint stream_ok (d n k last : Z) (calls : list (hb_buffer_t * enc_reply))
  : bool :=
  match calls with
  | [] => true
  | (inb, enc) :: rest =>
      let pkts := if send_ret enc <? 0 then [] else received enc in
      (last <? s_start inb) && (s_start inb <=? INT64_MAX)
      && packets_ok d (n + 1) k pkts
      && stream_ok d (n + 1) (k + Z.of_nat (length pkts)) (s_start inb) rest
  end.

(** What holds of the private data between calls, [n] frames and [k]
    packets into a stream with reorder depth [d] whose frame [i] starts at
    [st i], the last one at [last]. *)
Record stream_inv (d : Z) (pv : hb_work_private_t) (st : Z -> Z)
  (n k last : Z) : Prop := {
  inv_depth : areBframes (job pv) = d;
  inv_frameno_in : frameno_in pv = n /\ 0 <= n;
  inv_size : length (frame_info pv) = 32%nat;
  inv_registry :
    forall i, 0 <= i < n -> n <= i + 32 -> get_frame_start pv i = st i;
  inv_delay : d < n -> dts_delay pv = st d;
  inv_counts :
    0 <= frameno_out pv
    /\ frameno_out pv + Z.of_nat (length (delay_list pv)) = k
    /\ k <= n;
  inv_held : delay_list pv <> [] -> frameno_out pv = 0 /\ k <= d;
  inv_early : n <= d -> frameno_out pv = 0;
  inv_held_start : Forall (fun b => 0 <= s_start b) (delay_list pv);
  inv_increasing : forall i j, 0 <= i -> i < j -> j < n -> st i < st j;
  inv_range : forall i, 0 <= i < n -> 0 <= st i <= INT64_MAX;
  inv_last : -1 <= last /\ forall i, 0 <= i < n -> st i <= last
}.

(** ** Sample inputs *)

(** Header values to run the model with: the flag bits, and a buffer
    allocator that zero-fills. *)
Definition sample_headers : Headers :=
  {| AV_PKT_FLAG_KEY := 1;
     AV_PICTURE_TYPE_I := 1;
     HB_FLAG_FRAMETYPE_REF := 240;
     HB_FLAG_FRAMETYPE_KEY := 15;
     hb_buffer_init := fun sz =>
       {| b_size := sz; b_data := replicate (Z.to_nat sz) 0;
          s_start := 0; s_stop := 0; s_duration := 0; s_renderOffset := 0;
          s_flags := 0; s_frametype := 0; s_new_chap := 0 |} |}.

Definition sample_job (depth markers : Z) : hb_job_t :=
  {| areBframes := depth; chapter_markers := markers; init_delay := 0 |}.

(** An input frame with the given times and chapter number. *)
Definition frame_at (start stop chap : Z) : hb_buffer_t :=
  {| b_size := 0; b_data := []; s_start := start; s_stop := stop;
     s_duration := 0; s_renderOffset := 0; s_flags := 0; s_frametype := 0;
     s_new_chap := chap |}.

(** A packet of one byte that echoes frame number [n]. *)
Definition packet_of (n flags : Z) : AVPacket :=
  {| pkt_pts := n; pkt_flags := flags; pkt_size := 1; pkt_data := [n] |}.

(** The encoder accepted the frame and handed back [pkts]. *)
Definition reply (pkts : list AVPacket) : enc_reply :=
  {| send_ret := 0; received := pkts |}.

(** [n] frames of ten ticks each, frame [i] starting at [10 * i], where the
    encoder hands back [f i] while frame [i] is encoded. *)
Definition frames_with (f : Z -> list AVPacket) (n : nat)
  : list (hb_buffer_t * enc_reply) :=
  map (fun i : nat =>
         (frame_at (10 * Z.of_nat i) (10 * Z.of_nat i + 10) 0,
          reply (f (Z.of_nat i))))
      (seq 0 n).

(** An encoder that hands back every frame at once, one that runs one
    frame behind, and one that keeps everything until the flush. *)
Definition at_once (i : Z) : list AVPacket := [packet_of i 0].
Definition one_behind (i : Z) : list AVPacket :=
  if i =? 0 then [] else [packet_of (i - 1) 0].
Definition silent (i : Z) : list AVPacket := [].

(** An encoder with one B-frame between reference frames: it codes frame
    2 before frame 1. *)
Definition b_frame_calls : list (hb_buffer_t * enc_reply) :=
  [ (frame_at 0 10 0, reply []);
    (frame_at 10 20 0, reply [packet_of 0 0]);
    (frame_at 20 30 0, reply [packet_of 2 0]);
    (frame_at 30 40 0, reply [packet_of 1 0]) ].

(** Two frames that start before time zero. *)
Definition early_calls : list (hb_buffer_t * enc_reply) :=
  [ (frame_at (-100) (-50) 0, reply []);
    (frame_at (-50) 0 0, reply [packet_of 0 0]) ].

(** The frames of the chapter pairing scenario: frame 0 starts a chapter,
    the packets of frames 2 and 4 are keyframes. *)
Definition chapter_calls : list (hb_buffer_t * enc_reply) :=
  [ (frame_at 0 10 1, reply [packet_of 0 0]);
    (frame_at 10 20 0, reply [packet_of 1 0]);
    (frame_at 20 30 0, reply [packet_of 2 1]);
    (frame_at 30 40 0, reply [packet_of 3 0]);
    (frame_at 40 50 0, reply [packet_of 4 1]) ].

(** Three frames whose packets come back as 1, 2, 0: the packet of frame 0
    is two places late. *)
Definition late_calls : list (hb_buffer_t * enc_reply) :=
  [ (frame_at 0 10 0, reply []);
    (frame_at 10 20 0, reply []);
    (frame_at 20 30 0,
     reply [packet_of 1 0; packet_of 2 0; packet_of 0 0]) ].

(** Thirty-four frames of which the encoder hands back the first packet,
    that of frame 2, only during the last call. *)
Definition lagging_calls : list (hb_buffer_t * enc_reply) :=
  frames_with silent 33 ++ [ (frame_at 330 340 0, reply [packet_of 2 0]) ].

(** Two frames; the packet of the first comes back at once, the second
    frame is refused by [avcodec_send_frame]. *)
Definition refused_calls : list (hb_buffer_t * enc_reply) :=
  [ (frame_at 0 10 0, reply [packet_of 0 0]);
    (frame_at 10 20 0, {| send_ret := -1; received := [] |}) ].

(** Two frames; the packet of the first comes back at once, and the
    encoder keeps the second until the flush. *)
Definition held_calls : list (hb_buffer_t * enc_reply) :=
  [ (frame_at 0 10 0, reply [packet_of 0 0]);
    (frame_at 10 20 0, reply []) ].

(** [n] frames, frame [i] from [st i] to [st (i + 1)], with an encoder that
    runs [lag] frames behind: it hands back nothing during the first [lag]
    calls, and during the call for frame [i] the packet of frame
    [i - lag]. *)
Definition steady_calls (st : Z -> Z) (lag : Z) (n : nat)
  : list (hb_buffer_t * enc_reply) :=
  map (fun i : nat =>
         (frame_at (st (Z.of_nat i)) (st (Z.of_nat i + 1)) 0,
          reply (if Z.of_nat i <? lag then []
                 else [packet_of (Z.of_nat i - lag) 0])))
      (seq 0 n).

(** ** The work function and the frames sent *)

(** What the included headers supply for [encavcodecWork]: the end of
    stream flag of a buffer, the two return values, and the buffer that
    [hb_buffer_eof_init] makes. *)
Class WorkHeaders := {
  HB_BUF_FLAG_EOF : Z;
  HB_WORK_OK : Z;
  HB_WORK_DONE : Z;
  hb_buffer_eof_init : hb_buffer_t
}.

(** [context_ok] says that neither [pv->context] nor its [codec] is
    [NULL].  The result holds the private data, what is stored in
    [*buf_out] ([None] when the function leaves it alone) and the return
    value. *)
Definition encavcodecWork `{Headers} `{WorkHeaders} (context_ok : bool)
  (pv : hb_work_private_t) (inb : hb_buffer_t) (enc : enc_reply)
  : hb_work_private_t * option (list hb_buffer_t) * Z :=
  if negb context_ok then (pv, None, HB_WORK_DONE)
  else
    let list : hb_buffer_list_t := [] in
    if negb (Z.land (s_flags inb) HB_BUF_FLAG_EOF =? 0) then
      let '(pv', list) := Flush pv enc list in
      let list := hb_buffer_list_append list (Some hb_buffer_eof_init) in
      (pv', Some list, HB_WORK_DONE)
    else
      let '(pv', _, list) := Encode pv inb enc list in
      (pv', Some list, HB_WORK_OK).

(** The caller's loop: it hands the input buffers to the work function
    one by one, passes on what comes back in [*buf_out], and stops after
    the call that returns [HB_WORK_DONE]. *)
Fixpoint work_loop `{Headers} `{WorkHeaders} (context_ok : bool)
  (pv : hb_work_private_t) (inputs : list (hb_buffer_t * enc_reply))
  : hb_work_private_t * list hb_buffer_t :=
  match inputs with
  | [] => (pv, [])
  | (inb, enc) :: rest =>
      let '(pv1, out, status) := encavcodecWork context_ok pv inb enc in
      let out1 := match out with Some l => l | None => [] end in
      if status =? HB_WORK_DONE then (pv1, out1)
      else
        let '(pv2, out2) := work_loop context_ok pv1 rest in
        (pv2, out1 ++ out2)
  end.

(** The frames that the [Encode] calls of a stream give to
    [avcodec_send_frame], in order. *)
Fixpoint sent_frames `{Headers} (pv : hb_work_private_t)
  (calls : list (hb_buffer_t * enc_reply)) : list AVFrame :=
  match calls with
  | [] => []
  | (inb, enc) :: rest =>
      let '(pv1, frame, _) := Encode pv inb enc [] in
      frame :: sent_frames pv1 rest
  end.

(** The decode timestamp of the packet with output index [k] in a stream
    whose frame [i] starts at [st i], with reorder depth [d]. *)
Definition dts_at (d : Z) (st : Z -> Z) (k : Z) : Z :=
  if k <? d then st k - st d else st (k - d).

(** The start of the frame with sequence number [i] of a stream (0 when
    the stream has no such frame). *)
Definition start_of (calls : list (hb_buffer_t * enc_reply)) (i : Z) : Z :=
  match calls !! Z.to_nat i with
  | Some c => s_start (fst c)
  | None => 0
  end.

(** ** Encoder presets *)

(** [tolower] of the C locale on one byte. *)
Definition tolower (c : Ascii.ascii) : Ascii.ascii :=
  let n := Ascii.N_of_ascii c in
  if ((65 <=? n) && (n <=? 90))%N then Ascii.ascii_of_N (n + 32) else c.

(** The C library's [strcasecmp]: the strings are compared byte by byte
    after [tolower]; the result is the difference of the first two bytes
    that differ, the end of a string counting as byte 0. *)
Fixpoint strcasecmp (a b : String.string) : Z :=
  match a, b with
  | String.EmptyString, String.EmptyString => 0
  | String.EmptyString, String.String cb _ =>
      0 - Z.of_N (Ascii.N_of_ascii (tolower cb))
  | String.String ca _, String.EmptyString =>
      Z.of_N (Ascii.N_of_ascii (tolower ca)) - 0
  | String.String ca a', String.String cb b' =>
      let d := Z.of_N (Ascii.N_of_ascii (tolower ca))
               - Z.of_N (Ascii.N_of_ascii (tolower cb)) in
      if d =? 0 then strcasecmp a' b' else d
  end.

(** An [AVDictionary] is kept as the calls of [av_dict_set] made on it, in
    order: the key and the value ([None] for [NULL]).  Every call in this
    file passes flags 0. *)
Definition AVDictionary : Type := list (String.string * option String.string).

Definition av_dict_set (av_opts : AVDictionary) (key : String.string)
  (value : option String.string) : AVDictionary :=
  av_opts ++ [(key, value)].

(** The tables of names, without the closing [NULL]. *)
Definition vpx_preset_names : list String.string :=
  [ "veryfast"; "faster"; "fast"; "medium"; "slow"; "slower";
    "veryslow" ]%string.

Definition h26x_nvenc_preset_names : list String.string :=
  [ "hq"; "hp"; "fast"; "medium"; "slow"; "default" ]%string.

Definition h264_nvenc_profile_names : list String.string :=
  [ "auto"; "baseline"; "main"; "high" ]%string.

Definition h265_nvenc_profile_names : list String.string :=
  [ "auto"; "main" ]%string.

Definition h26x_vt_preset_name : list String.string := [ "default" ]%string.

Definition h264_vt_profile_name : list String.string :=
  [ "auto"; "baseline"; "main"; "high" ]%string.

Definition h265_vt_profile_name : list String.string :=
  [ "auto"; "main" ]%string.

(** What the included headers supply for the preset functions: the video
    codec numbers and the table of VCE preset names. *)
Class Codecs := {
  HB_VCODEC_FFMPEG_VP8 : Z;
  HB_VCODEC_FFMPEG_VP9 : Z;
  HB_VCODEC_FFMPEG_NVENC_H264 : Z;
  HB_VCODEC_FFMPEG_NVENC_H265 : Z;
  HB_VCODEC_FFMPEG_VCE_H264 : Z;
  HB_VCODEC_FFMPEG_VCE_H265 : Z;
  HB_VCODEC_FFMPEG_VT_H264 : Z;
  HB_VCODEC_FFMPEG_VT_H265 : Z;
  hb_vce_preset_names : list String.string
}.

(** [preset] is [None] for a [NULL] pointer.  The result is the
    dictionary and the return value. *)
Definition apply_vpx_preset (av_opts : AVDictionary)
  (preset : option String.string) : AVDictionary * Z :=
  let set (deadline cpu : String.string) :=
    av_dict_set (av_dict_set av_opts "deadline"%string (Some deadline))
                "cpu-used"%string (Some cpu) in
  match preset with
  | None => (set "good" "2", 0)%string
  | Some p =>
      if strcasecmp "veryfast" p =? 0 then (set "good" "5", 0)%string
      else if strcasecmp "faster" p =? 0 then (set "good" "4", 0)%string
      else if strcasecmp "fast" p =? 0 then (set "good" "3", 0)%string
      else if strcasecmp "medium" p =? 0 then (set "good" "2", 0)%string
      else if strcasecmp "slow" p =? 0 then (set "good" "1", 0)%string
      else if strcasecmp "slower" p =? 0 then (set "good" "0", 0)%string
      else if strcasecmp "veryslow" p =? 0 then (set "best" "0", 0)%string
      else (av_opts, -1)
  end.

Definition apply_vp8_preset (av_opts : AVDictionary)
  (preset : option String.string) : AVDictionary * Z :=
  apply_vpx_preset av_opts preset.

Definition apply_vp9_preset (av_opts : AVDictionary)
  (preset : option String.string) : AVDictionary * Z :=
  let av_opts := av_dict_set av_opts "row-mt"%string (Some "1"%string) in
  apply_vpx_preset av_opts preset.

Definition apply_encoder_preset `{Codecs} (vcodec : Z)
  (av_opts : AVDictionary) (preset : option String.string)
  : AVDictionary * Z :=
  if vcodec =? HB_VCODEC_FFMPEG_VP8 then apply_vp8_preset av_opts preset
  else if vcodec =? HB_VCODEC_FFMPEG_VP9 then apply_vp9_preset av_opts preset
  else if (vcodec =? HB_VCODEC_FFMPEG_NVENC_H264)
          || (vcodec =? HB_VCODEC_FFMPEG_NVENC_H265)
  then (av_dict_set av_opts "preset"%string preset, 0)
  else (av_opts, 0).

(** [None] is the [NULL] of the [default] case. *)
Definition hb_av_preset_get_names `{Codecs} (encoder : Z)
  : option (list String.string) :=
  if (encoder =? HB_VCODEC_FFMPEG_VP8) || (encoder =? HB_VCODEC_FFMPEG_VP9)
  then Some vpx_preset_names
  else if (encoder =? HB_VCODEC_FFMPEG_VCE_H264)
          || (encoder =? HB_VCODEC_FFMPEG_VCE_H265)
  then Some hb_vce_preset_names
  else if (encoder =? HB_VCODEC_FFMPEG_NVENC_H264)
          || (encoder =? HB_VCODEC_FFMPEG_NVENC_H265)
  then Some h26x_nvenc_preset_names
  else if (encoder =? HB_VCODEC_FFMPEG_VT_H264)
          || (encoder =? HB_VCODEC_FFMPEG_VT_H265)
  then Some h26x_vt_preset_name
  else None.

Definition hb_av_profile_get_names `{Codecs} (encoder : Z)
  : option (list String.string) :=
  if encoder =? HB_VCODEC_FFMPEG_NVENC_H264
  then Some h264_nvenc_profile_names
  else if encoder =? HB_VCODEC_FFMPEG_NVENC_H265
  then Some h265_nvenc_profile_names
  else if encoder =? HB_VCODEC_FFMPEG_VT_H264
  then Some h264_vt_profile_name
  else if encoder =? HB_VCODEC_FFMPEG_VT_H265
  then Some h265_vt_profile_name
  else None.

(** ** The frame rate handed to the encoder *)

(** The loop of [encavcodecInit] that halves [fps.num] and [fps.den]
    while one of them has a bit set above the low 16 ([>>] on a negative
    [int] taken as the arithmetic shift).  [fuel] bounds the number of
    turns; [None] when it runs out. *)
Fixpoint truncate_framerate (fuel : nat) (num den : Z) : option (Z * Z) :=
  if negb (Z.land num (Z.lnot 65535) =? 0)
     || negb (Z.land den (Z.lnot 65535) =? 0)
  then match fuel with
       | O => None
       | S fuel' =>
           truncate_framerate fuel' (Z.shiftr num 1) (Z.shiftr den 1)
       end
  else Some (num, den).

(** Codec numbers to run the preset functions with. *)
Definition sample_codecs : Codecs :=
  {| HB_VCODEC_FFMPEG_VP8 := 1; HB_VCODEC_FFMPEG_VP9 := 2;
     HB_VCODEC_FFMPEG_NVENC_H264 := 3; HB_VCODEC_FFMPEG_NVENC_H265 := 4;
     HB_VCODEC_FFMPEG_VCE_H264 := 5; HB_VCODEC_FFMPEG_VCE_H265 := 6;
     HB_VCODEC_FFMPEG_VT_H264 := 7; HB_VCODEC_FFMPEG_VT_H265 := 8;
     hb_vce_preset_names := [ "balanced"; "speed"; "quality" ]%string |}.

(** Values for the work function's constants. *)
Definition sample_work_headers : WorkHeaders :=
  {| HB_BUF_FLAG_EOF := 4; HB_WORK_OK := 0; HB_WORK_DONE := 1;
     hb_buffer_eof_init := set_flags 4 (frame_at 0 0 0) |}.

(** The private data, with depth 1, after a frame whose packet is held
    and a frame that the encoder refused. *)
Definition refused_state : hb_work_private_t :=
  fst (@encode_frames sample_headers (pv_calloc (sample_job 1 0) 0)
         refused_calls).

(** * Properties *)

(** ** Machine integers and the ring index *)

Lemma to_int_small (z : Z) : - INT_MAX - 1 <= z <= INT_MAX -> to_int z = z.
Proof.
  intros Hz. unfold to_int, wrap, INT_MAX in *.
  change (2 ^ (32 - 1)) with 2147483648.
  change (2 ^ 32) with 4294967296.
  rewrite Z.mod_small; lia.
Qed.

Lemma to_int64_small (z : Z) :
  - INT64_MAX - 1 <= z <= INT64_MAX -> to_int64 z = z.
Proof.
  intros Hz. unfold to_int64, wrap, INT64_MAX in *.
  change (2 ^ (64 - 1)) with 9223372036854775808.
  change (2 ^ 64) with 18446744073709551616.
  rewrite Z.mod_small; lia.
Qed.

(** [encavcodecInit] never leaves a negative reorder depth. *)
Lemma encavcodecInit_depth_nonneg j q has_b_frames vt_h265 :
  0 <= areBframes (job (encavcodecInit j q has_b_frames vt_h265)).
Proof.
  cbn. unfold init_areBframes.
  destruct (Z.ltb_spec 0 has_b_frames); [destruct vt_h265|]; lia.
Qed.

Lemma mask_is_mod (z : Z) : Z.land z FRAME_INFO_MASK = z mod 32.
Proof. exact (Z.land_ones z 5 ltac:(lia)). Qed.

(** ** The ring after a frame is saved *)

Lemma save_frame_info_length pv inb :
  length (frame_info (save_frame_info pv inb)) = length (frame_info pv).
Proof. unfold save_frame_info. cbn. apply length_insert. Qed.

Lemma get_frame_start_save_same pv inb seq :
  length (frame_info pv) = 32%nat ->
  seq mod 32 = frameno_in pv mod 32 ->
  get_frame_start (save_frame_info pv inb) seq = s_start inb.
Proof.
  intros Hlen Hseq. unfold get_frame_start, save_frame_info. cbn.
  rewrite !mask_is_mod, Hseq.
  rewrite list_lookup_total_insert_eq; [reflexivity|].
  rewrite Hlen. pose proof (Z.mod_pos_bound (frameno_in pv) 32 ltac:(lia)).
  lia.
Qed.

Lemma get_frame_duration_save_same pv inb seq :
  length (frame_info pv) = 32%nat ->
  seq mod 32 = frameno_in pv mod 32 ->
  get_frame_duration (save_frame_info pv inb) seq
  = to_int64 (s_stop inb - s_start inb).
Proof.
  intros Hlen Hseq. unfold get_frame_duration, save_frame_info. cbn.
  rewrite !mask_is_mod, Hseq.
  rewrite list_lookup_total_insert_eq; [reflexivity|].
  rewrite Hlen. pose proof (Z.mod_pos_bound (frameno_in pv) 32 ltac:(lia)).
  lia.
Qed.

Lemma get_frame_start_save_other pv inb seq :
  seq mod 32 <> frameno_in pv mod 32 ->
  get_frame_start (save_frame_info pv inb) seq = get_frame_start pv seq.
Proof.
  intros Hseq. unfold get_frame_start, save_frame_info. cbn.
  rewrite !mask_is_mod.
  rewrite list_lookup_total_insert_ne; [reflexivity|].
  pose proof (Z.mod_pos_bound (frameno_in pv) 32 ltac:(lia)).
  pose proof (Z.mod_pos_bound seq 32 ltac:(lia)).
  lia.
Qed.

(** C10: the registry lookups are total functions of the sequence number:
    for every sequence number they give the contents of slot [seq mod 32],
    with no check that the frame is still recorded.  After a frame is
    saved, a lookup of any sequence number that maps to the slot of
    [frameno_in], such as the one 32 submissions before it, gives the
    timing of the frame just saved. *)
Theorem registry_lookup_total_and_overwritten pv inb seq :
  length (frame_info pv) = 32%nat ->
  seq mod 32 = frameno_in pv mod 32 ->
  (forall s : Z,
      get_frame_start pv s
      = fi_start (frame_info pv !!! Z.to_nat (s mod 32))
      /\ get_frame_duration pv s
         = fi_duration (frame_info pv !!! Z.to_nat (s mod 32)))
  /\ get_frame_start (save_frame_info pv inb) seq = s_start inb
  /\ get_frame_duration (save_frame_info pv inb) seq
     = to_int64 (s_stop inb - s_start inb).
Proof.
  intros Hlen Hseq. split; [|split].
  - intros s. unfold get_frame_start, get_frame_duration.
    rewrite mask_is_mod. split; reflexivity.
  - apply get_frame_start_save_same; assumption.
  - apply get_frame_duration_save_same; assumption.
Qed.

Section Properties.
Context `{Headers}.

(** ** [process_delay_list], case by case *)

Lemma process_delay_list_depth0 pv b :
  areBframes (job pv) = 0 ->
  process_delay_list pv (Some b) = (pv, [set_renderOffset (s_start b) b]).
Proof. intros Hd. unfold process_delay_list. rewrite Hd. reflexivity. Qed.

Lemma process_delay_list_hold pv b :
  areBframes (job pv) <> 0 ->
  frameno_in pv <= areBframes (job pv) ->
  process_delay_list pv (Some b)
  = (set_delay_list (delay_list pv ++ [b]) pv, []).
Proof.
  intros Hd Hn. unfold process_delay_list.
  destruct (Z.eqb_spec (areBframes (job pv)) 0) as [|_]; [contradiction|].
  cbn. destruct (Z.leb_spec (frameno_in pv) (areBframes (job pv))); [|lia].
  reflexivity.
Qed.

Lemma apply_dts_ext pv pv' fo bufs :
  job pv = job pv' -> dts_delay pv = dts_delay pv' ->
  frame_info pv = frame_info pv' ->
  apply_dts pv fo bufs = apply_dts pv' fo bufs.
Proof.
  intros Hj Hd Hf. revert fo.
  induction bufs as [|b bufs IH]; intros fo; [reflexivity|].
  cbn. unfold get_frame_start. rewrite Hj, Hd, Hf, IH. reflexivity.
Qed.

Lemma process_delay_list_release pv b :
  areBframes (job pv) <> 0 ->
  areBframes (job pv) < frameno_in pv ->
  process_delay_list pv (Some b)
  = (set_delay_list []
       (set_frameno_out
          (snd (apply_dts pv (frameno_out pv) (delay_list pv ++ [b]))) pv),
     fst (apply_dts pv (frameno_out pv) (delay_list pv ++ [b]))).
Proof.
  intros Hd Hn. unfold process_delay_list.
  destruct (Z.eqb_spec (areBframes (job pv)) 0) as [|_]; [contradiction|].
  cbn. destruct (Z.leb_spec (frameno_in pv) (areBframes (job pv))); [lia|].
  rewrite (apply_dts_ext _ pv) by reflexivity.
  destruct (apply_dts pv (frameno_out pv) (delay_list pv ++ [b])).
  reflexivity.
Qed.

(** ** What a resolved packet holds *)

Lemma resolve_packet_fields pv pkt :
  let b := snd (resolve_packet pv pkt) in
  s_start b = get_frame_start pv (pkt_pts pkt)
  /\ s_duration b = get_frame_duration pv (pkt_pts pkt)
  /\ s_stop b
     = to_int64 (s_stop (hb_buffer_init (pkt_size pkt))
                 + get_frame_duration pv (pkt_pts pkt))
  /\ b_size b = pkt_size pkt.
Proof.
  unfold resolve_packet.
  destruct (negb (Z.land (pkt_flags pkt) AV_PKT_FLAG_KEY =? 0)); cbn.
  - destruct (chapter_queue pv); cbn; repeat split; reflexivity.
  - repeat split; reflexivity.
Qed.

Lemma resolve_packet_ext pv pv' pkt :
  frame_info pv = frame_info pv' -> chapter_queue pv = chapter_queue pv' ->
  resolve_packet pv pkt = resolve_packet pv' pkt.
Proof.
  intros Hf Hq. unfold resolve_packet, get_frame_start, get_frame_duration.
  rewrite Hf, Hq. reflexivity.
Qed.

(** C2: the stop time that [get_packets] gives a drained packet is the
    stop time of the freshly allocated buffer plus the duration from the
    registry; the start time from the registry does not enter.  Whatever
    [hb_buffer_init] puts in a fresh buffer, of the one-frame streams with
    the frame at [0, 40) and the frame at [1, 41) one releases a packet
    whose stop differs from its start plus its duration. *)
Theorem get_packets_stop_misses_start :
  exists s : Z,
    (s = 0 \/ s = 1)
    /\ exists b : hb_buffer_t,
        snd (encode_stream (pv_calloc (sample_job 0 0) 0)
               [(frame_at s (s + 40) 0, reply [packet_of 0 0])] (reply []))
        = [b]
        /\ s_start b = s
        /\ s_duration b = 40
        /\ s_stop b <> s_start b + s_duration b.
Proof.
  set (v := s_stop (hb_buffer_init 1)).
  assert (Hrun : forall s,
    exists b,
      snd (encode_stream (pv_calloc (sample_job 0 0) 0)
             [(frame_at s (s + 40) 0, reply [packet_of 0 0])] (reply []))
      = [b]
      /\ s_start b = s /\ s_duration b = 40
      /\ s_stop b = to_int64 (v + 40)).
  { intros s. unfold encode_stream, encode_frames, Encode, Flush.
    cbn -[resolve_packet to_int64 process_delay_list].
    set (pv1 := set_frameno_in _ _).
    destruct (resolve_packet pv1 (packet_of 0 0)) as [q out] eqn:Hres.
    pose proof (resolve_packet_fields pv1 (packet_of 0 0)) as Hf.
    rewrite Hres in Hf. cbn [snd] in Hf.
    destruct Hf as (Hs & Hdur & Hstop & _).
    rewrite process_delay_list_depth0 by reflexivity.
    cbn -[to_int64]. exists (set_renderOffset (s_start out) out).
    split; [reflexivity|]. cbn -[to_int64].
    assert (Hst : get_frame_start pv1 0 = s) by reflexivity.
    assert (Hdu : get_frame_duration pv1 0 = to_int64 (s + 40 - s))
      by reflexivity.
    cbn [pkt_pts packet_of] in *.
    rewrite Hs, Hdur, Hstop, Hst, Hdu.
    replace (s + 40 - s) with 40 by lia.
    rewrite (to_int64_small 40) by (unfold INT64_MAX; lia).
    repeat split; reflexivity. }
  destruct (Z.eq_dec (to_int64 (v + 40)) 40) as [Heq|Hne].
  - exists 1. split; [right; reflexivity|].
    destruct (Hrun 1) as (b & Hb & Hs & Hd & Hstop).
    exists b. repeat split; try assumption. rewrite Hstop, Hs, Hd, Heq. lia.
  - exists 0. split; [left; reflexivity|].
    destruct (Hrun 0) as (b & Hb & Hs & Hd & Hstop).
    exists b. repeat split; try assumption. rewrite Hstop, Hs, Hd. exact Hne.
Qed.

(** ** What the packet loop leaves alone *)

Lemma process_delay_list_frame pv buf :
  let pv' := fst (process_delay_list pv buf) in
  job pv' = job pv /\ global_quality pv' = global_quality pv
  /\ frameno_in pv' = frameno_in pv /\ dts_delay pv' = dts_delay pv
  /\ frame_info pv' = frame_info pv /\ chapter_queue pv' = chapter_queue pv.
Proof.
  unfold process_delay_list.
  destruct (negb (areBframes (job pv) =? 0)).
  - cbn. destruct (frameno_in pv <=? areBframes (job pv)).
    + cbn. repeat split; reflexivity.
    + destruct (apply_dts _ _ _). cbn. repeat split; reflexivity.
  - destruct buf; cbn; repeat split; reflexivity.
Qed.

Lemma get_packets_frame pkts : forall pv acc,
  let pv' := fst (get_packets pv pkts acc) in
  job pv' = job pv /\ global_quality pv' = global_quality pv
  /\ frameno_in pv' = frameno_in pv /\ dts_delay pv' = dts_delay pv
  /\ frame_info pv' = frame_info pv.
Proof.
  induction pkts as [|pkt rest IH]; intros pv acc; cbn -[resolve_packet].
  - repeat split; reflexivity.
  - destruct (resolve_packet pv pkt) as [q out].
    pose proof (process_delay_list_frame (set_chapter_queue q pv) (Some out))
      as Hp.
    destruct (process_delay_list (set_chapter_queue q pv) (Some out))
      as [pv2 out'].
    cbn in Hp. destruct Hp as (Hj & Hg & Hn & Hd & Hf & _).
    specialize (IH pv2 (acc ++ out')). cbn in IH.
    destruct IH as (Hj' & Hg' & Hn' & Hd' & Hf').
    rewrite Hj', Hg', Hn', Hd', Hf'. repeat split; assumption.
Qed.

Lemma resolve_packet_queue pv pkt :
  fst (resolve_packet pv pkt)
  = if is_key pkt then drop 1 (chapter_queue pv) else chapter_queue pv.
Proof.
  unfold resolve_packet, is_key.
  destruct (negb (Z.land (pkt_flags pkt) AV_PKT_FLAG_KEY =? 0)).
  - destruct (chapter_queue pv); reflexivity.
  - reflexivity.
Qed.

Lemma get_packets_queue pkts : forall pv acc,
  chapter_queue (fst (get_packets pv pkts acc))
  = drop (length (filter (fun p => is_key p = true) pkts)) (chapter_queue pv).
Proof.
  induction pkts as [|pkt rest IH]; intros pv acc; cbn [get_packets].
  - reflexivity.
  - pose proof (resolve_packet_queue pv pkt) as Hq.
    destruct (resolve_packet pv pkt) as [q out]. cbn [fst] in Hq.
    pose proof (process_delay_list_frame (set_chapter_queue q pv) (Some out))
      as Hp.
    destruct (process_delay_list (set_chapter_queue q pv) (Some out))
      as [pv2 out'].
    cbn in Hp. destruct Hp as (_ & _ & _ & _ & _ & Hc).
    rewrite IH, Hc, Hq.
    rewrite filter_cons. destruct (decide (is_key pkt = true)) as [Hk|Hk].
    + rewrite Hk. cbn [length]. rewrite drop_drop. f_equal.
    + destruct (is_key pkt); [congruence|]. reflexivity.
Qed.

Lemma get_packets_acc pkts : forall pv acc,
  get_packets pv pkts acc
  = (fst (get_packets pv pkts []), acc ++ snd (get_packets pv pkts [])).
Proof.
  induction pkts as [|pkt rest IH]; intros pv acc; cbn -[resolve_packet].
  - rewrite app_nil_r. reflexivity.
  - destruct (resolve_packet pv pkt) as [q out].
    destruct (process_delay_list (set_chapter_queue q pv) (Some out))
      as [pv2 out'].
    rewrite (IH pv2 (acc ++ out')), (IH pv2 out').
    cbn [fst snd]. rewrite app_assoc. reflexivity.
Qed.

Lemma resolved_from_ext pv pv' pkt out :
  frame_info pv = frame_info pv' ->
  resolved_from pv pkt out -> resolved_from pv' pkt out.
Proof.
  intros Hf [q ->]. exists q. f_equal.
  apply resolve_packet_ext; [exact Hf|reflexivity].
Qed.

Lemma resolved_from_here pv pkt :
  resolved_from pv pkt (snd (resolve_packet pv pkt)).
Proof.
  exists (chapter_queue pv). reflexivity.
Qed.

Lemma resolved_from_resolved pv pkt out :
  resolved_from pv pkt out -> resolved pkt out.
Proof. intros [q ->]. eexists. reflexivity. Qed.

(** ** [Encode] as a submission followed by the packet loop *)

Lemma Encode_unfold pv inb enc acc :
  Encode pv inb enc acc
  = if send_ret enc <? 0
    then (Encode_state pv inb, Encode_frame pv inb, acc)
    else (fst (get_packets (Encode_state pv inb) (received enc) acc),
          Encode_frame pv inb,
          snd (get_packets (Encode_state pv inb) (received enc) acc)).
Proof.
  unfold Encode_state, Encode_frame, Encode. cbn [send_ret received].
  change (-1 <? 0) with true. cbv iota. cbn [fst snd].
  destruct (send_ret enc <? 0); [reflexivity|].
  destruct (get_packets _ _ _). reflexivity.
Qed.

Lemma Encode_state_frame pv inb :
  let pv' := Encode_state pv inb in
  areBframes (job pv') = areBframes (job pv)
  /\ chapter_markers (job pv') = chapter_markers (job pv)
  /\ global_quality pv' = global_quality pv
  /\ frameno_in pv' = to_int (frameno_in pv + 1)
  /\ frameno_out pv' = frameno_out pv
  /\ delay_list pv' = delay_list pv
  /\ frame_info pv' = frame_info (save_frame_info pv inb).
Proof.
  unfold Encode_state, Encode, compute_dts_offset, save_frame_info.
  cbn [send_ret received]. change (-1 <? 0) with true. cbv iota.
  cbn [fst snd].
  destruct ((0 <? s_new_chap inb) && negb (chapter_markers (job pv) =? 0));
    cbn;
    destruct (areBframes (job pv) =? 0); cbn;
      try (destruct (frameno_in pv =? areBframes (job pv)); cbn);
      repeat split; reflexivity.
Qed.

Lemma Encode_state_dts_delay pv inb :
  dts_delay (Encode_state pv inb)
  = if negb (areBframes (job pv) =? 0)
       && (frameno_in pv =? areBframes (job pv))
    then s_start inb else dts_delay pv.
Proof.
  unfold Encode_state, Encode, compute_dts_offset, save_frame_info.
  cbn [send_ret received]. change (-1 <? 0) with true. cbv iota.
  cbn [fst snd].
  destruct ((0 <? s_new_chap inb) && negb (chapter_markers (job pv) =? 0));
    cbn;
    destruct (areBframes (job pv) =? 0); cbn;
      try (destruct (frameno_in pv =? areBframes (job pv)); cbn);
      reflexivity.
Qed.

Lemma Encode_state_queue pv inb :
  chapter_queue (Encode_state pv inb)
  = if (0 <? s_new_chap inb) && negb (chapter_markers (job pv) =? 0)
    then hb_chapter_enqueue (chapter_queue pv) inb
    else chapter_queue pv.
Proof.
  unfold Encode_state, Encode, compute_dts_offset, save_frame_info.
  cbn [send_ret received]. change (-1 <? 0) with true. cbv iota.
  cbn [fst snd].
  destruct ((0 <? s_new_chap inb) && negb (chapter_markers (job pv) =? 0));
    cbn;
    destruct (areBframes (job pv) =? 0); cbn;
      try (destruct (frameno_in pv =? areBframes (job pv)); cbn);
      reflexivity.
Qed.

(** ** The packet loop without reordering *)

Lemma get_packets_depth0 pkts : forall pv acc,
  areBframes (job pv) = 0 ->
  delay_list (fst (get_packets pv pkts acc)) = delay_list pv
  /\ frameno_out (fst (get_packets pv pkts acc)) = frameno_out pv
  /\ exists outs,
      snd (get_packets pv pkts acc) = acc ++ outs
      /\ Forall2
           (fun pkt b =>
              exists out, resolved_from pv pkt out
                          /\ b = set_renderOffset (s_start out) out)
           pkts outs.
Proof.
  induction pkts as [|pkt rest IH]; intros pv acc Hd; cbn [get_packets].
  - cbn. repeat split. exists []. rewrite app_nil_r. split; constructor.
  - pose proof (resolved_from_here pv pkt) as Hres.
    destruct (resolve_packet pv pkt) as [q out]. cbn [snd] in Hres.
    rewrite process_delay_list_depth0 by exact Hd.
    destruct (IH (set_chapter_queue q pv)
                 (acc ++ [set_renderOffset (s_start out) out]) Hd)
      as (Hdl & Hfo & outs & Hout & Hall).
    rewrite Hdl, Hfo, Hout. repeat split.
    exists (set_renderOffset (s_start out) out :: outs).
    split; [rewrite <- app_assoc; reflexivity|].
    constructor.
    + exists out. split; [exact Hres|reflexivity].
    + eapply Forall2_impl; [exact Hall|].
      intros p b (o & Ho & ->). exists o. split; [|reflexivity].
      eapply resolved_from_ext; [|exact Ho]. reflexivity.
Qed.

(** ** The packet loop while the delay is not known *)

Lemma get_packets_hold pkts : forall pv acc,
  areBframes (job pv) <> 0 ->
  frameno_in pv <= areBframes (job pv) ->
  snd (get_packets pv pkts acc) = acc
  /\ frameno_out (fst (get_packets pv pkts acc)) = frameno_out pv
  /\ exists held,
      delay_list (fst (get_packets pv pkts acc)) = delay_list pv ++ held
      /\ Forall2 (resolved_from pv) pkts held.
Proof.
  induction pkts as [|pkt rest IH]; intros pv acc Hd Hn; cbn [get_packets].
  - cbn. repeat split. exists []. rewrite app_nil_r. split; constructor.
  - pose proof (resolved_from_here pv pkt) as Hres.
    destruct (resolve_packet pv pkt) as [q out]. cbn [snd] in Hres.
    rewrite process_delay_list_hold by assumption.
    set (pv2 := set_delay_list _ _).
    destruct (IH pv2 (acc ++ []) Hd Hn) as (Hout & Hfo & held & Hdl & Hall).
    rewrite Hout, Hfo, Hdl, app_nil_r. repeat split.
    exists (out :: held). split.
    + subst pv2. cbn. rewrite <- app_assoc. reflexivity.
    + constructor; [exact Hres|].
      eapply Forall2_impl; [exact Hall|].
      intros p b Hb. eapply resolved_from_ext; [|exact Hb]. reflexivity.
Qed.

(** ** The walk over the delay list *)

Lemma apply_dts_app pv bufs1 : forall fo bufs2,
  apply_dts pv fo (bufs1 ++ bufs2)
  = (fst (apply_dts pv fo bufs1)
       ++ fst (apply_dts pv (snd (apply_dts pv fo bufs1)) bufs2),
     snd (apply_dts pv (snd (apply_dts pv fo bufs1)) bufs2)).
Proof.
  induction bufs1 as [|b bufs1 IH]; intros fo bufs2.
  - cbn. destruct (apply_dts pv fo bufs2). reflexivity.
  - cbn [app apply_dts]. rewrite IH.
    destruct (apply_dts pv (to_int (fo + 1)) bufs1) as [o1 f1].
    cbn [fst snd].
    destruct (apply_dts pv f1 bufs2) as [o2 f2]. reflexivity.
Qed.

Lemma apply_dts_spec pv bufs : forall fo,
  0 < areBframes (job pv) <= INT_MAX ->
  0 <= fo ->
  fo + Z.of_nat (length bufs) <= INT_MAX ->
  apply_dts pv fo bufs
  = (imap (fun i b =>
             set_renderOffset (spec_render_offset pv (fo + Z.of_nat i)) b)
          bufs,
     fo + Z.of_nat (length bufs)).
Proof.
  induction bufs as [|b bufs IH]; intros fo Hd Hfo Hlen.
  - cbn. rewrite Z.add_0_r. reflexivity.
  - cbn [apply_dts length] in *.
    rewrite (to_int_small (fo + 1)) by (unfold INT_MAX in *; lia).
    rewrite IH by lia. cbn [imap]. f_equal; [|lia]. f_equal.
    + unfold spec_render_offset. rewrite Z.add_0_r.
      destruct (fo <? areBframes (job pv)); [reflexivity|].
      rewrite to_int_small by (unfold INT_MAX in *; lia). reflexivity.
    + apply imap_ext. intros i x _. cbn. do 2 f_equal. lia.
Qed.

Lemma apply_dts_length pv bufs : forall fo,
  length (fst (apply_dts pv fo bufs)) = length bufs.
Proof.
  induction bufs as [|b bufs IH]; intros fo; [reflexivity|].
  cbn [apply_dts]. specialize (IH (to_int (fo + 1))).
  destruct (apply_dts pv (to_int (fo + 1)) bufs). cbn in *. lia.
Qed.

(** ** The packet loop once the delay is known *)

Lemma get_packets_release pkts : forall pv acc,
  areBframes (job pv) <> 0 ->
  areBframes (job pv) < frameno_in pv ->
  pkts <> [] \/ delay_list pv = [] ->
  exists res,
    Forall2 (resolved_from pv) pkts res
    /\ snd (get_packets pv pkts acc)
       = acc ++ fst (apply_dts pv (frameno_out pv) (delay_list pv ++ res))
    /\ frameno_out (fst (get_packets pv pkts acc))
       = snd (apply_dts pv (frameno_out pv) (delay_list pv ++ res))
    /\ delay_list (fst (get_packets pv pkts acc)) = [].
Proof.
  induction pkts as [|pkt rest IH]; intros pv acc Hd Hn Hne;
    cbn [get_packets].
  - destruct Hne as [Hne|Hdl]; [congruence|].
    exists []. rewrite Hdl. cbn. rewrite app_nil_r.
    repeat split; [constructor|exact Hdl].
  - pose proof (resolved_from_here pv pkt) as Hres.
    destruct (resolve_packet pv pkt) as [q out]. cbn [snd] in Hres.
    rewrite process_delay_list_release by assumption.
    set (pv1 := set_chapter_queue q pv).
    change (frameno_out pv1) with (frameno_out pv).
    change (delay_list pv1) with (delay_list pv).
    rewrite (apply_dts_ext pv1 pv) by reflexivity.
    set (r1 := apply_dts pv (frameno_out pv) (delay_list pv ++ [out])).
    set (pv2 := set_delay_list [] _).
    destruct (IH pv2 (acc ++ fst r1) Hd Hn (or_intror eq_refl))
      as (res & Hall & Hout & Hfo & Hdl).
    change (frameno_out pv2) with (snd r1) in Hout, Hfo.
    change (delay_list pv2) with (@nil hb_buffer_t) in Hout, Hfo.
    rewrite (apply_dts_ext pv2 pv) in Hout, Hfo by reflexivity.
    cbn [app] in Hout, Hfo.
    exists (out :: res). split; [|split; [|split]].
    + constructor; [exact Hres|].
      eapply Forall2_impl; [exact Hall|].
      intros p b Hb. eapply resolved_from_ext; [|exact Hb]. reflexivity.
    + rewrite Hout.
      change (delay_list pv ++ out :: res)
        with (delay_list pv ++ [out] ++ res).
      rewrite app_assoc, (apply_dts_app pv (delay_list pv ++ [out])).
      cbn [fst]. rewrite <- app_assoc. reflexivity.
    + rewrite Hfo.
      change (delay_list pv ++ out :: res)
        with (delay_list pv ++ [out] ++ res).
      rewrite app_assoc, (apply_dts_app pv (delay_list pv ++ [out])).
      reflexivity.
    + exact Hdl.
Qed.

(** ** The buffers the packet loop builds *)

Lemma resolve_packets_ext pkts : forall pv pv',
  frame_info pv = frame_info pv' -> chapter_queue pv = chapter_queue pv' ->
  resolve_packets pv pkts = resolve_packets pv' pkts.
Proof.
  induction pkts as [|pkt rest IH]; intros pv pv' Hf Hq; [reflexivity|].
  cbn [resolve_packets]. rewrite (resolve_packet_ext pv pv' pkt Hf Hq).
  destruct (resolve_packet pv' pkt) as [q out]. f_equal.
  apply IH; [exact Hf|reflexivity].
Qed.

Lemma resolve_packets_length pkts : forall pv,
  length (resolve_packets pv pkts) = length pkts.
Proof.
  induction pkts as [|pkt rest IH]; intros pv; [reflexivity|].
  cbn [resolve_packets]. destruct (resolve_packet pv pkt) as [q out].
  cbn [length]. rewrite IH. reflexivity.
Qed.

Lemma get_packets_depth0_exact pkts : forall pv acc,
  areBframes (job pv) = 0 ->
  snd (get_packets pv pkts acc)
  = acc ++ map (fun b => set_renderOffset (s_start b) b)
               (resolve_packets pv pkts).
Proof.
  induction pkts as [|pkt rest IH]; intros pv acc Hd;
    cbn [get_packets resolve_packets].
  - cbn. rewrite app_nil_r. reflexivity.
  - destruct (resolve_packet pv pkt) as [q out].
    rewrite process_delay_list_depth0 by exact Hd.
    rewrite IH by exact Hd. cbn [map]. rewrite <- app_assoc. reflexivity.
Qed.

Lemma get_packets_hold_exact pkts : forall pv acc,
  areBframes (job pv) <> 0 ->
  frameno_in pv <= areBframes (job pv) ->
  delay_list (fst (get_packets pv pkts acc))
  = delay_list pv ++ resolve_packets pv pkts.
Proof.
  induction pkts as [|pkt rest IH]; intros pv acc Hd Hn;
    cbn [get_packets resolve_packets].
  - cbn. rewrite app_nil_r. reflexivity.
  - destruct (resolve_packet pv pkt) as [q out].
    rewrite process_delay_list_hold by assumption.
    set (pv1 := set_chapter_queue q pv).
    set (pv2 := set_delay_list _ _).
    rewrite (IH pv2 (acc ++ []) Hd Hn).
    rewrite (resolve_packets_ext rest pv2 pv1) by reflexivity.
    subst pv2. cbn [delay_list set_delay_list pv1 set_chapter_queue].
    rewrite <- app_assoc. reflexivity.
Qed.

Lemma get_packets_release_exact pkts : forall pv acc,
  areBframes (job pv) <> 0 ->
  areBframes (job pv) < frameno_in pv ->
  pkts <> [] \/ delay_list pv = [] ->
  snd (get_packets pv pkts acc)
  = acc ++ fst (apply_dts pv (frameno_out pv)
                  (delay_list pv ++ resolve_packets pv pkts)).
Proof.
  induction pkts as [|pkt rest IH]; intros pv acc Hd Hn Hne;
    cbn [get_packets resolve_packets].
  - destruct Hne as [Hne|Hdl]; [congruence|].
    rewrite Hdl. cbn. rewrite app_nil_r. reflexivity.
  - destruct (resolve_packet pv pkt) as [q out].
    rewrite process_delay_list_release by assumption.
    set (pv1 := set_chapter_queue q pv).
    change (frameno_out pv1) with (frameno_out pv).
    change (delay_list pv1) with (delay_list pv).
    rewrite (apply_dts_ext pv1 pv) by reflexivity.
    set (r1 := apply_dts pv (frameno_out pv) (delay_list pv ++ [out])).
    set (pv2 := set_delay_list [] _).
    rewrite (IH pv2 (acc ++ fst r1) Hd Hn (or_intror eq_refl)).
    change (frameno_out pv2) with (snd r1).
    change (delay_list pv2) with (@nil hb_buffer_t).
    rewrite (apply_dts_ext pv2 pv) by reflexivity.
    rewrite (resolve_packets_ext rest pv2 pv1) by reflexivity.
    cbn [app].
    change (delay_list pv ++ out :: resolve_packets pv1 rest)
      with (delay_list pv ++ [out] ++ resolve_packets pv1 rest).
    rewrite (app_assoc (delay_list pv)),
      (apply_dts_app pv (delay_list pv ++ [out])).
    cbn [fst]. rewrite <- app_assoc. reflexivity.
Qed.

(** ** Streams *)

Lemma encode_frames_cons pv inb enc rest :
  encode_frames pv ((inb, enc) :: rest)
  = (fst (encode_frames (fst (fst (Encode pv inb enc []))) rest),
     snd (Encode pv inb enc [])
       ++ snd (encode_frames (fst (fst (Encode pv inb enc []))) rest)).
Proof.
  cbn [encode_frames]. destruct (Encode pv inb enc []) as [[pv1 fr] out1].
  cbn [fst snd]. destruct (encode_frames pv1 rest). reflexivity.
Qed.

Lemma encode_frames_app calls1 : forall pv calls2,
  encode_frames pv (calls1 ++ calls2)
  = (fst (encode_frames (fst (encode_frames pv calls1)) calls2),
     snd (encode_frames pv calls1)
       ++ snd (encode_frames (fst (encode_frames pv calls1)) calls2)).
Proof.
  induction calls1 as [|[inb enc] calls1 IH]; intros pv calls2.
  - cbn. destruct (encode_frames pv calls2). reflexivity.
  - rewrite <- app_comm_cons, !encode_frames_cons, IH. cbn [fst snd].
    rewrite app_assoc. reflexivity.
Qed.

Lemma encode_stream_unfold pv calls fl :
  encode_stream pv calls fl
  = (fst (get_packets (fst (encode_frames pv calls)) (received fl) []),
     snd (encode_frames pv calls)
       ++ snd (get_packets (fst (encode_frames pv calls)) (received fl) [])).
Proof.
  unfold encode_stream, Flush. destruct (encode_frames pv calls) as [pv1 o1].
  cbn [fst snd]. destruct (get_packets pv1 (received fl) []). reflexivity.
Qed.

Lemma Encode_frame_facts pv inb enc acc :
  let pv' := fst (fst (Encode pv inb enc acc)) in
  areBframes (job pv') = areBframes (job pv)
  /\ chapter_markers (job pv') = chapter_markers (job pv)
  /\ frameno_in pv' = to_int (frameno_in pv + 1)
  /\ frame_info pv' = frame_info (save_frame_info pv inb)
  /\ dts_delay pv' = dts_delay (Encode_state pv inb).
Proof.
  rewrite Encode_unfold.
  destruct (Encode_state_frame pv inb) as (Hb & Hc & _ & Hn & _ & _ & Hf).
  destruct (send_ret enc <? 0); cbn [fst snd].
  - repeat split; assumption.
  - destruct (get_packets_frame (received enc) (Encode_state pv inb) acc)
      as (Hj & _ & Hn' & Hd' & Hf').
    rewrite Hj, Hn', Hd', Hf'. repeat split; assumption.
Qed.

Lemma drained_cons inb enc rest :
  drained ((inb, enc) :: rest)
  = (if send_ret enc <? 0 then [] else received enc) ++ drained rest.
Proof. reflexivity. Qed.

Lemma encode_frames_depth0 calls : forall pv,
  areBframes (job pv) = 0 ->
  areBframes (job (fst (encode_frames pv calls))) = 0
  /\ delay_list (fst (encode_frames pv calls)) = delay_list pv
  /\ length (snd (encode_frames pv calls)) = length (drained calls).
Proof.
  induction calls as [|[inb enc] rest IH]; intros pv Hd.
  - cbn. repeat split; assumption.
  - rewrite encode_frames_cons, drained_cons. cbn [fst snd].
    destruct (Encode_frame_facts pv inb enc []) as (Hb & _).
    cbn in Hb. rewrite Hd in Hb.
    destruct (IH _ Hb) as (Hb' & Hdl & Hlen).
    rewrite Hb', Hdl, !length_app, Hlen.
    rewrite Encode_unfold.
    destruct (Encode_state_frame pv inb) as (Hb0 & _ & _ & _ & _ & Hdl0 & _).
    rewrite Hd in Hb0.
    destruct (send_ret enc <? 0); cbn [fst snd].
    + repeat split; assumption.
    + destruct (get_packets_depth0 (received enc) (Encode_state pv inb) [] Hb0)
        as (Hdl1 & _ & outs & Hout & Hall).
      rewrite Hdl1, Hout. cbn [app].
      rewrite (Forall2_length _ _ _ Hall).
      repeat split; assumption.
Qed.

(** C7: without reordering ([areBframes] is 0) every packet the loop
    resolves comes back at once, in the order the encoder handed the
    packets over and with its render offset equal to its own start; the
    delay list is left as it was, by the loop and by a whole stream, which
    releases as many packets as the encoder handed back. *)
Theorem no_reordering_passes_through pv :
  areBframes (job pv) = 0 ->
  (forall pkts acc,
      delay_list (fst (get_packets pv pkts acc)) = delay_list pv
      /\ exists outs,
          snd (get_packets pv pkts acc) = acc ++ outs
          /\ Forall2
               (fun pkt b =>
                  exists out, resolved_from pv pkt out
                              /\ b = set_renderOffset (s_start out) out)
               pkts outs)
  /\ (forall calls fl,
        delay_list (fst (encode_stream pv calls fl)) = delay_list pv
        /\ length (snd (encode_stream pv calls fl))
           = length (drained calls ++ received fl)).
Proof.
  intros Hd. split.
  - intros pkts acc.
    destruct (get_packets_depth0 pkts pv acc Hd) as (Hdl & _ & Hout).
    split; assumption.
  - intros calls fl. rewrite encode_stream_unfold. cbn [fst snd].
    destruct (encode_frames_depth0 calls pv Hd) as (Hb & Hdl & Hlen).
    destruct (get_packets_depth0 (received fl) _ [] Hb)
      as (Hdl1 & _ & outs & Hout & Hall).
    rewrite Hdl1, Hdl, Hout, !length_app, Hlen. cbn [app].
    rewrite (Forall2_length _ _ _ Hall). split; reflexivity.
Qed.

Lemma encode_frames_hold calls : forall pv,
  areBframes (job pv) <> 0 ->
  areBframes (job pv) <= INT_MAX ->
  0 <= frameno_in pv ->
  frameno_in pv + Z.of_nat (length calls) <= areBframes (job pv) ->
  snd (encode_frames pv calls) = []
  /\ areBframes (job (fst (encode_frames pv calls))) = areBframes (job pv)
  /\ frameno_in (fst (encode_frames pv calls))
     = frameno_in pv + Z.of_nat (length calls)
  /\ frameno_out (fst (encode_frames pv calls)) = frameno_out pv
  /\ dts_delay (fst (encode_frames pv calls)) = dts_delay pv
  /\ exists held,
      delay_list (fst (encode_frames pv calls)) = delay_list pv ++ held
      /\ Forall2 resolved (drained calls) held.
Proof.
  induction calls as [|[inb enc] rest IH]; intros pv Hd Hmax Hn0 Hlen.
  - cbn. rewrite Z.add_0_r. repeat split. exists [].
    rewrite app_nil_r. split; constructor.
  - cbn [length] in Hlen.
    rewrite encode_frames_cons, drained_cons. cbn [fst snd].
    destruct (Encode_frame_facts pv inb enc []) as (Hb & _ & Hn & _ & Hdts).
    cbn zeta in Hb, Hn, Hdts.
    rewrite to_int_small in Hn by (unfold INT_MAX in *; lia).
    set (pv1 := fst (fst (Encode pv inb enc []))) in *.
    assert (Hd1 : areBframes (job pv1) <> 0) by (rewrite Hb; exact Hd).
    destruct (IH pv1 Hd1) as (Hout & Hb' & Hn' & Hfo & Hdts' & held & Hdl & Hall);
      [rewrite Hb; lia|lia|rewrite Hb; lia|].
    rewrite Hout, Hb', Hn', Hfo, Hdts', Hdl, Hb, Hn, Hdts, app_nil_r.
    rewrite Encode_state_dts_delay.
    destruct (Z.eqb_spec (frameno_in pv) (areBframes (job pv))) as [Heq|_];
      [lia|]. rewrite andb_false_r.
    subst pv1. rewrite Encode_unfold.
    destruct (Encode_state_frame pv inb)
      as (Hb0 & _ & _ & Hn0' & Hfo0 & Hdl0 & _).
    rewrite to_int_small in Hn0' by (unfold INT_MAX in *; lia).
    destruct (send_ret enc <? 0); cbn [fst snd].
    + rewrite Hfo0, Hdl0. repeat split; try (cbn [length]; lia).
      exists held. split; [reflexivity|exact Hall].
    + destruct (get_packets_hold (received enc) (Encode_state pv inb) [])
        as (Hout1 & Hfo1 & held1 & Hdl1 & Hall1);
        [rewrite Hb0; exact Hd|rewrite Hb0, Hn0'; lia|].
      rewrite Hout1, Hfo1, Hdl1, Hfo0, Hdl0.
      repeat split; try (cbn [length]; lia).
      exists (held1 ++ held). split; [rewrite app_assoc; reflexivity|].
      apply Forall2_app; [|exact Hall].
      eapply Forall2_impl; [exact Hall1|].
      intros p b Hb1. eapply resolved_from_resolved. exact Hb1.
Qed.

(** C6: with a reorder depth [d > 0], as long as no more than [d] frames
    have been submitted (the frame with sequence number [d] has not), the
    stream has released nothing, and the delay list holds, in order, the
    resolved buffer of every packet the encoder handed back. *)
Theorem nothing_released_before_frame_d j q calls :
  0 < areBframes j <= INT_MAX ->
  Z.of_nat (length calls) <= areBframes j ->
  snd (encode_frames (pv_calloc j q) calls) = []
  /\ Forall2 resolved (drained calls)
       (delay_list (fst (encode_frames (pv_calloc j q) calls))).
Proof.
  intros Hd Hlen.
  destruct (encode_frames_hold calls (pv_calloc j q))
    as (Hout & _ & _ & _ & _ & held & Hdl & Hall); cbn; try lia.
  split; [exact Hout|]. rewrite Hdl. exact Hall.
Qed.

(** ** Counting packets under reordering *)

Lemma get_packets_released pkts pv acc :
  0 < areBframes (job pv) <= INT_MAX ->
  areBframes (job pv) < frameno_in pv ->
  0 <= frameno_out pv ->
  frameno_out pv + Z.of_nat (length (delay_list pv))
    + Z.of_nat (length pkts) <= INT_MAX ->
  pkts <> [] \/ delay_list pv = [] ->
  exists res,
    Forall2 (resolved_from pv) pkts res
    /\ snd (get_packets pv pkts acc)
       = acc ++ imap (fun i b =>
                       set_renderOffset
                         (spec_render_offset pv (frameno_out pv + Z.of_nat i))
                         b)
                    (delay_list pv ++ res)
    /\ frameno_out (fst (get_packets pv pkts acc))
       = frameno_out pv + Z.of_nat (length (delay_list pv))
         + Z.of_nat (length pkts)
    /\ delay_list (fst (get_packets pv pkts acc)) = [].
Proof.
  intros Hd Hn Hfo Hmax Hne.
  destruct (get_packets_release pkts pv acc) as (res & Hall & Hout & Hfo' & Hdl);
    [lia|exact Hn|exact Hne|].
  pose proof (Forall2_length _ _ _ Hall) as Hlen.
  rewrite apply_dts_spec in Hout, Hfo'
    by (rewrite ?length_app; try assumption; lia).
  cbn [fst snd] in Hout, Hfo'.
  exists res. repeat split; try assumption.
  rewrite Hfo', length_app. lia.
Qed.

Lemma get_packets_counts pkts pv acc :
  0 < areBframes (job pv) <= INT_MAX ->
  0 <= frameno_out pv ->
  frameno_out pv + Z.of_nat (length (delay_list pv))
    + Z.of_nat (length pkts) <= INT_MAX ->
  let pv' := fst (get_packets pv pkts acc) in
  frameno_out pv'
  = frameno_out pv + Z.of_nat (length (snd (get_packets pv pkts [])))
  /\ frameno_out pv' + Z.of_nat (length (delay_list pv'))
     = frameno_out pv + Z.of_nat (length (delay_list pv))
       + Z.of_nat (length pkts)
  /\ (areBframes (job pv) < frameno_in pv -> pkts <> [] ->
      delay_list pv' = []).
Proof.
  intros Hd Hfo Hmax. cbn zeta.
  rewrite (get_packets_acc pkts pv acc). cbn [fst].
  destruct (Z.le_gt_cases (frameno_in pv) (areBframes (job pv))) as [Hn|Hn].
  - destruct (get_packets_hold pkts pv []) as (Hout & Hfo' & held & Hdl & Hall);
      [lia|exact Hn|].
    rewrite Hout, Hfo', Hdl, length_app, (Forall2_length _ _ _ Hall).
    cbn [length]. repeat split; lia.
  - destruct pkts as [|pkt rest].
    + cbn. repeat split; try lia. congruence.
    + destruct (get_packets_released (pkt :: rest) pv [])
        as (res & Hall & Hout & Hfo' & Hdl);
        [assumption|lia|assumption|assumption|left; congruence|].
      pose proof (Forall2_length _ _ _ Hall) as Hlen.
      rewrite Hout, Hfo', Hdl. cbn [app length] in *.
      rewrite length_imap, length_app. repeat split; lia.
Qed.

Lemma encode_frames_counts calls : forall pv,
  0 < areBframes (job pv) <= INT_MAX ->
  0 <= frameno_in pv ->
  frameno_in pv + Z.of_nat (length calls) <= INT_MAX ->
  0 <= frameno_out pv ->
  frameno_out pv + Z.of_nat (length (delay_list pv))
    + Z.of_nat (length (drained calls)) <= INT_MAX ->
  areBframes (job (fst (encode_frames pv calls))) = areBframes (job pv)
  /\ frameno_in (fst (encode_frames pv calls))
     = frameno_in pv + Z.of_nat (length calls)
  /\ frameno_out (fst (encode_frames pv calls))
     = frameno_out pv + Z.of_nat (length (snd (encode_frames pv calls)))
  /\ frameno_out (fst (encode_frames pv calls))
     + Z.of_nat (length (delay_list (fst (encode_frames pv calls))))
     = frameno_out pv + Z.of_nat (length (delay_list pv))
       + Z.of_nat (length (drained calls)).
Proof.
  induction calls as [|[inb enc] rest IH]; intros pv Hd Hn0 Hlen Hfo Hmax.
  - cbn. repeat split; lia.
  - cbn [length] in Hlen.
    rewrite drained_cons, length_app in Hmax.
    rewrite encode_frames_cons, drained_cons. cbn [fst snd].
    destruct (Encode_frame_facts pv inb enc []) as (Hb & _ & Hn & _).
    cbn zeta in Hb, Hn.
    rewrite to_int_small in Hn by (unfold INT_MAX in *; lia).
    assert (Hstep :
      frameno_out (fst (fst (Encode pv inb enc [])))
      = frameno_out pv + Z.of_nat (length (snd (Encode pv inb enc [])))
      /\ frameno_out (fst (fst (Encode pv inb enc [])))
         + Z.of_nat (length (delay_list (fst (fst (Encode pv inb enc [])))))
         = frameno_out pv + Z.of_nat (length (delay_list pv))
           + Z.of_nat (length (if send_ret enc <? 0 then []
                               else received enc))).
    { rewrite Encode_unfold.
      destruct (Encode_state_frame pv inb)
        as (Hb0 & _ & _ & _ & Hfo0 & Hdl0 & _).
      destruct (send_ret enc <? 0); cbn [fst snd length].
      - rewrite Hfo0, Hdl0. lia.
      - destruct (get_packets_counts (received enc) (Encode_state pv inb) [])
          as (H1 & H2 & _).
        + rewrite Hb0. exact Hd.
        + rewrite Hfo0. exact Hfo.
        + rewrite Hfo0, Hdl0. lia.
        + rewrite Hfo0, Hdl0 in *. split; assumption. }
    destruct Hstep as (Hs1 & Hs2).
    set (pv1 := fst (fst (Encode pv inb enc []))) in *.
    destruct (IH pv1) as (Hb' & Hn' & Hfo' & Hsum);
      try rewrite Hb; try lia.
    rewrite Hb', Hn', Hfo', Hb, Hn, Hs1, !length_app.
    repeat split; cbn [length]; lia.
Qed.

(** ** The delay over a stream *)

Lemma encode_frames_dts calls : forall pv,
  areBframes (job pv) <> 0 ->
  0 <= frameno_in pv ->
  frameno_in pv + Z.of_nat (length calls) <= INT_MAX ->
  areBframes (job (fst (encode_frames pv calls))) = areBframes (job pv)
  /\ frameno_in (fst (encode_frames pv calls))
     = frameno_in pv + Z.of_nat (length calls)
  /\ dts_delay (fst (encode_frames pv calls))
     = if frameno_in pv <=? areBframes (job pv)
       then match calls !! Z.to_nat (areBframes (job pv) - frameno_in pv) with
            | Some c => s_start (fst c)
            | None => dts_delay pv
            end
       else dts_delay pv.
Proof.
  induction calls as [|[inb enc] rest IH]; intros pv Hd Hn0 Hlen.
  - cbn. rewrite Z.add_0_r. repeat split.
    destruct (frameno_in pv <=? areBframes (job pv)); reflexivity.
  - cbn [length] in Hlen. rewrite encode_frames_cons. cbn [fst snd].
    destruct (Encode_frame_facts pv inb enc []) as (Hb & _ & Hn & _ & Hdts).
    cbn zeta in Hb, Hn, Hdts.
    rewrite to_int_small in Hn by (unfold INT_MAX in *; lia).
    rewrite Encode_state_dts_delay in Hdts.
    set (pv1 := fst (fst (Encode pv inb enc []))) in *.
    destruct (IH pv1) as (Hb' & Hn' & Hdts'); try rewrite Hb; try lia.
    rewrite Hb', Hn', Hdts', Hb, Hn, Hdts.
    repeat split; [cbn [length]; lia|].
    destruct (Z.eqb_spec (areBframes (job pv)) 0) as [|_]; [contradiction|].
    cbn [negb andb].
    destruct (Z.leb_spec (frameno_in pv + 1) (areBframes (job pv)));
      destruct (Z.leb_spec (frameno_in pv) (areBframes (job pv)));
      destruct (Z.eqb_spec (frameno_in pv) (areBframes (job pv)));
      try lia.
    + replace (Z.to_nat (areBframes (job pv) - frameno_in pv))
        with (S (Z.to_nat (areBframes (job pv) - (frameno_in pv + 1))))
        by lia.
      reflexivity.
    + replace (Z.to_nat (areBframes (job pv) - frameno_in pv)) with 0%nat
        by lia.
      reflexivity.
Qed.

(** C4: with a reorder depth [d > 0], the delay of a stream is the value
    the private data started with (0) as long as the stream has no frame
    with sequence number [d], and the start of that frame from its
    submission on: no later frame, packet or flush changes it. *)
Theorem dts_delay_fixed_at_frame_d j q calls fl :
  0 < areBframes j ->
  Z.of_nat (length calls) <= INT_MAX ->
  dts_delay (fst (encode_frames (pv_calloc j q) calls))
  = match calls !! Z.to_nat (areBframes j) with
    | Some c => s_start (fst c)
    | None => 0
    end
  /\ dts_delay (fst (encode_stream (pv_calloc j q) calls fl))
     = dts_delay (fst (encode_frames (pv_calloc j q) calls)).
Proof.
  intros Hd Hlen. split.
  - destruct (encode_frames_dts calls (pv_calloc j q)) as (_ & _ & Hdts);
      cbn; try lia.
    rewrite Hdts. cbn.
    destruct (Z.leb_spec 0 (areBframes j)); [|lia].
    rewrite Z.sub_0_r. reflexivity.
  - rewrite encode_stream_unfold. cbn [fst].
    destruct (get_packets_frame (received fl)
                (fst (encode_frames (pv_calloc j q) calls)) [])
      as (_ & _ & _ & Hdts & _).
    exact Hdts.
Qed.

(** C5: with a reorder depth [d > 0], once the frame with sequence number
    [d] is in, a call of [Encode] in which the encoder hands back packets
    releases the whole delay list followed by those packets, and the
    packet at cumulative output index [k] (counted over the stream) gets
    its render offset from the spec's formula, read from the registry and
    the delay at the time of this call; the delay is the start of frame
    [d].  The flush releases packets by the same formula. *)
Theorem render_offset_follows_formula j q calls inb enc :
  0 < areBframes j <= INT_MAX ->
  areBframes j <= Z.of_nat (length calls) < INT_MAX ->
  Z.of_nat (length (drained calls)) + Z.of_nat (length (received enc))
    <= INT_MAX ->
  0 <= send_ret enc ->
  received enc <> [] ->
  let pv0 := fst (encode_frames (pv_calloc j q) calls) in
  let out0 := snd (encode_frames (pv_calloc j q) calls) in
  let pv1 := Encode_state pv0 inb in
  (exists res,
      Forall2 (resolved_from pv1) (received enc) res
      /\ snd (Encode pv0 inb enc [])
         = imap (fun i b =>
                   set_renderOffset
                     (spec_render_offset pv1
                        (Z.of_nat (length out0) + Z.of_nat i)) b)
                (delay_list pv0 ++ res))
  /\ delay_list (fst (fst (Encode pv0 inb enc []))) = []
  /\ areBframes (job pv1) = areBframes j
  /\ (exists c,
        (calls ++ [(inb, enc)]) !! Z.to_nat (areBframes j) = Some c
        /\ dts_delay pv1 = s_start (fst c))
  /\ (forall fl,
        areBframes j < Z.of_nat (length calls) ->
        received fl <> [] ->
        Z.of_nat (length (drained calls)) + Z.of_nat (length (received fl))
          <= INT_MAX ->
        exists res,
          Forall2 (resolved_from pv0) (received fl) res
          /\ snd (Flush pv0 fl [])
             = imap (fun i b =>
                       set_renderOffset
                         (spec_render_offset pv0
                            (Z.of_nat (length out0) + Z.of_nat i)) b)
                    (delay_list pv0 ++ res)).
Proof.
  intros Hd Hlen Hmax Hsend Hne pv0 out0 pv1.
  destruct (encode_frames_counts calls (pv_calloc j q))
    as (Hb & Hn & Hfo & Hsum); cbn; try lia.
  cbn in Hb, Hn, Hfo, Hsum. fold pv0 in Hb, Hn, Hfo, Hsum.
  fold out0 in Hfo.
  destruct (Encode_state_frame pv0 inb)
    as (Hb1 & _ & _ & Hn1 & Hfo1 & Hdl1 & _).
  fold pv1 in Hb1, Hn1, Hfo1, Hdl1.
  rewrite to_int_small in Hn1 by (unfold INT_MAX in *; lia).
  destruct (get_packets_released (received enc) pv1 [])
    as (res & Hall & Hout & _ & Hdl);
    [rewrite Hb1, Hb; exact Hd|rewrite Hb1, Hb, Hn1, Hn; lia
    |rewrite Hfo1, Hfo; lia|rewrite Hfo1, Hdl1; lia|left; exact Hne|].
  rewrite Encode_unfold.
  destruct (Z.ltb_spec (send_ret enc) 0); [lia|]. cbn [fst snd].
  fold pv1. split; [|split; [|split; [|split]]].
  - exists res. split; [exact Hall|].
    rewrite Hout, Hfo1, Hdl1, Hfo. cbn [app]. reflexivity.
  - exact Hdl.
  - exact (eq_trans Hb1 Hb).
  - destruct (encode_frames_dts (calls ++ [(inb, enc)]) (pv_calloc j q))
      as (_ & _ & Hdts); cbn; try lia.
    { rewrite length_app. cbn. lia. }
    rewrite encode_frames_app in Hdts. cbn [fst] in Hdts.
    fold pv0 in Hdts. rewrite encode_frames_cons in Hdts.
    cbn [fst encode_frames] in Hdts.
    destruct (Encode_frame_facts pv0 inb enc []) as (_ & _ & _ & _ & Hd1).
    cbn zeta in Hd1. fold pv1 in Hd1. rewrite Hd1 in Hdts.
    cbn in Hdts. destruct (Z.leb_spec 0 (areBframes j)); [|lia].
    rewrite Z.sub_0_r in Hdts.
    destruct ((calls ++ [(inb, enc)]) !! Z.to_nat (areBframes j))
      as [c|] eqn:Hc.
    + exists c. split; [reflexivity|exact Hdts].
    + apply lookup_ge_None in Hc. rewrite length_app in Hc. cbn in Hc. lia.
  - intros fl Hgt Hfl Hmaxfl. unfold Flush.
    destruct (get_packets_released (received fl) pv0 [])
      as (resf & Hallf & Houtf & _);
      [rewrite Hb; exact Hd|rewrite Hb, Hn; lia|lia|lia|left; exact Hfl|].
    exists resf. split; [exact Hallf|].
    rewrite Houtf, Hfo. cbn [app]. reflexivity.
Qed.

(** ** Flush *)

(** C3, as the code has it: when more frames than the reorder depth were
    submitted and the encoder hands back at least one packet at the flush,
    the flush releases, in this order, the buffers of the delay list and
    the buffers it builds for the packets it drains, each of them changed
    in its render offset only (the spec's formula at its cumulative output
    index, its own start without reordering); the delay list is empty
    afterwards, and the stream as a whole has released one packet for
    every packet the encoder handed back. *)
Theorem flush_releases_once_delay_known j q calls fl :
  0 <= areBframes j <= INT_MAX ->
  areBframes j < Z.of_nat (length calls) <= INT_MAX ->
  Z.of_nat (length (drained calls)) + Z.of_nat (length (received fl))
    <= INT_MAX ->
  received fl <> [] ->
  let pv0 := fst (encode_frames (pv_calloc j q) calls) in
  let out0 := snd (encode_frames (pv_calloc j q) calls) in
  snd (Flush pv0 fl [])
  = imap (fun i b =>
            set_renderOffset
              (if areBframes j =? 0 then s_start b
               else spec_render_offset pv0
                      (Z.of_nat (length out0) + Z.of_nat i)) b)
         (delay_list pv0 ++ resolve_packets pv0 (received fl))
  /\ snd (encode_stream (pv_calloc j q) calls fl)
     = out0 ++ snd (Flush pv0 fl [])
  /\ delay_list (fst (encode_stream (pv_calloc j q) calls fl)) = []
  /\ length (snd (Flush pv0 fl []))
     = (length (delay_list pv0) + length (received fl))%nat
  /\ length (snd (encode_stream (pv_calloc j q) calls fl))
     = (length (drained calls) + length (received fl))%nat.
Proof.
  intros Hd Hlen Hmax Hne pv0 out0.
  rewrite encode_stream_unfold. unfold Flush. cbn [fst snd].
  fold pv0 out0. rewrite length_app.
  destruct (Z.eq_dec (areBframes j) 0) as [Hz|Hnz].
  - destruct (encode_frames_depth0 calls (pv_calloc j q) Hz)
      as (Hb & Hdl0 & Hl0).
    fold pv0 in Hb, Hdl0. fold out0 in Hl0. cbn in Hdl0.
    destruct (get_packets_depth0 (received fl) pv0 [] Hb)
      as (Hdl & _ & outs & Hout & Hall).
    rewrite Hdl, Hdl0, Hl0.
    split; [|split; [reflexivity|split; [reflexivity|split]]].
    + rewrite (get_packets_depth0_exact (received fl) pv0 [] Hb), Hz.
      cbn [app]. change (0 =? 0) with true. cbv iota.
      symmetry. apply imap_const.
    + rewrite Hout. cbn [app length]. rewrite (Forall2_length _ _ _ Hall).
      reflexivity.
    + rewrite Hout. cbn [app]. rewrite (Forall2_length _ _ _ Hall).
      reflexivity.
  - destruct (encode_frames_counts calls (pv_calloc j q))
      as (Hb & Hn & Hfo & Hsum); cbn; try lia.
    cbn in Hb, Hn, Hfo, Hsum. fold pv0 in Hb, Hn, Hfo, Hsum.
    fold out0 in Hfo.
    destruct (get_packets_counts (received fl) pv0 [])
      as (Hfo' & Hsum' & Hdl); try rewrite Hb; try lia.
    cbn zeta in Hfo', Hsum', Hdl.
    rewrite Hdl in * by (try rewrite Hb; try lia; assumption).
    cbn [length] in Hsum'.
    split; [|split; [reflexivity|split; [reflexivity|split; lia]]].
    rewrite get_packets_release_exact
      by (try rewrite Hb; try rewrite Hn; try lia; left; exact Hne).
    rewrite apply_dts_spec
      by (rewrite ?length_app, ?resolve_packets_length, ?Hb; lia).
    cbn [app fst]. apply imap_ext. intros i b _. cbn beta.
    destruct (Z.eqb_spec (areBframes j) 0) as [|_]; [contradiction|].
    rewrite Hfo. reflexivity.
Qed.

(** ** Chapter marks *)

(** C8, as the code has it: with the job's chapter markers enabled, a
    frame that carries a new chapter marker adds one mark at the tail of
    the queue on submission; a keyframe packet takes the mark at the head,
    if there is one, and carries its chapter, and otherwise is left as
    [hb_buffer_init] made it; other packets leave the queue alone; so a
    run of packets removes as many of the oldest marks as it has
    keyframes. *)
Theorem chapter_marks_pair_fifo pv inb pkt :
  chapter_markers (job pv) <> 0 ->
  0 < s_new_chap inb ->
  chapter_queue (Encode_state pv inb)
  = chapter_queue pv
      ++ [ {| mark_start := s_start inb; mark_new_chap := s_new_chap inb |} ]
  /\ (is_key pkt = true ->
      match chapter_queue pv with
      | [] =>
          fst (resolve_packet pv pkt) = []
          /\ s_new_chap (snd (resolve_packet pv pkt))
             = s_new_chap (hb_buffer_init (pkt_size pkt))
      | m :: q' =>
          fst (resolve_packet pv pkt) = q'
          /\ s_new_chap (snd (resolve_packet pv pkt)) = mark_new_chap m
      end)
  /\ (is_key pkt = false ->
      fst (resolve_packet pv pkt) = chapter_queue pv
      /\ s_new_chap (snd (resolve_packet pv pkt))
         = s_new_chap (hb_buffer_init (pkt_size pkt)))
  /\ (forall pkts acc,
        chapter_queue (fst (get_packets pv pkts acc))
        = drop (length (filter (fun p => is_key p = true) pkts))
               (chapter_queue pv)).
Proof.
  intros Hm Hc. split; [|split; [|split]].
  - rewrite Encode_state_queue.
    destruct (Z.ltb_spec 0 (s_new_chap inb)); [|lia].
    destruct (Z.eqb_spec (chapter_markers (job pv)) 0); [contradiction|].
    reflexivity.
  - unfold is_key, resolve_packet. intros ->.
    destruct (chapter_queue pv); cbn; split; reflexivity.
  - unfold is_key, resolve_packet. intros ->. cbn. split; reflexivity.
  - intros pkts acc. apply get_packets_queue.
Qed.

(** ** The chapter gate and the timing *)

Lemma resolve_packet_erase pv1 pv2 pkt :
  frame_info pv1 = frame_info pv2 ->
  set_new_chap 0 (snd (resolve_packet pv1 pkt))
  = set_new_chap 0 (snd (resolve_packet pv2 pkt)).
Proof.
  intros Hf. unfold resolve_packet, get_frame_start, get_frame_duration.
  rewrite Hf.
  destruct (negb (Z.land (pkt_flags pkt) AV_PKT_FLAG_KEY =? 0));
    [|reflexivity].
  destruct (chapter_queue pv1), (chapter_queue pv2); reflexivity.
Qed.

Lemma apply_dts_erase pv1 pv2 :
  areBframes (job pv1) = areBframes (job pv2) ->
  dts_delay pv1 = dts_delay pv2 ->
  frame_info pv1 = frame_info pv2 ->
  forall l1 l2 fo,
    map (set_new_chap 0) l1 = map (set_new_chap 0) l2 ->
    map (set_new_chap 0) (fst (apply_dts pv1 fo l1))
    = map (set_new_chap 0) (fst (apply_dts pv2 fo l2))
    /\ snd (apply_dts pv1 fo l1) = snd (apply_dts pv2 fo l2).
Proof.
  intros Hb Hd Hf. induction l1 as [|b1 l1 IH]; intros [|b2 l2] fo Hl;
    try discriminate Hl.
  - split; reflexivity.
  - cbn [map] in Hl.
    pose proof (f_equal (fun l => match l with
                                  | [] => set_new_chap 0 b1
                                  | x :: _ => x
                                  end) Hl) as Hb12.
    apply (f_equal (@tail hb_buffer_t)) in Hl. cbn in Hb12, Hl.
    cbn [apply_dts]. unfold get_frame_start. rewrite Hb, Hd, Hf.
    destruct (IH l2 (to_int (fo + 1)) Hl) as (IH1 & IH2).
    destruct (apply_dts pv1 (to_int (fo + 1)) l1) as [o1 f1].
    destruct (apply_dts pv2 (to_int (fo + 1)) l2) as [o2 f2].
    cbn [fst snd map] in *. split; [|exact IH2]. f_equal; [|exact IH1].
    destruct (fo <? areBframes (job pv2)).
    + change (set_renderOffset
                (to_int64
                   (fi_start
                      (frame_info pv2
                         !!! Z.to_nat (Z.land fo FRAME_INFO_MASK))
                    - dts_delay pv2)) (set_new_chap 0 b1)
              = set_renderOffset
                  (to_int64
                     (fi_start
                        (frame_info pv2
                           !!! Z.to_nat (Z.land fo FRAME_INFO_MASK))
                      - dts_delay pv2)) (set_new_chap 0 b2)).
      rewrite Hb12. reflexivity.
    + set (v := fi_start _).
      change (set_renderOffset v (set_new_chap 0 b1)
              = set_renderOffset v (set_new_chap 0 b2)).
      rewrite Hb12. reflexivity.
Qed.

Lemma process_delay_list_erase pv1 pv2 b1 b2 :
  same_timing pv1 pv2 ->
  set_new_chap 0 b1 = set_new_chap 0 b2 ->
  same_timing (fst (process_delay_list pv1 (Some b1)))
              (fst (process_delay_list pv2 (Some b2)))
  /\ map (set_new_chap 0) (snd (process_delay_list pv1 (Some b1)))
     = map (set_new_chap 0) (snd (process_delay_list pv2 (Some b2))).
Proof.
  intros (Hb & Hn & Hfo & Hd & Hf & Hl) Hb12.
  assert (Hl' : map (set_new_chap 0) (delay_list pv1 ++ [b1])
                = map (set_new_chap 0) (delay_list pv2 ++ [b2])).
  { rewrite !map_app, Hl. cbn [map]. rewrite Hb12. reflexivity. }
  unfold process_delay_list. rewrite Hb.
  destruct (negb (areBframes (job pv2) =? 0)).
  - cbn. rewrite Hn, Hb.
    destruct (frameno_in pv2 <=? areBframes (job pv2)).
    + cbn. unfold same_timing. cbn. repeat split; assumption.
    + rewrite (apply_dts_ext _ pv1) by reflexivity.
      rewrite (apply_dts_ext (set_delay_list _ pv2) pv2) by reflexivity.
      rewrite Hfo.
      destruct (apply_dts_erase pv1 pv2 Hb Hd Hf _ _ (frameno_out pv2) Hl')
        as (E1 & E2).
      destruct (apply_dts pv1 (frameno_out pv2) (delay_list pv1 ++ [b1])).
      destruct (apply_dts pv2 (frameno_out pv2) (delay_list pv2 ++ [b2])).
      cbn [fst snd] in *. unfold same_timing. cbn.
      repeat split; assumption.
  - cbn. split; [unfold same_timing; repeat split; assumption|].
    f_equal.
    change (set_renderOffset (s_start (set_new_chap 0 b1)) (set_new_chap 0 b1)
            = set_renderOffset (s_start (set_new_chap 0 b2))
                (set_new_chap 0 b2)).
    rewrite Hb12. reflexivity.
Qed.

Lemma get_packets_erase pkts : forall pv1 pv2 acc1 acc2,
  same_timing pv1 pv2 ->
  map (set_new_chap 0) acc1 = map (set_new_chap 0) acc2 ->
  same_timing (fst (get_packets pv1 pkts acc1))
              (fst (get_packets pv2 pkts acc2))
  /\ map (set_new_chap 0) (snd (get_packets pv1 pkts acc1))
     = map (set_new_chap 0) (snd (get_packets pv2 pkts acc2)).
Proof.
  induction pkts as [|pkt rest IH]; intros pv1 pv2 acc1 acc2 Hs Ha;
    cbn [get_packets].
  - split; assumption.
  - pose proof (resolve_packet_erase pv1 pv2 pkt) as He.
    destruct (resolve_packet pv1 pkt) as [q1 o1].
    destruct (resolve_packet pv2 pkt) as [q2 o2].
    cbn [snd] in He.
    destruct (process_delay_list_erase
                (set_chapter_queue q1 pv1) (set_chapter_queue q2 pv2) o1 o2)
      as (Hs' & Ho').
    { destruct Hs as (? & ? & ? & ? & ? & ?).
      unfold same_timing. cbn. repeat split; assumption. }
    { apply He. destruct Hs as (_ & _ & _ & _ & Hf & _). exact Hf. }
    destruct (process_delay_list (set_chapter_queue q1 pv1) (Some o1))
      as [pv1' out1].
    destruct (process_delay_list (set_chapter_queue q2 pv2) (Some o2))
      as [pv2' out2].
    apply IH; [exact Hs'|].
    rewrite !map_app, Ha. cbn [snd] in Ho'. rewrite Ho'. reflexivity.
Qed.

Lemma Encode_frame_fields pv inb :
  Encode_frame pv inb
  = if (0 <? s_new_chap inb) && negb (chapter_markers (job pv) =? 0)
    then {| pict_type := AV_PICTURE_TYPE_I; key_frame := 1;
            quality := global_quality pv; pts := frameno_in pv |}
    else {| pict_type := 0; key_frame := 0;
            quality := global_quality pv; pts := frameno_in pv |}.
Proof.
  unfold Encode_frame, Encode, compute_dts_offset, save_frame_info.
  cbn [send_ret received]. change (-1 <? 0) with true. cbv iota.
  cbn [fst snd].
  destruct ((0 <? s_new_chap inb) && negb (chapter_markers (job pv) =? 0));
    cbn;
    destruct (areBframes (job pv) =? 0); cbn;
      try (destruct (frameno_in pv =? areBframes (job pv)); cbn);
      reflexivity.
Qed.

(** C9: for a frame that carries a new chapter marker, [Encode] enqueues
    a pending mark and asks the encoder for an intra coded key frame when
    the job's [chapter_markers] is set; when it is 0 the queue is left as
    it was on submission and the frame sent asks for nothing.  Either way
    the call ends with the same registry, delay and frame counters, and
    with the same delay list and released packets up to the chapter field
    of the buffers. *)
Theorem chapter_markers_gate pv inb enc acc m :
  0 < s_new_chap inb ->
  m <> 0 ->
  let pv_on := with_chapter_markers m pv in
  let pv_off := with_chapter_markers 0 pv in
  (chapter_queue (Encode_state pv_on inb)
   = hb_chapter_enqueue (chapter_queue pv) inb
   /\ pict_type (snd (fst (Encode pv_on inb enc acc))) = AV_PICTURE_TYPE_I
   /\ key_frame (snd (fst (Encode pv_on inb enc acc))) = 1)
  /\ (chapter_queue (Encode_state pv_off inb) = chapter_queue pv
      /\ pict_type (snd (fst (Encode pv_off inb enc acc))) = 0
      /\ key_frame (snd (fst (Encode pv_off inb enc acc))) = 0)
  /\ same_timing (fst (fst (Encode pv_on inb enc acc)))
                 (fst (fst (Encode pv_off inb enc acc)))
  /\ map (set_new_chap 0) (snd (Encode pv_on inb enc acc))
     = map (set_new_chap 0) (snd (Encode pv_off inb enc acc)).
Proof.
  intros Hc Hm pv_on pv_off.
  assert (Hon : (0 <? s_new_chap inb)
                && negb (chapter_markers (job pv_on) =? 0) = true).
  { cbn. destruct (Z.ltb_spec 0 (s_new_chap inb)); [|lia].
    destruct (Z.eqb_spec m 0); [contradiction|reflexivity]. }
  assert (Hoff : (0 <? s_new_chap inb)
                 && negb (chapter_markers (job pv_off) =? 0) = false).
  { cbn. apply andb_false_r. }
  assert (Hsame : same_timing (Encode_state pv_on inb)
                              (Encode_state pv_off inb)).
  { destruct (Encode_state_frame pv_on inb)
      as (Hb1 & _ & _ & Hn1 & Hfo1 & Hdl1 & Hf1).
    destruct (Encode_state_frame pv_off inb)
      as (Hb2 & _ & _ & Hn2 & Hfo2 & Hdl2 & Hf2).
    unfold same_timing.
    rewrite Hb1, Hb2, Hn1, Hn2, Hfo1, Hfo2, Hdl1, Hdl2, Hf1, Hf2.
    rewrite !Encode_state_dts_delay. repeat split. }
  rewrite !Encode_unfold, !Encode_state_queue, Hon, Hoff.
  destruct (send_ret enc <? 0); cbn [fst snd];
    rewrite !Encode_frame_fields, Hon, Hoff; cbn [pict_type key_frame].
  - split; [|split; [|split]]; [repeat split..|exact Hsame|reflexivity].
  - destruct (get_packets_erase (received enc) _ _ acc acc Hsame eq_refl)
      as (Hs & Ho).
    split; [|split; [|split]]; [repeat split..|exact Hs|exact Ho].
Qed.

(** ** Decode timestamps never pass presentation timestamps *)

Lemma mod32_distinct (i n : Z) :
  0 <= i < n -> n < i + 32 -> i mod 32 <> n mod 32.
Proof.
  intros Hi Hn Heq. rewrite (Z.mod_eq i 32), (Z.mod_eq n 32) in Heq by lia.
  lia.
Qed.

Lemma get_frame_start_ext pv pv' i :
  frame_info pv = frame_info pv' -> get_frame_start pv i = get_frame_start pv' i.
Proof. intros Hf. unfold get_frame_start. rewrite Hf. reflexivity. Qed.

Lemma stream_inv_ext d pv pv' st n k last :
  stream_inv d pv st n k last ->
  areBframes (job pv') = areBframes (job pv) ->
  frameno_in pv' = frameno_in pv ->
  frameno_out pv' = frameno_out pv ->
  delay_list pv' = delay_list pv ->
  dts_delay pv' = dts_delay pv ->
  frame_info pv' = frame_info pv ->
  stream_inv d pv' st n k last.
Proof.
  intros [] Hb Hn Hfo Hdl Hd Hf.
  constructor; rewrite ?Hb, ?Hn, ?Hfo, ?Hdl, ?Hd, ?Hf; try assumption.
  intros i Hi Hw. rewrite (get_frame_start_ext pv' pv) by exact Hf. auto.
Qed.

Lemma Encode_state_inv d pv st n k last inb :
  stream_inv d pv st n k last ->
  0 < d ->
  last < s_start inb <= INT64_MAX ->
  n + 1 <= INT_MAX ->
  stream_inv d (Encode_state pv inb)
    (fun i => if i =? n then s_start inb else st i) (n + 1) k (s_start inb).
Proof.
  intros [Hdep [Hn Hn0] Hsz Hreg Hdel Hcnt Hheld Hearly Hhs Hinc Hrng Hlast]
         Hd Hs Hmax.
  destruct (Encode_state_frame pv inb)
    as (Hb1 & _ & _ & Hn1 & Hfo1 & Hdl1 & Hf1).
  rewrite Hn, to_int_small in Hn1 by (unfold INT_MAX in *; lia).
  pose proof (Encode_state_dts_delay pv inb) as Hd1.
  rewrite Hdep, Hn in Hd1.
  destruct Hlast as (Hl0 & Hl).
  constructor.
  - rewrite Hb1. exact Hdep.
  - split; [exact Hn1|lia].
  - rewrite Hf1, save_frame_info_length. exact Hsz.
  - intros i Hi Hw.
    rewrite (get_frame_start_ext _ (save_frame_info pv inb)) by exact Hf1.
    destruct (Z.eqb_spec i n) as [->|Hne].
    + apply get_frame_start_save_same; [exact Hsz|]. rewrite Hn. reflexivity.
    + rewrite get_frame_start_save_other.
      * apply Hreg; lia.
      * rewrite Hn. apply mod32_distinct; lia.
  - intros Hlt. rewrite Hd1.
    destruct (Z.eqb_spec d 0); [lia|]. cbn [negb andb].
    destruct (Z.eqb_spec n d) as [->|Hne].
    + rewrite Z.eqb_refl. reflexivity.
    + destruct (Z.eqb_spec d n); [lia|]. apply Hdel. lia.
  - rewrite Hfo1, Hdl1. lia.
  - rewrite Hfo1, Hdl1. exact Hheld.
  - rewrite Hfo1. intros Hle. apply Hearly. lia.
  - rewrite Hdl1. exact Hhs.
  - intros i j Hi Hij Hj.
    destruct (Z.eqb_spec i n); [lia|].
    destruct (Z.eqb_spec j n) as [->|Hne].
    + specialize (Hl i). lia.
    + apply Hinc; lia.
  - intros i Hi. destruct (Z.eqb_spec i n) as [->|Hne]; [lia|].
    apply Hrng. lia.
  - split; [lia|]. intros i Hi.
    destruct (Z.eqb_spec i n) as [->|Hne]; [lia|].
    specialize (Hl i). lia.
Qed.

Lemma process_delay_list_inv d pv st n k last out p :
  stream_inv d pv st n k last ->
  0 < d ->
  n <= INT_MAX ->
  0 <= p < n ->
  k < n ->
  k <= p + d ->
  n + d <= k + 32 ->
  s_start out = st p ->
  stream_inv d (fst (process_delay_list pv (Some out))) st n (k + 1) last
  /\ Forall (fun b => s_renderOffset b <= s_start b)
            (snd (process_delay_list pv (Some out))).
Proof.
  intros [Hdep [Hn Hn0] Hsz Hreg Hdel Hcnt Hheld Hearly Hhs Hinc Hrng Hlast]
         Hd Hmax Hp Hkn Hkp Hwin Hout.
  destruct Hcnt as (Hfo0 & Hsum & _).
  destruct (Z.le_gt_cases n d) as [Hle|Hgt].
  - rewrite process_delay_list_hold by (rewrite ?Hdep, ?Hn; lia).
    cbn [fst snd]. split; [|constructor].
    constructor; cbn; try assumption.
    + split; assumption.
    + rewrite length_app. cbn [length]. lia.
    + intros _. split; [apply Hearly; exact Hle|lia].
    + apply Forall_app. split; [exact Hhs|].
      constructor; [|constructor]. rewrite Hout. apply Hrng. lia.
  - rewrite process_delay_list_release by (rewrite ?Hdep, ?Hn; lia).
    assert (Hlen : frameno_out pv
                   + Z.of_nat (length (delay_list pv ++ [out])) = k + 1).
    { rewrite length_app. cbn [length]. lia. }
    rewrite apply_dts_spec by (rewrite ?Hdep; unfold INT_MAX in *; lia).
    cbn [fst snd]. rewrite Hlen. split.
    + constructor; cbn; try assumption.
      * split; assumption.
      * lia.
      * intros Hnil. congruence.
      * intros Hle. lia.
      * constructor.
    + apply Forall_lookup. intros i b Hb.
      rewrite list_lookup_imap in Hb.
      destruct ((delay_list pv ++ [out]) !! i) as [b0|] eqn:Hb0;
        [|discriminate Hb].
      cbn in Hb. injection Hb as <-. cbn [s_renderOffset s_start set_renderOffset].
      unfold spec_render_offset. rewrite Hdep, (Hdel Hgt).
      assert (Hneg : forall a, 0 <= a < d -> a < n -> n <= a + 32 ->
                to_int64 (get_frame_start pv a - st d) < 0).
      { intros a Ha Han Haw. rewrite (Hreg a) by lia.
        pose proof (Hinc a d ltac:(lia) ltac:(lia) Hgt).
        pose proof (Hrng a ltac:(lia)). pose proof (Hrng d ltac:(lia)).
        rewrite to_int64_small by lia. lia. }
      pose proof (lookup_lt_Some _ _ _ Hb0) as Hilt.
      destruct (decide (i < length (delay_list pv))%nat) as [Hi|Hi].
      * rewrite lookup_app_l in Hb0 by exact Hi.
        destruct Hheld as (Hfo & Hkd);
          [intros Hnil; rewrite Hnil in Hi; cbn in Hi; lia|].
        pose proof (proj1 (Forall_lookup _ _) Hhs i b0 Hb0) as Hs0.
        cbn beta in Hs0. rewrite Hfo, Z.add_0_l.
        destruct (Z.ltb_spec (Z.of_nat i) d) as [Hid|Hid]; [|lia].
        specialize (Hneg (Z.of_nat i)). lia.
      * rewrite lookup_app_r in Hb0 by lia.
        assert (Hi0 : (i - length (delay_list pv))%nat = 0%nat).
        { rewrite length_app in *. cbn [length] in *. lia. }
        rewrite Hi0 in Hb0. cbn in Hb0. injection Hb0 as <-.
        replace (frameno_out pv + Z.of_nat i) with k by lia.
        rewrite Hout. pose proof (Hrng p Hp) as Hrp.
        destruct (Z.ltb_spec k d) as [Hkd|Hkd].
        -- specialize (Hneg k). lia.
        -- rewrite (Hreg (k - d)) by lia.
           destruct (Z.eq_dec (k - d) p) as [->|Hne]; [lia|].
           pose proof (Hinc (k - d) p ltac:(lia) ltac:(lia) ltac:(lia)). lia.
Qed.

Lemma packet_ok_spec d n k pkt :
  packet_ok d n k pkt = true ->
  0 <= pkt_pts pkt < n /\ k < n /\ k <= pkt_pts pkt + d /\ n + d <= k + 32.
Proof.
  unfold packet_ok, FRAME_INFO_SIZE. rewrite !andb_true_iff.
  rewrite !Z.leb_le, !Z.ltb_lt. lia.
Qed.

Lemma get_packets_inv d st n last pkts : forall pv k acc,
  stream_inv d pv st n k last ->
  0 < d ->
  n <= INT_MAX ->
  packets_ok d n k pkts = true ->
  Forall (fun b => s_renderOffset b <= s_start b) acc ->
  stream_inv d (fst (get_packets pv pkts acc)) st n
    (k + Z.of_nat (length pkts)) last
  /\ Forall (fun b => s_renderOffset b <= s_start b)
            (snd (get_packets pv pkts acc)).
Proof.
  induction pkts as [|pkt rest IH]; intros pv k acc Hinv Hd Hmax Hok Hacc.
  - cbn. rewrite Z.add_0_r. split; assumption.
  - cbn [packets_ok] in Hok. apply andb_true_iff in Hok as (Hok1 & Hok).
    apply packet_ok_spec in Hok1 as (Hp & Hkn & Hkp & Hwin).
    cbn [get_packets].
    destruct (resolve_packet_fields pv pkt) as (Hstart & _).
    destruct (resolve_packet pv pkt) as [q out]. cbn [snd] in Hstart.
    assert (Hinv1 : stream_inv d (set_chapter_queue q pv) st n k last)
      by (eapply stream_inv_ext; [exact Hinv|reflexivity..]).
    destruct (process_delay_list_inv d (set_chapter_queue q pv) st n k last
                out (pkt_pts pkt) Hinv1 Hd Hmax Hp Hkn Hkp Hwin)
      as (Hinv2 & Hout).
    { rewrite Hstart. apply (inv_registry _ _ _ _ _ _ Hinv); lia. }
    destruct (process_delay_list (set_chapter_queue q pv) (Some out))
      as [pv2 out'].
    cbn [fst snd] in Hinv2, Hout.
    destruct (IH pv2 (k + 1) (acc ++ out') Hinv2 Hd Hmax Hok) as (Hinv3 & Hall).
    { apply Forall_app. split; assumption. }
    split; [|exact Hall].
    replace (k + Z.of_nat (length (pkt :: rest)))
      with (k + 1 + Z.of_nat (length rest)) by (cbn [length]; lia).
    exact Hinv3.
Qed.

Lemma encode_frames_inv d calls : forall pv st n k last,
  stream_inv d pv st n k last ->
  0 < d ->
  n + Z.of_nat (length calls) <= INT_MAX ->
  stream_ok d n k last calls = true ->
  Forall (fun b => s_renderOffset b <= s_start b)
         (snd (encode_frames pv calls))
  /\ exists st' last',
      stream_inv d (fst (encode_frames pv calls)) st'
        (n + Z.of_nat (length calls))
        (k + Z.of_nat (length (drained calls))) last'.
Proof.
  induction calls as [|[inb enc] rest IH]; intros pv st n k last Hinv Hd Hmax Hok.
  - cbn. rewrite !Z.add_0_r. split; [constructor|]. exists st, last. exact Hinv.
  - cbn [length] in Hmax. cbn [stream_ok] in Hok.
    rewrite !andb_true_iff, Z.ltb_lt, Z.leb_le in Hok.
    destruct Hok as (((Hlast & Hrange) & Hpk) & Hrest).
    pose proof (Encode_state_inv d pv st n k last inb Hinv Hd
                  (conj Hlast Hrange) ltac:(lia)) as Hinv1.
    rewrite encode_frames_cons, drained_cons, Encode_unfold.
    replace (n + Z.of_nat (length ((inb, enc) :: rest)))
      with (n + 1 + Z.of_nat (length rest)) by (cbn [length]; lia).
    rewrite length_app, Nat2Z.inj_add, Z.add_assoc.
    destruct (send_ret enc <? 0); cbn [fst snd].
    + change (Z.of_nat (length (@nil AVPacket))) with 0 in Hrest |- *.
      rewrite Z.add_0_r in Hrest |- *.
      destruct (IH _ _ _ _ _ Hinv1 Hd ltac:(lia) Hrest) as (Hall & Hex).
      split; [exact Hall|exact Hex].
    + destruct (get_packets_inv d _ (n + 1) (s_start inb) (received enc)
                  (Encode_state pv inb) k [] Hinv1 Hd ltac:(lia) Hpk
                  ltac:(constructor))
        as (Hinv2 & Hall1).
      destruct (IH _ _ _ _ _ Hinv2 Hd ltac:(lia) Hrest) as (Hall & Hex).
      split; [|exact Hex]. apply Forall_app. split; assumption.
Qed.

Lemma pv_calloc_inv j q :
  stream_inv (areBframes j) (pv_calloc j q) (fun _ => 0) 0 0 (-1).
Proof.
  constructor; cbn; try lia; try reflexivity.
  - intros Hne. congruence.
  - constructor.
  - split; [lia|]. intros. lia.
Qed.

Lemma encode_frames_depth0_le calls : forall pv,
  areBframes (job pv) = 0 ->
  Forall (fun b => s_renderOffset b <= s_start b)
         (snd (encode_frames pv calls)).
Proof.
  induction calls as [|[inb enc] rest IH]; intros pv Hd.
  - constructor.
  - rewrite encode_frames_cons. cbn [snd].
    destruct (Encode_frame_facts pv inb enc []) as (Hb & _).
    cbn zeta in Hb. rewrite Hd in Hb.
    apply Forall_app. split; [|apply IH; exact Hb].
    rewrite Encode_unfold.
    destruct (Encode_state_frame pv inb) as (Hb0 & _). rewrite Hd in Hb0.
    destruct (send_ret enc <? 0); cbn [snd]; [constructor|].
    destruct (get_packets_depth0 (received enc) _ [] Hb0)
      as (_ & _ & outs & -> & Hall).
    cbn [app]. clear -Hall. induction Hall as [|p b ps bs (o & _ & ->) _ IH'];
      constructor; [cbn; lia|exact IH'].
Qed.

(** X15: when the start times of the submitted frames are non-negative,
    strictly increasing and within [int64_t], and every packet the encoder
    hands back echoes the number of a submitted frame, comes at most
    [reorder_depth] places later than its frame, and comes while the
    frames submitted plus the reorder depth are at most 32 more than the
    packets handed back before it, then every packet the stream releases
    has its render offset at or before its start. *)
Theorem render_offset_le_start j q calls fl :
  0 <= areBframes j ->
  Z.of_nat (length calls) <= INT_MAX ->
  stream_ok (areBframes j) 0 0 (-1) calls = true ->
  packets_ok (areBframes j) (Z.of_nat (length calls))
    (Z.of_nat (length (drained calls))) (received fl) = true ->
  Forall (fun b => s_renderOffset b <= s_start b)
         (snd (encode_stream (pv_calloc j q) calls fl)).
Proof.
  intros Hd Hmax Hok Hfl. rewrite encode_stream_unfold. cbn [snd].
  destruct (Z.eq_dec (areBframes j) 0) as [Hz|Hnz].
  - apply Forall_app. split.
    + apply encode_frames_depth0_le. exact Hz.
    + destruct (encode_frames_depth0 calls (pv_calloc j q) Hz) as (Hb & _).
      destruct (get_packets_depth0 (received fl) _ [] Hb)
        as (_ & _ & outs & -> & Hall).
      cbn [app]. clear -Hall.
      induction Hall as [|p b ps bs (o & _ & ->) _ IH'];
        constructor; [cbn; lia|exact IH'].
  - destruct (encode_frames_inv (areBframes j) calls (pv_calloc j q)
                (fun _ => 0) 0 0 (-1) (pv_calloc_inv j q))
      as (Hall & st' & last' & Hinv); try lia; try assumption.
    rewrite !Z.add_0_l in Hinv.
    destruct (get_packets_inv (areBframes j) st' _ last' (received fl)
                _ _ [] Hinv ltac:(lia) Hmax Hfl ltac:(constructor))
      as (_ & Hall2).
    apply Forall_app. split; assumption.
Qed.

(** ** Reorder depth 16 *)

(** C1 fails in the code.  With reorder depth 16 and an encoder that runs
    16 frames behind (during the call for frame [i] it hands back the
    packet of frame [i - 16], one of the last 17 frames submitted), the
    packet with output index 16 is released during the call for frame 32.
    Its start is the start of frame 16.  Its render offset is what
    [process_delay_list] reads with [get_frame_start (16 - 16)], slot 0 of
    the registry, where [save_frame_info] has stored frame 32 earlier in
    the same call.  So whatever the strictly increasing start times are,
    this packet is released with its render offset after its start. *)
Theorem render_offset_after_start_at_depth_16 (st : Z -> Z) (q : Z) :
  (forall i j, 0 <= i -> i < j -> j <= 32 -> st i < st j) ->
  (forall (i : nat) c p,
      steady_calls st 16 33 !! i = Some c ->
      In p (received (snd c)) ->
      pkt_pts p = Z.of_nat i - 16)
  /\ exists b,
      snd (encode_stream (pv_calloc (sample_job 16 0) q)
             (steady_calls st 16 33) (reply []))
        !! 16%nat = Some b
      /\ s_start b = st 16
      /\ s_renderOffset b = st 32
      /\ s_start b < s_renderOffset b.
Proof.
  intros Hinc. split.
  - intros i c p Hc Hp. unfold steady_calls in Hc.
    change (map ?f ?l) with (f <$> l) in Hc.
    rewrite list_lookup_fmap in Hc.
    destruct (seq 0 33 !! i) as [k|] eqn:Hk; [|discriminate].
    apply lookup_seq in Hk. destruct Hk as [-> _].
    cbn [fmap option_fmap option_map] in Hc. injection Hc as <-.
    cbn [snd reply received Nat.add] in Hp.
    destruct (Z.of_nat i <? 16); cbn [In] in Hp; [contradiction|].
    destruct Hp as [<-|[]]. cbn [pkt_pts packet_of Nat.add]. reflexivity.
  - set (out := snd (encode_stream (pv_calloc (sample_job 16 0) q)
                       (steady_calls st 16 33) (reply []))).
    assert (Hs : s_start <$> out !! 16%nat = Some (st 16))
      by (vm_compute; reflexivity).
    assert (Hr : s_renderOffset <$> out !! 16%nat = Some (st 32))
      by (vm_compute; reflexivity).
    destruct (out !! 16%nat) as [b|]; [|discriminate].
    cbn in Hs, Hr. injection Hs as Hs. injection Hr as Hr.
    exists b. rewrite Hs, Hr. repeat split. apply Hinc; lia.
Qed.


End Properties.

(** * The model on concrete streams *)

(** The registry after 32 frames: a lookup of frame 0, made once frame 32
    is saved, gives the start of frame 32. *)
Lemma registry_lookup_overwritten_run :
  (length (frame_info
             (fst (@encode_frames sample_headers
                     (pv_calloc (sample_job 0 0) 0)
                     (frames_with at_once 32)))) = 32%nat
   /\ 0 mod 32
      = frameno_in
          (fst (@encode_frames sample_headers
                  (pv_calloc (sample_job 0 0) 0)
                  (frames_with at_once 32))) mod 32)
  /\ get_frame_start
       (save_frame_info
          (fst (@encode_frames sample_headers
                  (pv_calloc (sample_job 0 0) 0)
                  (frames_with at_once 32)))
          (frame_at 320 330 0)) 0
     = 320.
Proof.
  assert (H1 : length (frame_info
             (fst (@encode_frames sample_headers
                     (pv_calloc (sample_job 0 0) 0)
                     (frames_with at_once 32)))) = 32%nat)
    by (vm_compute; reflexivity).
  assert (H2 : 0 mod 32
      = frameno_in
          (fst (@encode_frames sample_headers
                  (pv_calloc (sample_job 0 0) 0)
                  (frames_with at_once 32))) mod 32)
    by (vm_compute; reflexivity).
  split; [split; [exact H1|exact H2]|].
  exact (proj1 (proj2 (registry_lookup_total_and_overwritten
                         _ (frame_at 320 330 0) 0 H1 H2))).
Defined.

(** Without reordering, three frames that the encoder hands back at once
    come out as three packets and the delay list stays empty. *)
Lemma no_reordering_run :
  areBframes (job (pv_calloc (sample_job 0 0) 0)) = 0
  /\ delay_list
       (fst (@encode_stream sample_headers (pv_calloc (sample_job 0 0) 0)
               (frames_with at_once 3) (reply [])))
     = []
  /\ length
       (snd (@encode_stream sample_headers (pv_calloc (sample_job 0 0) 0)
               (frames_with at_once 3) (reply [])))
     = 3%nat.
Proof.
  split; [reflexivity|].
  exact (proj2 (@no_reordering_passes_through sample_headers
                  (pv_calloc (sample_job 0 0) 0) eq_refl)
               (frames_with at_once 3) (reply [])).
Defined.

(** With depth 2, two frames that the encoder hands back at once release
    nothing. *)
Lemma nothing_released_run :
  (0 < areBframes (sample_job 2 0) <= INT_MAX
   /\ Z.of_nat (length (frames_with at_once 2)) <= areBframes (sample_job 2 0))
  /\ snd (@encode_frames sample_headers (pv_calloc (sample_job 2 0) 0)
            (frames_with at_once 2))
     = [].
Proof.
  assert (H1 : 0 < areBframes (sample_job 2 0) <= INT_MAX)
    by (cbn; unfold INT_MAX; lia).
  assert (H2 : Z.of_nat (length (frames_with at_once 2))
               <= areBframes (sample_job 2 0))
    by (cbn; lia).
  split; [split; [exact H1|exact H2]|].
  exact (proj1 (@nothing_released_before_frame_d sample_headers
                  (sample_job 2 0) 0 (frames_with at_once 2) H1 H2)).
Defined.

(** With depth 1 the delay is the start of frame 1, here 10, also after
    two more frames and the flush. *)
Lemma dts_delay_run :
  (0 < areBframes (sample_job 1 0)
   /\ Z.of_nat (length (frames_with one_behind 4)) <= INT_MAX)
  /\ dts_delay
       (fst (@encode_stream sample_headers (pv_calloc (sample_job 1 0) 0)
               (frames_with one_behind 4) (reply [packet_of 3 0])))
     = 10.
Proof.
  assert (H1 : 0 < areBframes (sample_job 1 0)) by (cbn; lia).
  assert (H2 : Z.of_nat (length (frames_with one_behind 4)) <= INT_MAX)
    by (cbn; unfold INT_MAX; lia).
  split; [split; [exact H1|exact H2]|].
  destruct (@dts_delay_fixed_at_frame_d sample_headers (sample_job 1 0) 0
              (frames_with one_behind 4) (reply [packet_of 3 0]) H1 H2)
    as [E1 E2].
  exact (eq_trans E2 E1).
Defined.

(** With depth 1, the call for frame 1 in which the encoder hands back
    the packet of frame 0 leaves the delay list empty. *)
Lemma render_offset_formula_run :
  (0 < areBframes (sample_job 1 0) <= INT_MAX
   /\ areBframes (sample_job 1 0)
      <= Z.of_nat (length (frames_with silent 1)) < INT_MAX
   /\ Z.of_nat (length (drained (frames_with silent 1)))
      + Z.of_nat (length (received (reply [packet_of 0 0]))) <= INT_MAX
   /\ 0 <= send_ret (reply [packet_of 0 0])
   /\ received (reply [packet_of 0 0]) <> [])
  /\ delay_list
       (fst (fst (@Encode sample_headers
                    (fst (@encode_frames sample_headers
                            (pv_calloc (sample_job 1 0) 0)
                            (frames_with silent 1)))
                    (frame_at 10 20 0) (reply [packet_of 0 0]) [])))
     = [].
Proof.
  assert (H1 : 0 < areBframes (sample_job 1 0) <= INT_MAX)
    by (cbn; unfold INT_MAX; lia).
  assert (H2 : areBframes (sample_job 1 0)
               <= Z.of_nat (length (frames_with silent 1)) < INT_MAX)
    by (cbn; unfold INT_MAX; lia).
  assert (H3 : Z.of_nat (length (drained (frames_with silent 1)))
               + Z.of_nat (length (received (reply [packet_of 0 0])))
               <= INT_MAX)
    by (cbn; unfold INT_MAX; lia).
  assert (H4 : 0 <= send_ret (reply [packet_of 0 0])) by (cbn; lia).
  assert (H5 : received (reply [packet_of 0 0]) <> []) by discriminate.
  split; [repeat split; assumption|].
  exact (proj1 (proj2 (@render_offset_follows_formula sample_headers
                         (sample_job 1 0) 0 (frames_with silent 1)
                         (frame_at 10 20 0) (reply [packet_of 0 0])
                         H1 H2 H3 H4 H5))).
Defined.

(** With depth 1, the packet of frame 0 is in the delay list since the
    first call, and the encoder hands back the packet of frame 1 at the
    flush: the flush releases the held buffer followed by the new one and
    leaves the delay list empty, and the stream has released both
    packets. *)
Lemma flush_releases_run :
  (0 <= areBframes (sample_job 1 0) <= INT_MAX
   /\ areBframes (sample_job 1 0)
      < Z.of_nat (length held_calls) <= INT_MAX
   /\ Z.of_nat (length (drained held_calls))
      + Z.of_nat (length (received (reply [packet_of 1 0]))) <= INT_MAX
   /\ received (reply [packet_of 1 0]) <> [])
  /\ length
       (delay_list
          (fst (@encode_frames sample_headers (pv_calloc (sample_job 1 0) 0)
                  held_calls)))
     = 1%nat
  /\ snd (@Flush sample_headers
            (fst (@encode_frames sample_headers
                    (pv_calloc (sample_job 1 0) 0) held_calls))
            (reply [packet_of 1 0]) [])
     = imap (fun i b =>
               set_renderOffset
                 (if areBframes (sample_job 1 0) =? 0 then s_start b
                  else spec_render_offset
                         (fst (@encode_frames sample_headers
                                 (pv_calloc (sample_job 1 0) 0) held_calls))
                         (Z.of_nat
                            (length
                               (snd (@encode_frames sample_headers
                                       (pv_calloc (sample_job 1 0) 0)
                                       held_calls)))
                          + Z.of_nat i)) b)
            (delay_list
               (fst (@encode_frames sample_headers
                       (pv_calloc (sample_job 1 0) 0) held_calls))
             ++ @resolve_packets sample_headers
                  (fst (@encode_frames sample_headers
                          (pv_calloc (sample_job 1 0) 0) held_calls))
                  (received (reply [packet_of 1 0])))
  /\ delay_list
       (fst (@encode_stream sample_headers (pv_calloc (sample_job 1 0) 0)
               held_calls (reply [packet_of 1 0])))
     = []
  /\ length
       (snd (@encode_stream sample_headers (pv_calloc (sample_job 1 0) 0)
               held_calls (reply [packet_of 1 0])))
     = 2%nat.
Proof.
  assert (H1 : 0 <= areBframes (sample_job 1 0) <= INT_MAX)
    by (cbn; unfold INT_MAX; lia).
  assert (H2 : areBframes (sample_job 1 0)
               < Z.of_nat (length held_calls) <= INT_MAX)
    by (cbn; unfold INT_MAX; lia).
  assert (H3 : Z.of_nat (length (drained held_calls))
               + Z.of_nat (length (received (reply [packet_of 1 0])))
               <= INT_MAX)
    by (vm_compute; congruence).
  assert (H4 : received (reply [packet_of 1 0]) <> []) by discriminate.
  split; [repeat split; assumption|].
  split; [vm_compute; reflexivity|].
  destruct (@flush_releases_once_delay_known sample_headers (sample_job 1 0)
              0 held_calls (reply [packet_of 1 0]) H1 H2 H3 H4)
    as (E1 & _ & E3 & _ & E5).
  split; [exact E1|]. split; [exact E3|exact E5].
Defined.

(** What that flush releases, as pairs of start and render offset. *)
Lemma held_packet_released_at_flush :
  map (fun b => (s_start b, s_renderOffset b))
      (snd (@Flush sample_headers
              (fst (@encode_frames sample_headers
                      (pv_calloc (sample_job 1 0) 0) held_calls))
              (reply [packet_of 1 0]) []))
  = [(0, -10); (10, 0)].
Proof. vm_compute. reflexivity. Qed.

(** C3 as stated fails: with depth 16, five frames submitted and an
    encoder that hands back their five packets at the flush, the flush
    releases no packet at all and the five stay in the delay list. *)
Lemma flush_underflow_holds_packets :
  snd (@encode_stream sample_headers (pv_calloc (sample_job 16 0) 0)
         (frames_with silent 5)
         (reply [packet_of 0 0; packet_of 1 0; packet_of 2 0;
                 packet_of 3 0; packet_of 4 0]))
  = []
  /\ length
       (delay_list
          (fst (@encode_stream sample_headers (pv_calloc (sample_job 16 0) 0)
                  (frames_with silent 5)
                  (reply [packet_of 0 0; packet_of 1 0; packet_of 2 0;
                          packet_of 3 0; packet_of 4 0]))))
     = 5%nat.
Proof. split; vm_compute; reflexivity. Qed.

(** With chapter markers enabled, a frame that starts chapter 1 leaves one
    mark in the queue. *)
Lemma chapter_marks_run :
  (chapter_markers (job (pv_calloc (sample_job 0 1) 0)) <> 0
   /\ 0 < s_new_chap (frame_at 0 10 1))
  /\ chapter_queue
       (@Encode_state sample_headers (pv_calloc (sample_job 0 1) 0)
          (frame_at 0 10 1))
     = [ {| mark_start := 0; mark_new_chap := 1 |} ].
Proof.
  assert (H1 : chapter_markers (job (pv_calloc (sample_job 0 1) 0)) <> 0)
    by (cbn; lia).
  assert (H2 : 0 < s_new_chap (frame_at 0 10 1)) by (cbn; lia).
  split; [split; [exact H1|exact H2]|].
  exact (proj1 (@chapter_marks_pair_fifo sample_headers
                  (pv_calloc (sample_job 0 1) 0) (frame_at 0 10 1)
                  (packet_of 0 1) H1 H2)).
Defined.

(** C8 as stated fails: with the job's chapter markers disabled, a frame
    that starts chapter 1 is submitted and the queue stays empty. *)
Lemma chapter_mark_needs_chapter_markers :
  0 < s_new_chap (frame_at 0 10 1)
  /\ chapter_queue
       (fst (fst (@Encode sample_headers (pv_calloc (sample_job 0 0) 0)
                    (frame_at 0 10 1) (reply []) [])))
     = [].
Proof. split; [cbn; lia|vm_compute; reflexivity]. Qed.

(** The chapter pairing scenario without reordering: frame 0 starts
    chapter 1, the packets of frames 2 and 4 are keyframes; the chapter
    goes to the packet of frame 2 and to no other. *)
Lemma chapter_pairing_run :
  map s_new_chap
      (snd (@encode_stream sample_headers (pv_calloc (sample_job 0 1) 0)
              chapter_calls (reply [])))
  = [0; 0; 1; 0; 0].
Proof. vm_compute. reflexivity. Qed.

(** The gate on a frame that starts chapter 1: with the markers on, the
    frame sent asks for a key frame. *)
Lemma chapter_markers_gate_run :
  (0 < s_new_chap (frame_at 0 10 1) /\ 1 <> 0)
  /\ key_frame
       (snd (fst (@Encode sample_headers
                    (with_chapter_markers 1 (pv_calloc (sample_job 0 0) 0))
                    (frame_at 0 10 1) (reply [packet_of 0 1]) [])))
     = 1
  /\ key_frame
       (snd (fst (@Encode sample_headers
                    (with_chapter_markers 0 (pv_calloc (sample_job 0 0) 0))
                    (frame_at 0 10 1) (reply [packet_of 0 1]) [])))
     = 0.
Proof.
  assert (H1 : 0 < s_new_chap (frame_at 0 10 1)) by (cbn; lia).
  assert (H2 : 1 <> 0) by lia.
  split; [split; [exact H1|exact H2]|].
  destruct (@chapter_markers_gate sample_headers
              (pv_calloc (sample_job 0 0) 0) (frame_at 0 10 1)
              (reply [packet_of 0 1]) [] 1 H1 H2)
    as ((_ & _ & E1) & (_ & _ & E2) & _).
  split; [exact E1|exact E2].
Defined.

(** With depth 1 and an encoder that codes frame 2 before frame 1, every
    released packet has its render offset at or before its start. *)
Lemma render_offset_le_start_run :
  (0 <= areBframes (sample_job 1 0)
   /\ Z.of_nat (length b_frame_calls) <= INT_MAX
   /\ stream_ok (areBframes (sample_job 1 0)) 0 0 (-1) b_frame_calls = true
   /\ packets_ok (areBframes (sample_job 1 0))
        (Z.of_nat (length b_frame_calls))
        (Z.of_nat (length (drained b_frame_calls)))
        (received (reply [packet_of 3 0])) = true)
  /\ Forall (fun b => s_renderOffset b <= s_start b)
       (snd (@encode_stream sample_headers (pv_calloc (sample_job 1 0) 0)
               b_frame_calls (reply [packet_of 3 0]))).
Proof.
  assert (H1 : 0 <= areBframes (sample_job 1 0)) by (cbn; lia).
  assert (H2 : Z.of_nat (length b_frame_calls) <= INT_MAX)
    by (cbn; unfold INT_MAX; lia).
  assert (H3 : stream_ok (areBframes (sample_job 1 0)) 0 0 (-1)
                 b_frame_calls = true)
    by (vm_compute; reflexivity).
  assert (H4 : packets_ok (areBframes (sample_job 1 0))
                 (Z.of_nat (length b_frame_calls))
                 (Z.of_nat (length (drained b_frame_calls)))
                 (received (reply [packet_of 3 0])) = true)
    by (vm_compute; reflexivity).
  split; [repeat split; assumption|].
  exact (@render_offset_le_start sample_headers (sample_job 1 0) 0
           b_frame_calls (reply [packet_of 3 0]) H1 H2 H3 H4).
Defined.

(** With depth 16, frame [i] starting at [10 * i] and the encoder 16
    frames behind, the packet with output index 16 is released with start
    160 and render offset 320. *)
Lemma render_offset_after_start_at_depth_16_run :
  (forall i j, 0 <= i -> i < j -> j <= 32 -> 10 * i < 10 * j)
  /\ exists b,
      snd (@encode_stream sample_headers (pv_calloc (sample_job 16 0) 0)
             (steady_calls (fun i => 10 * i) 16 33) (reply []))
        !! 16%nat = Some b
      /\ s_start b = 160
      /\ s_renderOffset b = 320
      /\ s_start b < s_renderOffset b.
Proof.
  assert (H1 : forall i j, 0 <= i -> i < j -> j <= 32 -> 10 * i < 10 * j)
    by (intros; lia).
  split; [exact H1|].
  exact (proj2 (@render_offset_after_start_at_depth_16 sample_headers
                  (fun i => 10 * i) 0 H1)).
Defined.

(** What that stream releases, as pairs of start and render offset. *)
Lemma b_frame_run :
  map (fun b => (s_start b, s_renderOffset b))
      (snd (@encode_stream sample_headers (pv_calloc (sample_job 1 0) 0)
              b_frame_calls (reply [packet_of 3 0])))
  = [(0, -10); (20, 0); (10, 10); (30, 20)].
Proof. vm_compute. reflexivity. Qed.

(** Start times before zero: with depth 1 and two frames that start at
    -100 and -50, the packet of the first frame is released with start
    -100 and render offset -50. *)
Lemma render_offset_after_start_before_zero :
  map (fun b => (s_start b, s_renderOffset b))
      (snd (@encode_stream sample_headers (pv_calloc (sample_job 1 0) 0)
              early_calls (reply [packet_of 1 0])))
  = [(-100, -50); (-50, -100)]
  /\ ~ Forall (fun b => s_renderOffset b <= s_start b)
       (snd (@encode_stream sample_headers (pv_calloc (sample_job 1 0) 0)
               early_calls (reply [packet_of 1 0]))).
Proof.
  split; [vm_compute; reflexivity|].
  intros Hall.
  apply (Forall_fmap (fun b => (s_start b, s_renderOffset b))
           (fun p => snd p <= fst p)) in Hall.
  change (map (fun b => (s_start b, s_renderOffset b)) ?l)
    with ((fun b => (s_start b, s_renderOffset b)) <$> l) in *.
  revert Hall.
  replace ((fun b => (s_start b, s_renderOffset b))
             <$> snd (@encode_stream sample_headers
                        (pv_calloc (sample_job 1 0) 0)
                        early_calls (reply [packet_of 1 0])))
    with [(-100, -50); (-50, -100)] by (vm_compute; reflexivity).
  intros Hall. inversion Hall as [|? ? Hhd _]. cbn in Hhd. lia.
Qed.

(** The encoder's side matters as well.  With depth 1 and start times
    from 0 on, a packet that comes two places late is released with a
    render offset after its start ... *)
Lemma render_offset_after_start_late_packet :
  map (fun b => (s_start b, s_renderOffset b))
      (snd (@encode_stream sample_headers (pv_calloc (sample_job 1 0) 0)
              late_calls (reply [])))
  = [(10, -10); (20, 0); (0, 10)].
Proof. vm_compute. reflexivity. Qed.

(** ... and so is a packet that comes when its slots of the registry have
    been written again: the render offset is computed from frame 32. *)
Lemma render_offset_after_start_registry_overwritten :
  map (fun b => (s_start b, s_renderOffset b))
      (snd (@encode_stream sample_headers (pv_calloc (sample_job 1 0) 0)
              lagging_calls (reply [])))
  = [(20, 310)].
Proof. vm_compute. reflexivity. Qed.

(** The packet at the flush matters: with depth 1, a packet held
    since the first frame stays in the delay list when the encoder hands
    back nothing afterwards. *)
Lemma flush_without_packets_holds_packets :
  snd (@encode_stream sample_headers (pv_calloc (sample_job 1 0) 0)
         refused_calls (reply []))
  = []
  /\ length
       (delay_list
          (fst (@encode_stream sample_headers (pv_calloc (sample_job 1 0) 0)
                  refused_calls (reply []))))
     = 1%nat.
Proof. split; vm_compute; reflexivity. Qed.

(** * Further properties of the packet path *)

Section PacketPath.
Context `{Headers}.

(** ** No packet is lost, doubled or reordered *)

Lemma apply_dts_keeps pv bufs : forall fo,
  map (set_renderOffset 0) (fst (apply_dts pv fo bufs))
  = map (set_renderOffset 0) bufs.
Proof.
  induction bufs as [|b bufs IH]; intros fo; [reflexivity|].
  cbn [apply_dts]. specialize (IH (to_int (fo + 1))).
  destruct (apply_dts pv (to_int (fo + 1)) bufs) as [o f].
  cbn [fst map] in *. rewrite IH.
  destruct (fo <? areBframes (job pv)); reflexivity.
Qed.

Lemma get_packets_keeps pkts pv acc :
  (areBframes (job pv) = 0 -> delay_list pv = []) ->
  (areBframes (job pv) = 0 ->
   delay_list (fst (get_packets pv pkts acc)) = [])
  /\ map (set_renderOffset 0)
       (snd (get_packets pv pkts acc)
          ++ delay_list (fst (get_packets pv pkts acc)))
     = map (set_renderOffset 0)
         (acc ++ delay_list pv ++ resolve_packets pv pkts).
Proof.
  intros Hnil.
  destruct (Z.eq_dec (areBframes (job pv)) 0) as [Hz|Hnz].
  - destruct (get_packets_depth0 pkts pv acc Hz) as (Hdl & _).
    rewrite Hdl, (get_packets_depth0_exact pkts pv acc Hz), (Hnil Hz).
    split; [reflexivity|].
    rewrite app_nil_r, app_nil_l, !map_app, map_map. reflexivity.
  - split; [contradiction|].
    destruct (Z.le_gt_cases (frameno_in pv) (areBframes (job pv))) as [Hn|Hn].
    + destruct (get_packets_hold pkts pv acc Hnz Hn) as (Hout & _).
      rewrite Hout, (get_packets_hold_exact pkts pv acc Hnz Hn).
      reflexivity.
    + destruct pkts as [|pkt rest].
      * cbn. rewrite app_nil_r. reflexivity.
      * destruct (get_packets_release (pkt :: rest) pv acc Hnz Hn)
          as (_ & _ & _ & _ & Hdl); [left; discriminate|].
        rewrite Hdl, app_nil_r.
        rewrite (get_packets_release_exact (pkt :: rest) pv acc Hnz Hn)
          by (left; discriminate).
        rewrite !map_app, apply_dts_keeps, map_app. reflexivity.
Qed.

Lemma encode_frames_keeps calls : forall pv,
  (areBframes (job pv) = 0 -> delay_list pv = []) ->
  areBframes (job (fst (encode_frames pv calls))) = areBframes (job pv)
  /\ (areBframes (job pv) = 0 ->
      delay_list (fst (encode_frames pv calls)) = [])
  /\ map (set_renderOffset 0)
       (snd (encode_frames pv calls)
          ++ delay_list (fst (encode_frames pv calls)))
     = map (set_renderOffset 0) (delay_list pv ++ resolved_frames pv calls).
Proof.
  induction calls as [|[inb enc] rest IH]; intros pv Hnil.
  - cbn. split; [reflexivity|]. split; [exact Hnil|].
    rewrite app_nil_r. reflexivity.
  - rewrite encode_frames_cons. cbn [fst snd resolved_frames].
    destruct (Encode_frame_facts pv inb enc []) as (Hb & _).
    cbn zeta in Hb.
    assert (Hstep :
      (areBframes (job pv) = 0 ->
       delay_list (fst (fst (Encode pv inb enc []))) = [])
      /\ map (set_renderOffset 0)
           (snd (Encode pv inb enc [])
              ++ delay_list (fst (fst (Encode pv inb enc []))))
         = map (set_renderOffset 0)
             (delay_list pv
                ++ (if send_ret enc <? 0 then []
                    else resolve_packets (Encode_state pv inb)
                           (received enc)))).
    { rewrite Encode_unfold.
      destruct (Encode_state_frame pv inb)
        as (Hb0 & _ & _ & _ & _ & Hdl0 & _).
      destruct (send_ret enc <? 0); cbn [fst snd].
      - rewrite Hdl0, app_nil_r. split; [exact Hnil|reflexivity].
      - destruct (get_packets_keeps (received enc) (Encode_state pv inb) [])
          as (Hz & Heq).
        { rewrite Hb0, Hdl0. exact Hnil. }
        rewrite Hb0 in Hz. split; [exact Hz|].
        rewrite Heq, Hdl0. reflexivity. }
    destruct Hstep as (Hz1 & Heq1).
    set (pv1 := fst (fst (Encode pv inb enc []))) in *.
    destruct (IH pv1) as (Hb' & Hz' & Heq).
    { rewrite Hb. exact Hz1. }
    split; [rewrite Hb', Hb; reflexivity|].
    split; [intros Hz; apply Hz'; rewrite Hb; exact Hz|].
    rewrite !map_app in *.
    rewrite <- app_assoc, Heq, app_assoc, Heq1, <- app_assoc. reflexivity.
Qed.

Lemma resolve_packets_resolved pkts : forall pv,
  Forall2 resolved pkts (resolve_packets pv pkts).
Proof.
  induction pkts as [|pkt rest IH]; intros pv; cbn [resolve_packets].
  - constructor.
  - pose proof (resolved_from_here pv pkt) as Hres.
    destruct (resolve_packet pv pkt) as [q out]. cbn [snd] in Hres.
    constructor; [|apply IH].
    eapply resolved_from_resolved. exact Hres.
Qed.

Lemma resolved_frames_resolved calls : forall pv,
  Forall2 resolved (drained calls) (resolved_frames pv calls).
Proof.
  induction calls as [|[inb enc] rest IH]; intros pv.
  - constructor.
  - rewrite drained_cons. cbn [resolved_frames].
    apply Forall2_app; [|apply IH].
    destruct (send_ret enc <? 0); [constructor|].
    apply resolve_packets_resolved.
Qed.

(** X1: whatever the reorder depth and whatever the encoder hands back,
    the packets a stream has released followed by the packets still in the
    delay list are, in order and one for one, the buffers that the packet
    loop built for the packets the encoder handed back, each from the
    registry and the chapter queue of the call in which its packet came;
    they differ from those buffers in the render offset and in nothing
    else. *)
Theorem packets_conserved_in_order j q calls fl :
  map (set_renderOffset 0)
      (snd (encode_stream (pv_calloc j q) calls fl)
         ++ delay_list (fst (encode_stream (pv_calloc j q) calls fl)))
  = map (set_renderOffset 0) (resolved_stream (pv_calloc j q) calls fl)
  /\ Forall2 resolved (drained calls ++ received fl)
       (resolved_stream (pv_calloc j q) calls fl).
Proof.
  split.
  - rewrite encode_stream_unfold. unfold resolved_stream. cbn [fst snd].
    destruct (encode_frames_keeps calls (pv_calloc j q))
      as (Hb & Hz & Heq); [reflexivity|].
    set (pv1 := fst (encode_frames (pv_calloc j q) calls)) in *.
    destruct (get_packets_keeps (received fl) pv1 []) as (_ & Heq').
    { intros Hz1. apply Hz. rewrite <- Hb. exact Hz1. }
    cbn [app pv_calloc delay_list] in Heq, Heq'.
    rewrite !map_app in *.
    rewrite <- app_assoc, Heq', app_assoc, Heq. reflexivity.
  - unfold resolved_stream. apply Forall2_app.
    + apply resolved_frames_resolved.
    + apply resolve_packets_resolved.
Qed.

(** ** The registry over a stream *)

Lemma get_frame_duration_save_other pv inb seq :
  seq mod 32 <> frameno_in pv mod 32 ->
  get_frame_duration (save_frame_info pv inb) seq = get_frame_duration pv seq.
Proof.
  intros Hseq. unfold get_frame_duration, save_frame_info. cbn.
  rewrite !mask_is_mod.
  rewrite list_lookup_total_insert_ne; [reflexivity|].
  pose proof (Z.mod_pos_bound (frameno_in pv) 32 ltac:(lia)).
  pose proof (Z.mod_pos_bound seq 32 ltac:(lia)).
  lia.
Qed.

Lemma get_frame_duration_ext pv pv' i :
  frame_info pv = frame_info pv' ->
  get_frame_duration pv i = get_frame_duration pv' i.
Proof. intros Hf. unfold get_frame_duration. rewrite Hf. reflexivity. Qed.

Lemma encode_frames_registry j q calls :
  Z.of_nat (length calls) <= INT_MAX ->
  frameno_in (fst (encode_frames (pv_calloc j q) calls))
  = Z.of_nat (length calls)
  /\ length (frame_info (fst (encode_frames (pv_calloc j q) calls)))
     = 32%nat
  /\ forall i c,
      calls !! i = Some c ->
      (length calls <= i + 32)%nat ->
      get_frame_start (fst (encode_frames (pv_calloc j q) calls))
        (Z.of_nat i)
      = s_start (fst c)
      /\ get_frame_duration (fst (encode_frames (pv_calloc j q) calls))
           (Z.of_nat i)
         = to_int64 (s_stop (fst c) - s_start (fst c)).
Proof.
  induction calls as [|[inb enc] calls IH] using rev_ind; intros Hmax.
  - cbn. split; [reflexivity|]. split; [reflexivity|].
    intros i c Hc. rewrite lookup_nil in Hc. discriminate.
  - rewrite length_app in *. cbn [length] in *.
    destruct IH as (Hn & Hsz & Hreg); [lia|].
    rewrite encode_frames_app, encode_frames_cons. cbn [fst encode_frames].
    set (pv1 := fst (encode_frames (pv_calloc j q) calls)) in *.
    destruct (Encode_frame_facts pv1 inb enc []) as (_ & _ & Hn1 & Hf & _).
    cbn zeta in Hn1, Hf.
    rewrite Hn, to_int_small in Hn1 by (unfold INT_MAX in *; lia).
    split; [rewrite Hn1; lia|].
    split; [rewrite Hf, save_frame_info_length; exact Hsz|].
    intros i c Hc Hwin.
    rewrite (get_frame_start_ext _ (save_frame_info pv1 inb)) by exact Hf.
    rewrite (get_frame_duration_ext _ (save_frame_info pv1 inb)) by exact Hf.
    destruct (decide (i < length calls)%nat) as [Hi|Hi].
    + rewrite lookup_app_l in Hc by exact Hi.
      assert (Hne : Z.of_nat i mod 32 <> frameno_in pv1 mod 32)
        by (rewrite Hn; apply mod32_distinct; lia).
      rewrite get_frame_start_save_other, get_frame_duration_save_other
        by exact Hne.
      apply Hreg; [exact Hc|lia].
    + pose proof (lookup_lt_Some _ _ _ Hc) as Hlt.
      rewrite length_app in Hlt. cbn [length] in Hlt.
      assert (Hi' : i = length calls) by lia. subst i.
      rewrite lookup_app_r, Nat.sub_diag in Hc by lia.
      cbn in Hc. injection Hc as <-. cbn [fst].
      split.
      * apply get_frame_start_save_same; [exact Hsz|]. rewrite Hn. reflexivity.
      * apply get_frame_duration_save_same; [exact Hsz|].
        rewrite Hn. reflexivity.
Qed.

(** X2: after a stream of fewer than 2^31 frames, flushed or not, the
    registry gives for each of the last 32 frames submitted, looked up by
    its sequence number, the start it was submitted with and its stop
    minus its start as a 64-bit difference, whatever the encoder did in
    between. *)
Theorem registry_remembers_last_32 j q calls fl i c :
  Z.of_nat (length calls) <= INT_MAX ->
  calls !! i = Some c ->
  (length calls <= i + 32)%nat ->
  get_frame_start (fst (encode_stream (pv_calloc j q) calls fl)) (Z.of_nat i)
  = s_start (fst c)
  /\ get_frame_duration (fst (encode_stream (pv_calloc j q) calls fl))
       (Z.of_nat i)
     = to_int64 (s_stop (fst c) - s_start (fst c)).
Proof.
  intros Hmax Hc Hwin. rewrite encode_stream_unfold. cbn [fst].
  destruct (get_packets_frame (received fl)
              (fst (encode_frames (pv_calloc j q) calls)) [])
    as (_ & _ & _ & _ & Hf).
  cbn zeta in Hf.
  rewrite (get_frame_start_ext _ _ _ Hf), (get_frame_duration_ext _ _ _ Hf).
  destruct (encode_frames_registry j q calls Hmax) as (_ & _ & Hreg).
  apply Hreg; assumption.
Qed.

(** ** What the job and the encoder are told *)

Lemma Encode_state_init_delay pv inb :
  init_delay (job (Encode_state pv inb))
  = if negb (areBframes (job pv) =? 0)
       && (frameno_in pv =? areBframes (job pv))
    then s_start inb else init_delay (job pv).
Proof.
  unfold Encode_state, Encode, compute_dts_offset, save_frame_info.
  cbn [send_ret received]. change (-1 <? 0) with true. cbv iota.
  cbn [fst snd].
  destruct ((0 <? s_new_chap inb) && negb (chapter_markers (job pv) =? 0));
    cbn;
    destruct (areBframes (job pv) =? 0); cbn;
      try (destruct (frameno_in pv =? areBframes (job pv)); cbn);
      reflexivity.
Qed.

Lemma Encode_job pv inb enc acc :
  job (fst (fst (Encode pv inb enc acc))) = job (Encode_state pv inb)
  /\ global_quality (fst (fst (Encode pv inb enc acc))) = global_quality pv.
Proof.
  rewrite Encode_unfold.
  destruct (Encode_state_frame pv inb) as (_ & _ & Hq & _).
  destruct (send_ret enc <? 0); cbn [fst snd]; [split; [reflexivity|exact Hq]|].
  destruct (get_packets_frame (received enc) (Encode_state pv inb) acc)
    as (Hj & Hg & _).
  cbn zeta in Hj, Hg. rewrite Hj, Hg. split; [reflexivity|exact Hq].
Qed.

Lemma encode_frames_init_delay calls : forall pv,
  0 <= frameno_in pv ->
  frameno_in pv + Z.of_nat (length calls) <= INT_MAX ->
  areBframes (job (fst (encode_frames pv calls))) = areBframes (job pv)
  /\ frameno_in (fst (encode_frames pv calls))
     = frameno_in pv + Z.of_nat (length calls)
  /\ init_delay (job (fst (encode_frames pv calls)))
     = if negb (areBframes (job pv) =? 0)
          && (frameno_in pv <=? areBframes (job pv))
       then match calls !! Z.to_nat (areBframes (job pv) - frameno_in pv) with
            | Some c => s_start (fst c)
            | None => init_delay (job pv)
            end
       else init_delay (job pv).
Proof.
  induction calls as [|[inb enc] rest IH]; intros pv Hn0 Hlen.
  - cbn. rewrite Z.add_0_r. repeat split.
    destruct (negb (areBframes (job pv) =? 0)
              && (frameno_in pv <=? areBframes (job pv))); reflexivity.
  - cbn [length] in Hlen. rewrite encode_frames_cons. cbn [fst snd].
    destruct (Encode_frame_facts pv inb enc []) as (Hb & _ & Hn & _).
    destruct (Encode_job pv inb enc []) as (Hj & _).
    cbn zeta in Hb, Hn.
    rewrite to_int_small in Hn by (unfold INT_MAX in *; lia).
    pose proof (Encode_state_init_delay pv inb) as Hid. rewrite <- Hj in Hid.
    set (pv1 := fst (fst (Encode pv inb enc []))) in *.
    destruct (IH pv1) as (Hb' & Hn' & Hid'); try lia.
    rewrite Hb', Hn', Hid', Hb, Hn, Hid.
    repeat split; [cbn [length]; lia|].
    destruct (Z.eqb_spec (areBframes (job pv)) 0) as [|_];
      [reflexivity|]. cbn [negb andb].
    destruct (Z.leb_spec (frameno_in pv + 1) (areBframes (job pv)));
      destruct (Z.leb_spec (frameno_in pv) (areBframes (job pv)));
      destruct (Z.eqb_spec (frameno_in pv) (areBframes (job pv)));
      try lia.
    + replace (Z.to_nat (areBframes (job pv) - frameno_in pv))
        with (S (Z.to_nat (areBframes (job pv) - (frameno_in pv + 1))))
        by lia.
      reflexivity.
    + replace (Z.to_nat (areBframes (job pv) - frameno_in pv)) with 0%nat
        by lia.
      reflexivity.
Qed.

(** X3: the job's [init_delay] is written together with the delay: over
    a stream of fewer than 2^31 frames it stays what the job had until
    the frame whose number is the reorder depth is submitted and is that
    frame's start from then on; without reordering it is never written. *)
Theorem init_delay_published j q calls fl :
  Z.of_nat (length calls) <= INT_MAX ->
  init_delay (job (fst (encode_stream (pv_calloc j q) calls fl)))
  = if areBframes j <=? 0 then init_delay j
    else match calls !! Z.to_nat (areBframes j) with
         | Some c => s_start (fst c)
         | None => init_delay j
         end.
Proof.
  intros Hmax. rewrite encode_stream_unfold. cbn [fst].
  destruct (get_packets_frame (received fl)
              (fst (encode_frames (pv_calloc j q) calls)) [])
    as (Hj & _).
  cbn zeta in Hj. rewrite Hj.
  destruct (encode_frames_init_delay calls (pv_calloc j q))
    as (_ & _ & Hid); cbn; try lia.
  rewrite Hid. cbn. rewrite Z.sub_0_r.
  destruct (Z.eqb_spec (areBframes j) 0) as [->|Hne]; [reflexivity|].
  cbn [negb andb].
  destruct (Z.leb_spec 0 (areBframes j)); destruct (Z.leb_spec (areBframes j) 0);
    try lia; reflexivity.
Qed.

Lemma sent_frames_lookup calls : forall pv i c,
  0 <= frameno_in pv ->
  frameno_in pv + Z.of_nat (length calls) <= INT_MAX ->
  calls !! i = Some c ->
  sent_frames pv calls !! i
  = Some (if (0 <? s_new_chap (fst c))
             && negb (chapter_markers (job pv) =? 0)
          then {| pict_type := AV_PICTURE_TYPE_I; key_frame := 1;
                  quality := global_quality pv;
                  pts := frameno_in pv + Z.of_nat i |}
          else {| pict_type := 0; key_frame := 0;
                  quality := global_quality pv;
                  pts := frameno_in pv + Z.of_nat i |}).
Proof.
  induction calls as [|[inb enc] rest IH]; intros pv i c Hn0 Hlen Hc.
  - rewrite lookup_nil in Hc. discriminate.
  - cbn [length] in Hlen. cbn [sent_frames].
    pose proof (Encode_unfold pv inb enc []) as Hu.
    assert (Hfr : snd (fst (Encode pv inb enc [])) = Encode_frame pv inb)
      by (rewrite Hu; destruct (send_ret enc <? 0); reflexivity).
    destruct (Encode_frame_facts pv inb enc []) as (_ & Hcm & Hn & _).
    destruct (Encode_job pv inb enc []) as (_ & Hq).
    cbn zeta in Hcm, Hn.
    rewrite to_int_small in Hn by (unfold INT_MAX in *; lia).
    destruct (Encode pv inb enc []) as [[pv1 fr] out1]. cbn [fst snd] in *.
    destruct i as [|i].
    + cbn in Hc. injection Hc as <-. cbn [lookup list_lookup fst].
      rewrite Hfr, Encode_frame_fields, Z.add_0_r. reflexivity.
    + cbn in Hc. cbn [lookup list_lookup].
      change (sent_frames pv1 rest !! i = Some (if (0 <? s_new_chap (fst c))
             && negb (chapter_markers (job pv) =? 0)
          then {| pict_type := AV_PICTURE_TYPE_I; key_frame := 1;
                  quality := global_quality pv;
                  pts := frameno_in pv + Z.of_nat (S i) |}
          else {| pict_type := 0; key_frame := 0;
                  quality := global_quality pv;
                  pts := frameno_in pv + Z.of_nat (S i) |})).
      rewrite (IH pv1 i c) by (try exact Hc; lia).
      rewrite Hcm, Hq, Hn.
      replace (frameno_in pv + 1 + Z.of_nat i)
        with (frameno_in pv + Z.of_nat (S i)) by lia.
      reflexivity.
Qed.

(** X4: in a stream of fewer than 2^31 frames, the frame with sequence
    number [i] is given to the encoder with [pts] equal to [i], whether or
    not earlier frames were accepted, with the context's global quality,
    and as a requested intra key frame exactly when it carries a chapter
    number above 0 and the job has chapter markers on. *)
Theorem frames_sent_with_their_number j q calls i c :
  Z.of_nat (length calls) <= INT_MAX ->
  calls !! i = Some c ->
  sent_frames (pv_calloc j q) calls !! i
  = Some (if (0 <? s_new_chap (fst c)) && negb (chapter_markers j =? 0)
          then {| pict_type := AV_PICTURE_TYPE_I; key_frame := 1;
                  quality := q; pts := Z.of_nat i |}
          else {| pict_type := 0; key_frame := 0;
                  quality := q; pts := Z.of_nat i |}).
Proof.
  intros Hmax Hc.
  rewrite (sent_frames_lookup calls (pv_calloc j q) i c); cbn; try lia;
    [reflexivity|exact Hc].
Qed.

(** ** Counters *)

(** X5: under reordering, in a stream of fewer than 2^31 frames and
    packets, [frameno_in] ends as the number of frames submitted,
    [frameno_out] as the number of packets released, and released plus
    held packets are as many as the encoder handed back. *)
Theorem counters_count j q calls fl :
  0 < areBframes j <= INT_MAX ->
  Z.of_nat (length calls) <= INT_MAX ->
  Z.of_nat (length (drained calls)) + Z.of_nat (length (received fl))
    <= INT_MAX ->
  frameno_in (fst (encode_stream (pv_calloc j q) calls fl))
  = Z.of_nat (length calls)
  /\ frameno_out (fst (encode_stream (pv_calloc j q) calls fl))
     = Z.of_nat (length (snd (encode_stream (pv_calloc j q) calls fl)))
  /\ (length (snd (encode_stream (pv_calloc j q) calls fl))
      + length (delay_list (fst (encode_stream (pv_calloc j q) calls fl))))%nat
     = (length (drained calls) + length (received fl))%nat.
Proof.
  intros Hd Hlen Hmax. rewrite encode_stream_unfold. cbn [fst snd].
  destruct (encode_frames_counts calls (pv_calloc j q))
    as (Hb & Hn & Hfo & Hsum); cbn; try lia.
  cbn in Hb, Hn, Hfo, Hsum.
  set (pv0 := fst (encode_frames (pv_calloc j q) calls)) in *.
  destruct (get_packets_frame (received fl) pv0 []) as (_ & _ & Hn' & _).
  destruct (get_packets_counts (received fl) pv0 [])
    as (Hfo' & Hsum' & _); try rewrite Hb; try lia.
  cbn zeta in Hn', Hfo', Hsum'. rewrite length_app.
  repeat split; lia.
Qed.

(** ** A call without a buffer *)

(** X6: once the delay is known, [process_delay_list] called with a
    [NULL] buffer hands back the whole delay list, each buffer with the
    render offset of its output index, advances [frameno_out] by their
    number and leaves the delay list empty. *)
Theorem process_delay_list_null_drains pv :
  0 < areBframes (job pv) <= INT_MAX ->
  areBframes (job pv) < frameno_in pv ->
  0 <= frameno_out pv ->
  frameno_out pv + Z.of_nat (length (delay_list pv)) <= INT_MAX ->
  snd (process_delay_list pv None)
  = imap (fun i b =>
            set_renderOffset
              (spec_render_offset pv (frameno_out pv + Z.of_nat i)) b)
         (delay_list pv)
  /\ delay_list (fst (process_delay_list pv None)) = []
  /\ frameno_out (fst (process_delay_list pv None))
     = frameno_out pv + Z.of_nat (length (delay_list pv)).
Proof.
  intros Hd Hn Hfo Hmax. unfold process_delay_list.
  destruct (Z.eqb_spec (areBframes (job pv)) 0) as [|_]; [lia|].
  cbn [negb hb_buffer_list_append].
  change (frameno_in (set_delay_list (delay_list pv) pv)) with (frameno_in pv).
  change (job (set_delay_list (delay_list pv) pv)) with (job pv).
  destruct (Z.leb_spec (frameno_in pv) (areBframes (job pv))); [lia|].
  rewrite (apply_dts_ext _ pv) by reflexivity.
  change (frameno_out (set_delay_list (delay_list pv) pv))
    with (frameno_out pv).
  change (delay_list (set_delay_list (delay_list pv) pv))
    with (delay_list pv).
  rewrite apply_dts_spec by assumption.
  cbn. repeat split.
Qed.

(** Before the delay is known, and without reordering, such a call hands
    back nothing and changes nothing. *)
Lemma process_delay_list_null_idle pv :
  areBframes (job pv) = 0 \/ frameno_in pv <= areBframes (job pv) ->
  process_delay_list pv None = (pv, []).
Proof.
  intros Hcase. unfold process_delay_list.
  destruct (Z.eqb_spec (areBframes (job pv)) 0) as [Hz|Hnz]; [reflexivity|].
  cbn [negb hb_buffer_list_append].
  change (frameno_in (set_delay_list (delay_list pv) pv)) with (frameno_in pv).
  change (job (set_delay_list (delay_list pv) pv)) with (job pv).
  destruct Hcase as [Hz|Hle]; [contradiction|].
  destruct (Z.leb_spec (frameno_in pv) (areBframes (job pv))); [|lia].
  destruct pv. reflexivity.
Qed.

(** ** The decode timestamps of a well-behaved stream *)

Lemma packets_ok_bounds d n pkts : forall k,
  packets_ok d n k pkts = true ->
  pkts <> [] ->
  k + Z.of_nat (length pkts) <= n /\ n + d <= k + 32.
Proof.
  induction pkts as [|pkt rest IH]; intros k Hok Hne; [congruence|].
  cbn [packets_ok] in Hok. apply andb_true_iff in Hok as (Hok1 & Hok).
  apply packet_ok_spec in Hok1 as (_ & Hkn & _ & Hwin).
  split; [|exact Hwin]. cbn [length].
  destruct rest as [|pkt' rest]; [cbn; lia|].
  destruct (IH (k + 1) Hok) as (Hle & _); [discriminate|].
  cbn [length] in *. lia.
Qed.

Lemma spec_render_offset_dts_at d pv st n k last idx :
  stream_inv d pv st n k last ->
  0 < d -> d < n ->
  0 <= idx < n ->
  (idx < d -> n <= idx + 32) ->
  (d <= idx -> n + d <= idx + 32) ->
  spec_render_offset pv idx = dts_at d st idx.
Proof.
  intros [Hdep _ _ Hreg Hdel _ _ _ _ Hinc Hrng _] Hd Hdn Hidx Hw1 Hw2.
  unfold spec_render_offset, dts_at. rewrite Hdep, (Hdel Hdn).
  destruct (Z.ltb_spec idx d) as [Hlt|Hge].
  - rewrite (Hreg idx) by lia.
    pose proof (Hinc idx d ltac:(lia) Hlt Hdn).
    pose proof (Hrng idx ltac:(lia)). pose proof (Hrng d ltac:(lia)).
    apply to_int64_small. lia.
  - apply Hreg; lia.
Qed.

Lemma dts_at_ext d st st' n idx :
  (forall i, 0 <= i < n -> st' i = st i) ->
  d < n -> 0 < d -> 0 <= idx < n ->
  dts_at d st' idx = dts_at d st idx.
Proof.
  intros Hagree Hdn Hd Hidx. unfold dts_at.
  destruct (Z.ltb_spec idx d); rewrite ?Hagree by lia; reflexivity.
Qed.

Lemma get_packets_dts_at d st n last pkts pv k acc :
  stream_inv d pv st n k last ->
  0 < d -> n <= INT_MAX -> d < n ->
  packets_ok d n k pkts = true ->
  pkts <> [] ->
  exists new : list hb_buffer_t,
    snd (get_packets pv pkts acc) = acc ++ new
    /\ frameno_out (fst (get_packets pv pkts acc))
       = frameno_out pv + Z.of_nat (length new)
    /\ forall i b, new !! i = Some b ->
         s_renderOffset b = dts_at d st (frameno_out pv + Z.of_nat i).
Proof.
  intros Hinv Hd Hmax Hdn Hok Hne.
  destruct (packets_ok_bounds d n pkts k Hok Hne) as (Hkn & Hwin).
  pose proof (inv_depth _ _ _ _ _ _ Hinv) as Hdep.
  destruct (inv_frameno_in _ _ _ _ _ _ Hinv) as (Hn & _).
  destruct (inv_counts _ _ _ _ _ _ Hinv) as (Hfo & Hsum & _).
  pose proof (inv_held _ _ _ _ _ _ Hinv) as Hheld.
  destruct (get_packets_released pkts pv acc)
    as (res & Hall & Hout & Hfo' & _);
    [rewrite Hdep; unfold INT_MAX in *; lia|rewrite Hdep, Hn; lia
    |exact Hfo|lia|left; exact Hne|].
  pose proof (Forall2_length _ _ _ Hall) as Hlen.
  eexists. split; [exact Hout|]. split.
  - rewrite Hfo', length_imap, length_app. lia.
  - intros i b Hb. rewrite list_lookup_imap in Hb.
    destruct ((delay_list pv ++ res) !! i) as [b0|] eqn:Hb0;
      [|discriminate Hb].
    cbn in Hb. injection Hb as <-. cbn [s_renderOffset set_renderOffset].
    pose proof (lookup_lt_Some _ _ _ Hb0) as Hi. rewrite length_app in Hi.
    destruct (decide (delay_list pv = [])) as [Hnil|Hnn].
    + rewrite Hnil in *. cbn [length] in *.
      apply (spec_render_offset_dts_at d pv st n k last); try assumption; lia.
    + destruct (Hheld Hnn) as (Hfo0 & Hkd).
      apply (spec_render_offset_dts_at d pv st n k last); try assumption; lia.
Qed.

Lemma encode_frames_dts_at d calls : forall pv st n k last,
  stream_inv d pv st n k last ->
  0 < d ->
  n + Z.of_nat (length calls) <= INT_MAX ->
  stream_ok d n k last calls = true ->
  exists st' last',
    stream_inv d (fst (encode_frames pv calls)) st'
      (n + Z.of_nat (length calls))
      (k + Z.of_nat (length (drained calls))) last'
    /\ (forall i, 0 <= i < n -> st' i = st i)
    /\ (forall i c, calls !! i = Some c ->
         st' (n + Z.of_nat i) = s_start (fst c))
    /\ frameno_out (fst (encode_frames pv calls))
       = frameno_out pv + Z.of_nat (length (snd (encode_frames pv calls)))
    /\ forall i b, snd (encode_frames pv calls) !! i = Some b ->
         s_renderOffset b = dts_at d st' (frameno_out pv + Z.of_nat i).
Proof.
  induction calls as [|[inb enc] rest IH]; intros pv st n k last Hinv Hd Hmax Hok.
  - cbn. rewrite !Z.add_0_r. exists st, last.
    split; [exact Hinv|]. split; [reflexivity|].
    split; [intros i c Hc; rewrite lookup_nil in Hc; discriminate|].
    split; [reflexivity|].
    intros i b Hb. rewrite lookup_nil in Hb. discriminate.
  - cbn [length] in Hmax. cbn [stream_ok] in Hok.
    rewrite !andb_true_iff, Z.ltb_lt, Z.leb_le in Hok.
    destruct Hok as (((Hlast & Hrange) & Hpk) & Hrest).
    pose proof (Encode_state_inv d pv st n k last inb Hinv Hd
                  (conj Hlast Hrange) ltac:(lia)) as Hinv1.
    set (st1 := fun i => if i =? n then s_start inb else st i) in *.
    destruct (Encode_state_frame pv inb) as (_ & _ & _ & _ & Hfo1 & _).
    destruct (inv_frameno_in _ _ _ _ _ _ Hinv) as (_ & Hn0).
    (* the packets of this call *)
    assert (Hstep : exists new : list hb_buffer_t,
      snd (Encode pv inb enc []) = new
      /\ stream_inv d (fst (fst (Encode pv inb enc []))) st1 (n + 1)
           (k + Z.of_nat (length (if send_ret enc <? 0 then []
                                  else received enc))) (s_start inb)
      /\ frameno_out (fst (fst (Encode pv inb enc [])))
         = frameno_out pv + Z.of_nat (length new)
      /\ (new <> [] -> d < n + 1)
      /\ forall i b, new !! i = Some b ->
           s_renderOffset b = dts_at d st1 (frameno_out pv + Z.of_nat i)).
    { rewrite Encode_unfold.
      destruct (send_ret enc <? 0); cbn [fst snd].
      - exists []. cbn [length]. rewrite !Z.add_0_r.
        split; [reflexivity|]. split; [exact Hinv1|].
        split; [exact Hfo1|]. split; [congruence|].
        intros i b Hb. rewrite lookup_nil in Hb. discriminate.
      - destruct (get_packets_inv d st1 (n + 1) (s_start inb) (received enc)
                    (Encode_state pv inb) k [] Hinv1 Hd ltac:(lia) Hpk
                    ltac:(constructor))
          as (Hinv2 & _).
        eexists. split; [reflexivity|]. split; [exact Hinv2|].
        destruct (received enc) as [|pkt pkts] eqn:Hrec.
        { cbn. rewrite Z.add_0_r. split; [exact Hfo1|].
          split; [congruence|].
          intros i b Hb. rewrite lookup_nil in Hb. discriminate. }
        destruct (Z.le_gt_cases (n + 1) d) as [Hle|Hgt].
        + destruct (get_packets_hold (pkt :: pkts) (Encode_state pv inb) [])
            as (Hout & Hfo' & _).
          { rewrite (inv_depth _ _ _ _ _ _ Hinv1). lia. }
          { rewrite (inv_depth _ _ _ _ _ _ Hinv1).
            rewrite (proj1 (inv_frameno_in _ _ _ _ _ _ Hinv1)). exact Hle. }
          rewrite Hout, Hfo', Hfo1. cbn [length]. rewrite Z.add_0_r.
          split; [reflexivity|]. split; [congruence|].
          intros i b Hb. rewrite lookup_nil in Hb. discriminate.
        + destruct (get_packets_dts_at d st1 (n + 1) (s_start inb)
                      (pkt :: pkts) (Encode_state pv inb) k [] Hinv1 Hd
                      ltac:(lia) ltac:(lia) Hpk ltac:(discriminate))
            as (new & Hout & Hfo' & Hform).
          rewrite Hout, Hfo', Hfo1. cbn [app].
          split; [reflexivity|]. split; [intros _; lia|].
          intros i b Hb. rewrite <- Hfo1. apply Hform. exact Hb. }
    destruct Hstep as (new & Hnew & Hinv2 & Hfo2 & Hnz & Hform).
    rewrite encode_frames_cons, drained_cons. cbn [fst snd].
    rewrite Hnew.
    set (pv2 := fst (fst (Encode pv inb enc []))) in *.
    destruct (IH pv2 st1 (n + 1) _ (s_start inb) Hinv2 Hd ltac:(lia) Hrest)
      as (st' & last' & Hinv3 & Hagree & Hstarts & Hfo3 & Hform3).
    exists st', last'.
    replace (n + Z.of_nat (length ((inb, enc) :: rest)))
      with (n + 1 + Z.of_nat (length rest)) by (cbn [length]; lia).
    rewrite length_app, Nat2Z.inj_add, Z.add_assoc.
    split; [exact Hinv3|].
    split.
    { intros i Hi. rewrite Hagree by lia. unfold st1.
      destruct (Z.eqb_spec i n); [lia|reflexivity]. }
    split.
    { intros [|i] c Hc.
      - cbn in Hc. injection Hc as <-. rewrite Z.add_0_r, Hagree by lia.
        unfold st1. rewrite Z.eqb_refl. reflexivity.
      - cbn in Hc.
        replace (n + Z.of_nat (S i)) with (n + 1 + Z.of_nat i) by lia.
        apply Hstarts. exact Hc. }
    split; [rewrite Hfo3, Hfo2, length_app; lia|].
    intros i b Hb.
    destruct (decide (i < length new)%nat) as [Hi|Hi].
    + rewrite lookup_app_l in Hb by exact Hi.
      assert (Hne : new <> []) by (intros ->; cbn in Hi; lia).
      destruct (inv_counts _ _ _ _ _ _ Hinv2) as (_ & Hsum2 & Hk2).
      rewrite (dts_at_ext d st1 st' (n + 1)); try assumption;
        [apply Hform; exact Hb|apply Hnz; exact Hne|].
      destruct (inv_counts _ _ _ _ _ _ Hinv) as (Hfo0 & _). lia.
    + rewrite lookup_app_r in Hb by lia.
      rewrite (Hform3 _ _ Hb), Hfo2. f_equal. lia.
Qed.

Lemma dts_at_increasing d st n i j :
  (forall a b, 0 <= a -> a < b -> b < n -> st a < st b) ->
  (forall a, 0 <= a < n -> 0 <= st a <= INT64_MAX) ->
  0 < d -> d < n -> 0 <= i -> i < j -> j < n ->
  dts_at d st i < dts_at d st j.
Proof.
  intros Hinc Hrng Hd Hdn Hi Hij Hj. unfold dts_at.
  destruct (Z.ltb_spec i d); destruct (Z.ltb_spec j d); try lia.
  - pose proof (Hinc i j Hi Hij Hj). lia.
  - pose proof (Hinc i d Hi ltac:(lia) Hdn).
    pose proof (Hrng (j - d) ltac:(lia)). lia.
  - apply Hinc; lia.
Qed.

Lemma stream_dts_at j q calls fl :
  0 < areBframes j ->
  Z.of_nat (length calls) <= INT_MAX ->
  stream_ok (areBframes j) 0 0 (-1) calls = true ->
  packets_ok (areBframes j) (Z.of_nat (length calls))
    (Z.of_nat (length (drained calls))) (received fl) = true ->
  exists st last k,
    stream_inv (areBframes j)
      (fst (encode_stream (pv_calloc j q) calls fl)) st
      (Z.of_nat (length calls)) k last
    /\ (forall i c, calls !! i = Some c -> st (Z.of_nat i) = s_start (fst c))
    /\ frameno_out (fst (encode_stream (pv_calloc j q) calls fl))
       = Z.of_nat (length (snd (encode_stream (pv_calloc j q) calls fl)))
    /\ forall i b,
         snd (encode_stream (pv_calloc j q) calls fl) !! i = Some b ->
         s_renderOffset b = dts_at (areBframes j) st (Z.of_nat i).
Proof.
  intros Hd Hmax Hok Hfl. rewrite encode_stream_unfold. cbn [fst snd].
  destruct (encode_frames_dts_at (areBframes j) calls (pv_calloc j q)
              (fun _ => 0) 0 0 (-1) (pv_calloc_inv j q) Hd ltac:(lia) Hok)
    as (st & last & Hinv & _ & Hstarts & Hfo & Hform).
  rewrite !Z.add_0_l in Hinv.
  cbn [Z.add pv_calloc frameno_out] in Hfo, Hform, Hstarts.
  set (pv1 := fst (encode_frames (pv_calloc j q) calls)) in *.
  set (out1 := snd (encode_frames (pv_calloc j q) calls)) in *.
  destruct (get_packets_inv (areBframes j) st _ last (received fl)
              pv1 _ [] Hinv Hd Hmax Hfl ltac:(constructor))
    as (Hinv2 & _).
  exists st, last. eexists. split; [exact Hinv2|]. split; [exact Hstarts|].
  destruct (received fl) as [|pkt pkts] eqn:Hrec.
  { cbn. rewrite app_nil_r. split; [exact Hfo|].
    intros i b Hb. exact (Hform i b Hb). }
  destruct (Z.le_gt_cases (Z.of_nat (length calls)) (areBframes j))
    as [Hle|Hgt].
  - destruct (get_packets_hold (pkt :: pkts) pv1 []) as (Hout & Hfo' & _).
    { rewrite (inv_depth _ _ _ _ _ _ Hinv). lia. }
    { rewrite (inv_depth _ _ _ _ _ _ Hinv).
      rewrite (proj1 (inv_frameno_in _ _ _ _ _ _ Hinv)). exact Hle. }
    rewrite Hout, Hfo', app_nil_r. split; [exact Hfo|].
    intros i b Hb. exact (Hform i b Hb).
  - destruct (get_packets_dts_at (areBframes j) st _ last (pkt :: pkts)
                pv1 _ [] Hinv Hd Hmax Hgt Hfl ltac:(discriminate))
      as (new & Hout & Hfo' & Hform').
    rewrite Hout, Hfo', Hfo, length_app. cbn [app].
    split; [lia|].
    intros i b Hb.
    destruct (decide (i < length out1)%nat) as [Hi|Hi].
    + rewrite lookup_app_l in Hb by exact Hi.
      exact (Hform i b Hb).
    + rewrite lookup_app_r in Hb by lia.
      rewrite (Hform' _ _ Hb), Hfo. f_equal. lia.
Qed.

(** X7: for a stream with reorder depth [d > 0] that is [stream_ok] and
    [packets_ok] (start times from 0 on, increasing, and an encoder that
    keeps within the depth and the registry), the [k]-th packet released has
    render offset [start k - start d] for [k < d] and [start (k - d)]
    from there on, where [start i] is the start of the [i]-th frame
    submitted. *)
Theorem render_offsets_from_frame_starts j q calls fl k b :
  0 < areBframes j ->
  Z.of_nat (length calls) <= INT_MAX ->
  stream_ok (areBframes j) 0 0 (-1) calls = true ->
  packets_ok (areBframes j) (Z.of_nat (length calls))
    (Z.of_nat (length (drained calls))) (received fl) = true ->
  snd (encode_stream (pv_calloc j q) calls fl) !! k = Some b ->
  s_renderOffset b = dts_at (areBframes j) (start_of calls) (Z.of_nat k).
Proof.
  intros Hd Hmax Hok Hfl Hb.
  destruct (stream_dts_at j q calls fl Hd Hmax Hok Hfl)
    as (st & last & k' & Hinv & Hstarts & Hfo & Hform).
  rewrite (Hform k b Hb).
  pose proof (lookup_lt_Some _ _ _ Hb) as Hk.
  destruct (inv_counts _ _ _ _ _ _ Hinv) as (_ & Hsum & Hkn).
  assert (Hdn : areBframes j < Z.of_nat (length calls)).
  { destruct (Z.le_gt_cases (Z.of_nat (length calls)) (areBframes j))
      as [Hle|Hgt]; [|exact Hgt].
    pose proof (inv_early _ _ _ _ _ _ Hinv Hle). lia. }
  symmetry. apply (dts_at_ext _ _ _ (Z.of_nat (length calls)));
    try assumption; [|lia].
  intros i Hi. unfold start_of.
  destruct (calls !! Z.to_nat i) as [c|] eqn:Hc.
  - rewrite <- (Hstarts _ _ Hc). f_equal. lia.
  - apply lookup_ge_None in Hc. lia.
Qed.

(** X8: under the same conditions the render offsets of the released
    packets are strictly increasing in output order. *)
Theorem render_offsets_increase j q calls fl i1 i2 b1 b2 :
  0 < areBframes j ->
  Z.of_nat (length calls) <= INT_MAX ->
  stream_ok (areBframes j) 0 0 (-1) calls = true ->
  packets_ok (areBframes j) (Z.of_nat (length calls))
    (Z.of_nat (length (drained calls))) (received fl) = true ->
  (i1 < i2)%nat ->
  snd (encode_stream (pv_calloc j q) calls fl) !! i1 = Some b1 ->
  snd (encode_stream (pv_calloc j q) calls fl) !! i2 = Some b2 ->
  s_renderOffset b1 < s_renderOffset b2.
Proof.
  intros Hd Hmax Hok Hfl Hlt Hb1 Hb2.
  destruct (stream_dts_at j q calls fl Hd Hmax Hok Hfl)
    as (st & last & k' & Hinv & _ & Hfo & Hform).
  rewrite (Hform _ _ Hb1), (Hform _ _ Hb2).
  pose proof (lookup_lt_Some _ _ _ Hb2) as Hk.
  destruct (inv_counts _ _ _ _ _ _ Hinv) as (_ & Hsum & Hkn).
  assert (Hdn : areBframes j < Z.of_nat (length calls)).
  { destruct (Z.le_gt_cases (Z.of_nat (length calls)) (areBframes j))
      as [Hle|Hgt]; [|exact Hgt].
    pose proof (inv_early _ _ _ _ _ _ Hinv Hle). lia. }
  apply (dts_at_increasing _ _ (Z.of_nat (length calls)));
    try assumption; try lia.
  - apply (inv_increasing _ _ _ _ _ _ Hinv).
  - apply (inv_range _ _ _ _ _ _ Hinv).
Qed.

End PacketPath.

(** * The work function *)

Section Work.
Context `{Headers} `{WorkHeaders}.

Lemma encavcodecWork_frame pv inb enc :
  Z.land (s_flags inb) HB_BUF_FLAG_EOF = 0 ->
  encavcodecWork true pv inb enc
  = (fst (fst (Encode pv inb enc [])), Some (snd (Encode pv inb enc [])),
     HB_WORK_OK).
Proof.
  intros Hf. unfold encavcodecWork. rewrite Hf. cbn [negb Z.eqb].
  destruct (Encode pv inb enc []) as [[pv' fr] l]. reflexivity.
Qed.

Lemma encavcodecWork_eof pv inb enc :
  Z.land (s_flags inb) HB_BUF_FLAG_EOF <> 0 ->
  encavcodecWork true pv inb enc
  = (fst (Flush pv enc []),
     Some (snd (Flush pv enc []) ++ [hb_buffer_eof_init]), HB_WORK_DONE).
Proof.
  intros Hf. unfold encavcodecWork. cbn [negb].
  destruct (Z.eqb_spec (Z.land (s_flags inb) HB_BUF_FLAG_EOF) 0);
    [contradiction|].
  cbn [negb]. destruct (Flush pv enc []) as [pv' l]. reflexivity.
Qed.

(** X9: with an opened context, the caller's loop over frame buffers
    (none of them flagged as end of stream) followed by an end of stream
    buffer is one [Encode] per frame and one [Flush]: it leaves the
    private data of the stream and passes on the stream's packets
    followed by the end of stream buffer, and looks at no input after
    that.  Without an end of stream buffer the loop is the [Encode] calls
    alone. *)
Theorem work_loop_runs_the_stream pv calls eof fl more :
  HB_WORK_OK <> HB_WORK_DONE ->
  Forall (fun c => Z.land (s_flags (fst c)) HB_BUF_FLAG_EOF = 0) calls ->
  Z.land (s_flags eof) HB_BUF_FLAG_EOF <> 0 ->
  work_loop true pv (calls ++ (eof, fl) :: more)
  = (fst (encode_stream pv calls fl),
     snd (encode_stream pv calls fl) ++ [hb_buffer_eof_init])
  /\ work_loop true pv calls = encode_frames pv calls.
Proof.
  intros Hne Hcalls Heof. revert pv.
  induction Hcalls as [|[inb enc] rest Hc _ IH]; intros pv.
  - split; [|reflexivity].
    cbn [app work_loop]. rewrite (encavcodecWork_eof _ _ _ Heof).
    rewrite Z.eqb_refl. rewrite encode_stream_unfold. reflexivity.
  - cbn [fst] in Hc. cbn [app work_loop].
    rewrite (encavcodecWork_frame _ _ _ Hc).
    destruct (Z.eqb_spec HB_WORK_OK HB_WORK_DONE) as [|_]; [contradiction|].
    destruct (IH (fst (fst (Encode pv inb enc [])))) as (IH1 & IH2).
    rewrite IH1, IH2, !encode_stream_unfold, encode_frames_cons.
    cbn [fst snd]. split.
    + rewrite <- !app_assoc. reflexivity.
    + destruct (encode_frames (fst (fst (Encode pv inb enc []))) rest).
      reflexivity.
Qed.

(** While the codec context is not opened, the work function stores
    nothing in [*buf_out] and returns [HB_WORK_DONE] whatever the input
    is, so the loop ends at its first call with the private data as it
    was and without passing on any buffer, the end of stream buffer
    included. *)
Lemma work_loop_without_context pv inb enc more :
  encavcodecWork false pv inb enc = (pv, None, HB_WORK_DONE)
  /\ work_loop false pv ((inb, enc) :: more) = (pv, []).
Proof.
  split; [reflexivity|].
  cbn [work_loop]. unfold encavcodecWork. cbn [negb].
  rewrite Z.eqb_refl. reflexivity.
Qed.

End Work.

(** * Presets and the frame rate *)

Lemma strcasecmp_refl (s : string) : strcasecmp s s = 0.
Proof.
  induction s as [|c s IH]; [reflexivity|].
  cbn [strcasecmp]. rewrite Z.sub_diag. exact IH.
Qed.

Lemma apply_vpx_preset_cases av_opts preset :
  (snd (apply_vpx_preset av_opts preset) = 0 <->
   preset = None
   \/ exists p name,
       preset = Some p /\ In name vpx_preset_names /\ strcasecmp name p = 0)
  /\ (snd (apply_vpx_preset av_opts preset) <> 0 ->
      snd (apply_vpx_preset av_opts preset) = -1
      /\ fst (apply_vpx_preset av_opts preset) = av_opts)
  /\ (snd (apply_vpx_preset av_opts preset) = 0 ->
      exists deadline cpu,
        fst (apply_vpx_preset av_opts preset)
        = av_opts ++ [ ("deadline"%string, Some deadline);
                       ("cpu-used"%string, Some cpu) ])
  /\ apply_vpx_preset av_opts None
     = apply_vpx_preset av_opts (Some "medium"%string).
Proof.
  assert (Hset : forall deadline cpu : string,
    av_dict_set (av_dict_set av_opts "deadline"%string (Some deadline))
                "cpu-used"%string (Some cpu)
    = av_opts ++ [ ("deadline"%string, Some deadline);
                   ("cpu-used"%string, Some cpu) ]).
  { intros. unfold av_dict_set. rewrite <- app_assoc. reflexivity. }
  split; [|split; [|split]]; try reflexivity.
  - destruct preset as [p|]; [|split; [left|]; reflexivity].
    unfold apply_vpx_preset, vpx_preset_names.
    repeat match goal with
    | |- context [strcasecmp ?n p =? 0] =>
        destruct (Z.eqb_spec (strcasecmp n p) 0)
    end; cbn [snd];
      try (split; [intros _; right; eexists p, _;
                   split; [reflexivity|split; [|eassumption]];
                   cbn; tauto
                  |reflexivity]).
    split; [discriminate|].
    intros [Hn|(p' & name & Hp & Hin & Hcmp)]; [discriminate|].
    injection Hp as <-. cbn [In] in Hin.
    repeat (destruct Hin as [<-|Hin]; [contradiction|]).
    destruct Hin.
  - destruct preset as [p|]; [|cbn; congruence].
    unfold apply_vpx_preset.
    repeat match goal with
    | |- context [strcasecmp ?n p =? 0] =>
        destruct (Z.eqb_spec (strcasecmp n p) 0)
    end; cbn [fst snd]; try congruence.
    intros _. split; reflexivity.
  - destruct preset as [p|]; [|intros _; cbn [apply_vpx_preset fst];
                                rewrite Hset; eauto].
    unfold apply_vpx_preset.
    repeat match goal with
    | |- context [strcasecmp ?n p =? 0] =>
        destruct (Z.eqb_spec (strcasecmp n p) 0)
    end; cbn [fst snd]; try (intros _; rewrite Hset; eauto).
    discriminate.
Qed.

(** X10: [apply_vpx_preset] succeeds exactly for a [NULL] preset and for
    a preset that equals, up to the case of its letters, one of
    [vpx_preset_names].  On success it sets the two options deadline and
    cpu-used after the options already there; otherwise it returns -1 and
    leaves the dictionary as it was.  A [NULL] preset is treated as
    medium. *)
Theorem apply_vpx_preset_accepts_the_table av_opts preset :
  (snd (apply_vpx_preset av_opts preset) = 0 <->
   preset = None
   \/ exists p name,
       preset = Some p /\ In name vpx_preset_names /\ strcasecmp name p = 0)
  /\ (snd (apply_vpx_preset av_opts preset) <> 0 ->
      snd (apply_vpx_preset av_opts preset) = -1
      /\ fst (apply_vpx_preset av_opts preset) = av_opts)
  /\ (snd (apply_vpx_preset av_opts preset) = 0 ->
      exists deadline cpu,
        fst (apply_vpx_preset av_opts preset)
        = av_opts ++ [ ("deadline"%string, Some deadline);
                       ("cpu-used"%string, Some cpu) ])
  /\ apply_vpx_preset av_opts None
     = apply_vpx_preset av_opts (Some "medium"%string).
Proof. exact (apply_vpx_preset_cases av_opts preset). Qed.

Section Presets.
Context `{Codecs}.

Lemma apply_encoder_preset_failure vcodec av_opts preset :
  snd (apply_encoder_preset vcodec av_opts preset) <> 0 ->
  (vcodec = HB_VCODEC_FFMPEG_VP8 \/ vcodec = HB_VCODEC_FFMPEG_VP9)
  /\ snd (apply_encoder_preset vcodec av_opts preset) = -1
  /\ exists p,
      preset = Some p
      /\ forall name, In name vpx_preset_names -> strcasecmp name p <> 0.
Proof.
  unfold apply_encoder_preset, apply_vp8_preset, apply_vp9_preset.
  intros Hfail.
  assert (Hvpx : forall o,
    snd (apply_vpx_preset o preset) <> 0 ->
    snd (apply_vpx_preset o preset) = -1
    /\ exists p,
        preset = Some p
        /\ forall name, In name vpx_preset_names -> strcasecmp name p <> 0).
  { intros o Hne.
    destruct (apply_vpx_preset_cases o preset) as (Hiff & Hm1 & _).
    split; [apply Hm1; exact Hne|].
    destruct preset as [p|]; [|exfalso; apply Hne, Hiff; left; reflexivity].
    exists p. split; [reflexivity|].
    intros name Hin Hcmp. apply Hne, Hiff. right. exists p, name. auto. }
  destruct (Z.eqb_spec vcodec HB_VCODEC_FFMPEG_VP8) as [->|_].
  - destruct (Hvpx _ Hfail) as (Hm & Hp). auto.
  - destruct (Z.eqb_spec vcodec HB_VCODEC_FFMPEG_VP9) as [->|_].
    + destruct (Hvpx _ Hfail) as (Hm & Hp). auto.
    + destruct ((vcodec =? HB_VCODEC_FFMPEG_NVENC_H264)
                || (vcodec =? HB_VCODEC_FFMPEG_NVENC_H265));
        cbn in Hfail; congruence.
Qed.

Lemma apply_encoder_preset_failure_opts vcodec av_opts preset :
  snd (apply_encoder_preset vcodec av_opts preset) <> 0 ->
  fst (apply_encoder_preset vcodec av_opts preset)
  = if vcodec =? HB_VCODEC_FFMPEG_VP8 then av_opts
    else av_opts ++ [ ("row-mt"%string, Some "1"%string) ].
Proof.
  intros Hfail.
  destruct (apply_encoder_preset_failure _ _ _ Hfail) as (Hv & _).
  revert Hfail. unfold apply_encoder_preset, apply_vp8_preset, apply_vp9_preset.
  destruct (Z.eqb_spec vcodec HB_VCODEC_FFMPEG_VP8) as [->|Hne].
  - intros Hfail.
    destruct (apply_vpx_preset_cases av_opts preset) as (_ & Hm1 & _).
    apply Hm1. exact Hfail.
  - destruct Hv as [Hv|Hv]; [contradiction|]. rewrite Hv, Z.eqb_refl.
    intros Hfail.
    destruct (apply_vpx_preset_cases
                (av_dict_set av_opts "row-mt"%string (Some "1"%string))
                preset) as (_ & Hm1 & _).
    apply Hm1. exact Hfail.
Qed.

(** X11: every preset name that [hb_av_preset_get_names] offers for an
    encoder is accepted by [apply_encoder_preset] for that encoder. *)
Theorem offered_presets_are_accepted vcodec names name av_opts :
  hb_av_preset_get_names vcodec = Some names ->
  In name names ->
  snd (apply_encoder_preset vcodec av_opts (Some name)) = 0.
Proof.
  intros Hnames Hin.
  destruct (Z.eq_dec (snd (apply_encoder_preset vcodec av_opts (Some name))) 0)
    as [Hz|Hnz]; [exact Hz|exfalso].
  destruct (apply_encoder_preset_failure _ _ _ Hnz)
    as (Hv & _ & p & Hp & Hnone).
  injection Hp as <-.
  apply (Hnone name); [|apply strcasecmp_refl].
  unfold hb_av_preset_get_names in Hnames.
  destruct Hv as [Hv|Hv]; rewrite Hv, Z.eqb_refl, ?orb_true_r in Hnames;
    cbn in Hnames; injection Hnames as <-; exact Hin.
Qed.

(** X12: [apply_encoder_preset] fails only for VP8 and VP9, with -1, and
    only when the preset is not [NULL] and differs, also up to case, from
    every name of [vpx_preset_names]; the dictionary is then as it was
    for VP8 and has gained the option row-mt for VP9. *)
Theorem apply_encoder_preset_fails_only_for_unknown_vpx
  vcodec av_opts preset :
  snd (apply_encoder_preset vcodec av_opts preset) <> 0 ->
  (vcodec = HB_VCODEC_FFMPEG_VP8 \/ vcodec = HB_VCODEC_FFMPEG_VP9)
  /\ snd (apply_encoder_preset vcodec av_opts preset) = -1
  /\ (exists p,
        preset = Some p
        /\ forall name, In name vpx_preset_names -> strcasecmp name p <> 0)
  /\ fst (apply_encoder_preset vcodec av_opts preset)
     = if vcodec =? HB_VCODEC_FFMPEG_VP8 then av_opts
       else av_opts ++ [ ("row-mt"%string, Some "1"%string) ].
Proof.
  intros Hfail.
  destruct (apply_encoder_preset_failure _ _ _ Hfail) as (Hv & Hm & Hp).
  repeat split; try assumption.
  apply apply_encoder_preset_failure_opts. exact Hfail.
Qed.

End Presets.

(** ** The frame rate loop *)

Lemma high_bits_clear (x : Z) :
  Z.land x (Z.lnot 65535) = 0 <-> 0 <= x < 65536.
Proof.
  change 65535 with (Z.ones 16).
  change (Z.land x (Z.lnot (Z.ones 16))) with (Z.ldiff x (Z.ones 16)).
  rewrite Z.ldiff_ones_r by lia.
  rewrite Z.shiftl_mul_pow2, Z.shiftr_div_pow2 by lia.
  change (2 ^ 16) with 65536.
  split.
  - intros Hz. assert (Hq : x / 65536 = 0) by lia.
    apply Z.div_small_iff in Hq; lia.
  - intros Hx. rewrite Z.div_small by lia. reflexivity.
Qed.

Lemma truncate_framerate_done fuel num den :
  0 <= num < 65536 -> 0 <= den < 65536 ->
  truncate_framerate fuel num den = Some (num, den).
Proof.
  intros Hn Hd.
  apply high_bits_clear in Hn. apply high_bits_clear in Hd.
  destruct fuel; cbn [truncate_framerate]; rewrite Hn, Hd; reflexivity.
Qed.

Lemma truncate_framerate_turn fuel num den :
  65536 <= num \/ 65536 <= den \/ num < 0 \/ den < 0 ->
  truncate_framerate (S fuel) num den
  = truncate_framerate fuel (Z.shiftr num 1) (Z.shiftr den 1).
Proof.
  intros Hbig. cbn [truncate_framerate].
  destruct (Z.eqb_spec (Z.land num (Z.lnot 65535)) 0) as [Hn|_];
    [|reflexivity].
  destruct (Z.eqb_spec (Z.land den (Z.lnot 65535)) 0) as [Hd|_];
    [|reflexivity].
  apply high_bits_clear in Hn. apply high_bits_clear in Hd. lia.
Qed.

Lemma truncate_framerate_shifts fuel : forall num den,
  0 <= num < 2 ^ (16 + Z.of_nat fuel) ->
  0 <= den < 2 ^ (16 + Z.of_nat fuel) ->
  exists s : nat,
    (s <= fuel)%nat
    /\ truncate_framerate fuel num den
       = Some (num / 2 ^ Z.of_nat s, den / 2 ^ Z.of_nat s)
    /\ num / 2 ^ Z.of_nat s < 65536
    /\ den / 2 ^ Z.of_nat s < 65536
    /\ forall t : nat, (t < s)%nat ->
         65536 <= num / 2 ^ Z.of_nat t \/ 65536 <= den / 2 ^ Z.of_nat t.
Proof.
  induction fuel as [|fuel IH]; intros num den Hn Hd.
  - exists 0%nat. change (2 ^ (16 + Z.of_nat 0)) with 65536 in *.
    change (2 ^ Z.of_nat 0) with 1. rewrite !Z.div_1_r.
    rewrite truncate_framerate_done by lia.
    repeat split; try lia.
  - assert (Hpow : 2 ^ (16 + Z.of_nat (S fuel))
                   = 2 * 2 ^ (16 + Z.of_nat fuel)).
    { replace (16 + Z.of_nat (S fuel)) with (Z.succ (16 + Z.of_nat fuel))
        by lia.
      rewrite Z.pow_succ_r by lia. reflexivity. }
    assert (Hhalf : forall (x : Z) (s : nat),
              x / 2 / 2 ^ Z.of_nat s = x / 2 ^ Z.of_nat (S s)).
    { intros x s. rewrite Nat2Z.inj_succ, Z.pow_succ_r by lia.
      rewrite Z.div_div by lia. reflexivity. }
    assert (Hstep : 65536 <= num \/ 65536 <= den ->
      exists s : nat,
        (s <= S fuel)%nat
        /\ truncate_framerate (S fuel) num den
           = Some (num / 2 ^ Z.of_nat s, den / 2 ^ Z.of_nat s)
        /\ num / 2 ^ Z.of_nat s < 65536
        /\ den / 2 ^ Z.of_nat s < 65536
        /\ forall t : nat, (t < s)%nat ->
             65536 <= num / 2 ^ Z.of_nat t
             \/ 65536 <= den / 2 ^ Z.of_nat t).
    { intros Hbig.
      rewrite truncate_framerate_turn by lia.
      rewrite !Z.shiftr_div_pow2 by lia. change (2 ^ 1) with 2.
      destruct (IH (num / 2) (den / 2)) as (s & Hs & Hres & Hn' & Hd' & Hmin).
      { split; [apply Z.div_pos; lia|].
        apply Z.div_lt_upper_bound; lia. }
      { split; [apply Z.div_pos; lia|].
        apply Z.div_lt_upper_bound; lia. }
      exists (S s). rewrite <- !Hhalf.
      split; [lia|]. split; [exact Hres|]. split; [exact Hn'|].
      split; [exact Hd'|].
      intros [|t] Ht.
      - change (2 ^ Z.of_nat 0) with 1. rewrite !Z.div_1_r. exact Hbig.
      - rewrite <- !Hhalf. apply Hmin. lia. }
    destruct (Z_lt_ge_dec num 65536) as [Hnl|Hnb];
      [destruct (Z_lt_ge_dec den 65536) as [Hdl|Hdb]|].
    + exists 0%nat. change (2 ^ Z.of_nat 0) with 1. rewrite !Z.div_1_r.
      rewrite truncate_framerate_done by lia.
      repeat split; try lia.
    + apply Hstep. lia.
    + apply Hstep. lia.
Qed.

Lemma truncate_framerate_more fuel : forall num den r,
  truncate_framerate fuel num den = Some r ->
  truncate_framerate (S fuel) num den = Some r.
Proof.
  induction fuel as [|fuel IH]; intros num den r Hr.
  - cbn [truncate_framerate] in *.
    destruct (negb (Z.land num (Z.lnot 65535) =? 0)
              || negb (Z.land den (Z.lnot 65535) =? 0));
      [discriminate|exact Hr].
  - change (truncate_framerate (S (S fuel)) num den)
      with (if negb (Z.land num (Z.lnot 65535) =? 0)
               || negb (Z.land den (Z.lnot 65535) =? 0)
            then truncate_framerate (S fuel) (Z.shiftr num 1)
                   (Z.shiftr den 1)
            else Some (num, den)).
    change (truncate_framerate (S fuel) num den)
      with (if negb (Z.land num (Z.lnot 65535) =? 0)
               || negb (Z.land den (Z.lnot 65535) =? 0)
            then truncate_framerate fuel (Z.shiftr num 1) (Z.shiftr den 1)
            else Some (num, den)) in Hr.
    destruct (negb (Z.land num (Z.lnot 65535) =? 0)
              || negb (Z.land den (Z.lnot 65535) =? 0));
      [apply IH; exact Hr|exact Hr].
Qed.

Lemma truncate_framerate_fuel_le fuel extra num den r :
  truncate_framerate fuel num den = Some r ->
  truncate_framerate (extra + fuel) num den = Some r.
Proof.
  intros Hr. induction extra as [|extra IH]; [exact Hr|].
  apply truncate_framerate_more. exact IH.
Qed.

(** X13: for a frame rate whose two terms are non-negative [int]s, the
    loop ends within 15 turns: it divides both terms by the same power of
    two, the smallest one that brings both below 65536 (so a term smaller
    than that power becomes 0). *)
Theorem truncate_framerate_fits num den fuel :
  0 <= num <= INT_MAX ->
  0 <= den <= INT_MAX ->
  (15 <= fuel)%nat ->
  exists s : nat,
    (s <= 15)%nat
    /\ truncate_framerate fuel num den
       = Some (num / 2 ^ Z.of_nat s, den / 2 ^ Z.of_nat s)
    /\ 0 <= num / 2 ^ Z.of_nat s < 65536
    /\ 0 <= den / 2 ^ Z.of_nat s < 65536
    /\ forall t : nat, (t < s)%nat ->
         65536 <= num / 2 ^ Z.of_nat t \/ 65536 <= den / 2 ^ Z.of_nat t.
Proof.
  intros Hn Hd Hfuel.
  destruct (truncate_framerate_shifts 15 num den)
    as (s & Hs & Hres & Hn' & Hd' & Hmin);
    [change (2 ^ (16 + Z.of_nat 15)) with 2147483648;
     unfold INT_MAX in *; lia..|].
  exists s. split; [exact Hs|].
  assert (Hpos : 0 < 2 ^ Z.of_nat s) by (apply Z.pow_pos_nonneg; lia).
  split; [|split; [|split]].
  - replace fuel with ((fuel - 15) + 15)%nat by lia.
    apply truncate_framerate_fuel_le. exact Hres.
  - split; [apply Z.div_pos; lia|exact Hn'].
  - split; [apply Z.div_pos; lia|exact Hd'].
  - exact Hmin.
Qed.

(** X14: when a term of the frame rate is negative the loop never ends:
    whatever the number of turns allowed, it is still running. *)
Theorem truncate_framerate_negative_runs_on num den fuel :
  num < 0 \/ den < 0 ->
  truncate_framerate fuel num den = None.
Proof.
  revert num den. induction fuel as [|fuel IH]; intros num den Hneg.
  - cbn [truncate_framerate].
    destruct (Z.eqb_spec (Z.land num (Z.lnot 65535)) 0) as [Hn|_];
      [|reflexivity].
    destruct (Z.eqb_spec (Z.land den (Z.lnot 65535)) 0) as [Hd|_];
      [|reflexivity].
    apply high_bits_clear in Hn. apply high_bits_clear in Hd. lia.
  - rewrite truncate_framerate_turn by lia.
    apply IH. rewrite !Z.shiftr_div_pow2 by lia. change (2 ^ 1) with 2.
    destruct Hneg as [Hneg|Hneg]; [left|right];
      apply Z.div_lt_upper_bound; lia.
Qed.

(** * The further properties on concrete inputs *)

(** After 40 frames the registry still has frame 10, which started at
    100. *)
Lemma registry_remembers_run :
  (Z.of_nat (length (frames_with at_once 40)) <= INT_MAX
   /\ frames_with at_once 40 !! 10%nat
      = Some (frame_at 100 110 0, reply (at_once 10))
   /\ (length (frames_with at_once 40) <= 10 + 32)%nat)
  /\ get_frame_start
       (fst (@encode_stream sample_headers (pv_calloc (sample_job 0 0) 0)
               (frames_with at_once 40) (reply [])))
       (Z.of_nat 10)
     = 100.
Proof.
  assert (H1 : Z.of_nat (length (frames_with at_once 40)) <= INT_MAX)
    by (vm_compute; congruence).
  assert (H2 : frames_with at_once 40 !! 10%nat
               = Some (frame_at 100 110 0, reply (at_once 10)))
    by (vm_compute; reflexivity).
  assert (H3 : (length (frames_with at_once 40) <= 10 + 32)%nat)
    by (cbn; lia).
  split; [repeat split; assumption|].
  exact (proj1 (@registry_remembers_last_32 sample_headers (sample_job 0 0) 0
                  (frames_with at_once 40) (reply []) 10%nat _ H1 H2 H3)).
Defined.

(** With depth 1 the job's [init_delay] ends as the start of frame 1. *)
Lemma init_delay_run :
  Z.of_nat (length (frames_with one_behind 4)) <= INT_MAX
  /\ init_delay
       (job (fst (@encode_stream sample_headers
                    (pv_calloc (sample_job 1 0) 0)
                    (frames_with one_behind 4) (reply [packet_of 3 0]))))
     = 10.
Proof.
  assert (H1 : Z.of_nat (length (frames_with one_behind 4)) <= INT_MAX)
    by (vm_compute; congruence).
  split; [exact H1|].
  exact (@init_delay_published sample_headers (sample_job 1 0) 0
           (frames_with one_behind 4) (reply [packet_of 3 0]) H1).
Defined.

(** The third frame of the chapter scenario is sent with [pts] 2 and
    without a key frame request. *)
Lemma frames_sent_run :
  (Z.of_nat (length chapter_calls) <= INT_MAX
   /\ chapter_calls !! 2%nat
      = Some (frame_at 20 30 0, reply [packet_of 2 1]))
  /\ @sent_frames sample_headers (pv_calloc (sample_job 0 1) 7)
       chapter_calls !! 2%nat
     = Some {| pict_type := 0; key_frame := 0; quality := 7; pts := 2 |}.
Proof.
  assert (H1 : Z.of_nat (length chapter_calls) <= INT_MAX)
    by (vm_compute; congruence).
  assert (H2 : chapter_calls !! 2%nat
               = Some (frame_at 20 30 0, reply [packet_of 2 1]))
    by reflexivity.
  split; [split; assumption|].
  exact (@frames_sent_with_their_number sample_headers (sample_job 0 1) 7
           chapter_calls 2%nat _ H1 H2).
Defined.

(** With depth 1, four frames and four packets: both counters end at 4. *)
Lemma counters_run :
  (0 < areBframes (sample_job 1 0) <= INT_MAX
   /\ Z.of_nat (length b_frame_calls) <= INT_MAX
   /\ Z.of_nat (length (drained b_frame_calls))
      + Z.of_nat (length (received (reply [packet_of 3 0]))) <= INT_MAX)
  /\ frameno_in
       (fst (@encode_stream sample_headers (pv_calloc (sample_job 1 0) 0)
               b_frame_calls (reply [packet_of 3 0])))
     = 4
  /\ frameno_out
       (fst (@encode_stream sample_headers (pv_calloc (sample_job 1 0) 0)
               b_frame_calls (reply [packet_of 3 0])))
     = 4.
Proof.
  assert (H1 : 0 < areBframes (sample_job 1 0) <= INT_MAX)
    by (cbn; unfold INT_MAX; lia).
  assert (H2 : Z.of_nat (length b_frame_calls) <= INT_MAX)
    by (vm_compute; congruence).
  assert (H3 : Z.of_nat (length (drained b_frame_calls))
               + Z.of_nat (length (received (reply [packet_of 3 0])))
               <= INT_MAX)
    by (vm_compute; congruence).
  split; [repeat split; assumption|].
  destruct (@counters_count sample_headers (sample_job 1 0) 0 b_frame_calls
              (reply [packet_of 3 0]) H1 H2 H3) as (E1 & E2 & _).
  split; [exact E1|exact E2].
Defined.

(** With depth 1, after a frame whose packet is held and a frame the
    encoder refused, a call without a buffer empties the delay list. *)
Lemma process_delay_list_null_run :
  (0 < areBframes (job refused_state) <= INT_MAX
   /\ areBframes (job refused_state) < frameno_in refused_state
   /\ 0 <= frameno_out refused_state
   /\ frameno_out refused_state
      + Z.of_nat (length (delay_list refused_state)) <= INT_MAX)
  /\ delay_list (fst (process_delay_list refused_state None)) = [].
Proof.
  assert (H1 : 0 < areBframes (job refused_state) <= INT_MAX)
    by (vm_compute; split; congruence).
  assert (H2 : areBframes (job refused_state) < frameno_in refused_state)
    by (vm_compute; reflexivity).
  assert (H3 : 0 <= frameno_out refused_state)
    by (vm_compute; congruence).
  assert (H4 : frameno_out refused_state
               + Z.of_nat (length (delay_list refused_state)) <= INT_MAX)
    by (vm_compute; congruence).
  split; [repeat split; try assumption; apply H1|].
  exact (proj1 (proj2 (process_delay_list_null_drains _ H1 H2 H3 H4))).
Defined.

(** The stream with one B-frame: the third packet released has the
    render offset of the formula, and the render offsets of the first two
    increase. *)
Lemma render_offsets_run :
  (0 < areBframes (sample_job 1 0)
   /\ Z.of_nat (length b_frame_calls) <= INT_MAX
   /\ stream_ok (areBframes (sample_job 1 0)) 0 0 (-1) b_frame_calls = true
   /\ packets_ok (areBframes (sample_job 1 0))
        (Z.of_nat (length b_frame_calls))
        (Z.of_nat (length (drained b_frame_calls)))
        (received (reply [packet_of 3 0])) = true
   /\ snd (@encode_stream sample_headers (pv_calloc (sample_job 1 0) 0)
             b_frame_calls (reply [packet_of 3 0])) !! 2%nat
      = Some (set_renderOffset 10
                (snd (@resolve_packet sample_headers
                        (fst (@encode_frames sample_headers
                                (pv_calloc (sample_job 1 0) 0)
                                b_frame_calls))
                        (packet_of 1 0)))))
  /\ s_renderOffset
       (set_renderOffset 10
          (snd (@resolve_packet sample_headers
                  (fst (@encode_frames sample_headers
                          (pv_calloc (sample_job 1 0) 0) b_frame_calls))
                  (packet_of 1 0))))
     = dts_at 1 (start_of b_frame_calls) 2.
Proof.
  assert (H1 : 0 < areBframes (sample_job 1 0)) by (cbn; lia).
  assert (H2 : Z.of_nat (length b_frame_calls) <= INT_MAX)
    by (vm_compute; congruence).
  assert (H3 : stream_ok (areBframes (sample_job 1 0)) 0 0 (-1)
                 b_frame_calls = true)
    by (vm_compute; reflexivity).
  assert (H4 : packets_ok (areBframes (sample_job 1 0))
                 (Z.of_nat (length b_frame_calls))
                 (Z.of_nat (length (drained b_frame_calls)))
                 (received (reply [packet_of 3 0])) = true)
    by (vm_compute; reflexivity).
  assert (H5 : snd (@encode_stream sample_headers
                      (pv_calloc (sample_job 1 0) 0)
                      b_frame_calls (reply [packet_of 3 0])) !! 2%nat
      = Some (set_renderOffset 10
                (snd (@resolve_packet sample_headers
                        (fst (@encode_frames sample_headers
                                (pv_calloc (sample_job 1 0) 0)
                                b_frame_calls))
                        (packet_of 1 0)))))
    by (vm_compute; reflexivity).
  split; [repeat split; assumption|].
  exact (@render_offsets_from_frame_starts sample_headers (sample_job 1 0) 0
           b_frame_calls (reply [packet_of 3 0]) 2%nat _ H1 H2 H3 H4 H5).
Defined.

Lemma render_offsets_increase_run :
  (0 < areBframes (sample_job 1 0)
   /\ Z.of_nat (length b_frame_calls) <= INT_MAX
   /\ stream_ok (areBframes (sample_job 1 0)) 0 0 (-1) b_frame_calls = true
   /\ packets_ok (areBframes (sample_job 1 0))
        (Z.of_nat (length b_frame_calls))
        (Z.of_nat (length (drained b_frame_calls)))
        (received (reply [packet_of 3 0])) = true
   /\ (0 < 1)%nat
   /\ snd (@encode_stream sample_headers (pv_calloc (sample_job 1 0) 0)
             b_frame_calls (reply [packet_of 3 0])) !! 0%nat
      = Some (set_renderOffset (-10)
                (snd (@resolve_packet sample_headers
                        (fst (@encode_frames sample_headers
                                (pv_calloc (sample_job 1 0) 0)
                                b_frame_calls))
                        (packet_of 0 0))))
   /\ snd (@encode_stream sample_headers (pv_calloc (sample_job 1 0) 0)
             b_frame_calls (reply [packet_of 3 0])) !! 1%nat
      = Some (set_renderOffset 0
                (snd (@resolve_packet sample_headers
                        (fst (@encode_frames sample_headers
                                (pv_calloc (sample_job 1 0) 0)
                                b_frame_calls))
                        (packet_of 2 0)))))
  /\ s_renderOffset
       (set_renderOffset (-10)
          (snd (@resolve_packet sample_headers
                  (fst (@encode_frames sample_headers
                          (pv_calloc (sample_job 1 0) 0) b_frame_calls))
                  (packet_of 0 0))))
     < s_renderOffset
         (set_renderOffset 0
            (snd (@resolve_packet sample_headers
                    (fst (@encode_frames sample_headers
                            (pv_calloc (sample_job 1 0) 0) b_frame_calls))
                    (packet_of 2 0)))).
Proof.
  assert (H1 : 0 < areBframes (sample_job 1 0)) by (cbn; lia).
  assert (H2 : Z.of_nat (length b_frame_calls) <= INT_MAX)
    by (vm_compute; congruence).
  assert (H3 : stream_ok (areBframes (sample_job 1 0)) 0 0 (-1)
                 b_frame_calls = true)
    by (vm_compute; reflexivity).
  assert (H4 : packets_ok (areBframes (sample_job 1 0))
                 (Z.of_nat (length b_frame_calls))
                 (Z.of_nat (length (drained b_frame_calls)))
                 (received (reply [packet_of 3 0])) = true)
    by (vm_compute; reflexivity).
  assert (H5 : (0 < 1)%nat) by lia.
  assert (H6 : snd (@encode_stream sample_headers
                      (pv_calloc (sample_job 1 0) 0)
                      b_frame_calls (reply [packet_of 3 0])) !! 0%nat
      = Some (set_renderOffset (-10)
                (snd (@resolve_packet sample_headers
                        (fst (@encode_frames sample_headers
                                (pv_calloc (sample_job 1 0) 0)
                                b_frame_calls))
                        (packet_of 0 0)))))
    by (vm_compute; reflexivity).
  assert (H7 : snd (@encode_stream sample_headers
                      (pv_calloc (sample_job 1 0) 0)
                      b_frame_calls (reply [packet_of 3 0])) !! 1%nat
      = Some (set_renderOffset 0
                (snd (@resolve_packet sample_headers
                        (fst (@encode_frames sample_headers
                                (pv_calloc (sample_job 1 0) 0)
                                b_frame_calls))
                        (packet_of 2 0)))))
    by (vm_compute; reflexivity).
  split; [repeat split; assumption|].
  exact (@render_offsets_increase sample_headers (sample_job 1 0) 0
           b_frame_calls (reply [packet_of 3 0]) 0%nat 1%nat _ _
           H1 H2 H3 H4 H5 H6 H7).
Defined.

(** Two frames and the end of stream buffer through the caller's loop:
    two packets and the end of stream buffer come out. *)
Lemma work_loop_run :
  (@HB_WORK_OK sample_work_headers <> @HB_WORK_DONE sample_work_headers
   /\ Forall (fun c => Z.land (s_flags (fst c))
                         (@HB_BUF_FLAG_EOF sample_work_headers) = 0)
        (frames_with at_once 2)
   /\ Z.land (s_flags (set_flags 4 (frame_at 0 0 0)))
        (@HB_BUF_FLAG_EOF sample_work_headers) <> 0)
  /\ length
       (snd (@work_loop sample_headers sample_work_headers true
               (pv_calloc (sample_job 0 0) 0)
               (frames_with at_once 2
                  ++ [(set_flags 4 (frame_at 0 0 0), reply [])])))
     = 3%nat.
Proof.
  assert (H1 : @HB_WORK_OK sample_work_headers
               <> @HB_WORK_DONE sample_work_headers)
    by (cbn; lia).
  assert (H2 : Forall (fun c => Z.land (s_flags (fst c))
                         (@HB_BUF_FLAG_EOF sample_work_headers) = 0)
                 (frames_with at_once 2))
    by (repeat constructor).
  assert (H3 : Z.land (s_flags (set_flags 4 (frame_at 0 0 0)))
                 (@HB_BUF_FLAG_EOF sample_work_headers) <> 0)
    by (vm_compute; congruence).
  split; [repeat split; assumption|].
  rewrite (proj1 (@work_loop_runs_the_stream sample_headers
                    sample_work_headers (pv_calloc (sample_job 0 0) 0)
                    (frames_with at_once 2) (set_flags 4 (frame_at 0 0 0))
                    (reply []) [] H1 H2 H3)).
  reflexivity.
Defined.

(** The preset slow is offered for VP8 and accepted. *)
Lemma offered_presets_run :
  (@hb_av_preset_get_names sample_codecs 1 = Some vpx_preset_names
   /\ In "slow"%string vpx_preset_names)
  /\ snd (@apply_encoder_preset sample_codecs 1 [] (Some "slow"%string)) = 0.
Proof.
  assert (H1 : @hb_av_preset_get_names sample_codecs 1
               = Some vpx_preset_names)
    by reflexivity.
  assert (H2 : In "slow"%string vpx_preset_names) by (cbn; tauto).
  split; [split; assumption|].
  exact (@offered_presets_are_accepted sample_codecs 1 _ _ [] H1 H2).
Defined.

(** The preset turbo fails for VP9 and leaves row-mt behind. *)
Lemma unknown_preset_run :
  snd (@apply_encoder_preset sample_codecs 2 [] (Some "turbo"%string)) <> 0
  /\ fst (@apply_encoder_preset sample_codecs 2 [] (Some "turbo"%string))
     = [ ("row-mt"%string, Some "1"%string) ].
Proof.
  assert (H1 : snd (@apply_encoder_preset sample_codecs 2 []
                      (Some "turbo"%string)) <> 0)
    by (vm_compute; congruence).
  split; [exact H1|].
  exact (proj2 (proj2 (proj2
           (@apply_encoder_preset_fails_only_for_unknown_vpx sample_codecs 2
              [] (Some "turbo"%string) H1)))).
Defined.

(** The rate 27000000 / 900900 is halved nine times. *)
Lemma truncate_framerate_run :
  (0 <= 27000000 <= INT_MAX /\ 0 <= 900900 <= INT_MAX /\ (15 <= 15)%nat)
  /\ exists s : nat,
      (s <= 15)%nat
      /\ truncate_framerate 15 27000000 900900
         = Some (27000000 / 2 ^ Z.of_nat s, 900900 / 2 ^ Z.of_nat s)
      /\ 0 <= 27000000 / 2 ^ Z.of_nat s < 65536
      /\ 0 <= 900900 / 2 ^ Z.of_nat s < 65536
      /\ forall t : nat, (t < s)%nat ->
           65536 <= 27000000 / 2 ^ Z.of_nat t
           \/ 65536 <= 900900 / 2 ^ Z.of_nat t.
Proof.
  assert (H1 : 0 <= 27000000 <= INT_MAX) by (unfold INT_MAX; lia).
  assert (H2 : 0 <= 900900 <= INT_MAX) by (unfold INT_MAX; lia).
  assert (H3 : (15 <= 15)%nat) by lia.
  split; [repeat split; first [apply H1|apply H2|exact H3]|].
  exact (truncate_framerate_fits 27000000 900900 15 H1 H2 H3).
Defined.

Lemma truncate_framerate_value_run :
  truncate_framerate 15 27000000 900900 = Some (52734, 1759).
Proof. vm_compute. reflexivity. Qed.

(** A negative numerator keeps the loop running. *)
Lemma truncate_framerate_negative_run :
  (-30 < 0 \/ 1 < 0) /\ truncate_framerate 100 (-30) 1 = None.
Proof.
  assert (H1 : -30 < 0 \/ 1 < 0) by (left; lia).
  split; [exact H1|].
  exact (truncate_framerate_negative_runs_on (-30) 1 100 H1).
Defined.
